(** * Road segmentation models: shape bookkeeping and augmentation

    A shallow embedding of the model code of the road-segmentation
    framework (ResNet backbone, JPU module, segmentation heads, full FastFCN
    models, stride padding and the training augmentation) together with the
    properties of its specification.

    Python functions become Rocq functions.  A call that can raise returns a
    [result].  TensorFlow tensors are modelled the way a traced
    [tf.function] sees them: a node of the computation graph together with
    its static shape; every TensorFlow operation checks the shapes of its
    arguments and builds a new node. *)

From Stdlib Require Import ZArith List String Bool Lia QArith Qround Qminmax.
From Stdlib Require Import Lqa Qpower Ascii DecimalString DecimalZ DecimalN DecimalPos Finite.
Import ListNotations.
Open Scope Z_scope.

Set Warnings "-register-all".

(** ** Python results *)

Inductive exn : Type :=
| ValueError
| TypeError
| IndexError
| ZeroDivisionError
| InvalidArgumentError.

Inductive result (A : Type) : Type :=
| Ok (a : A)
| Raise (e : exn).

Arguments Ok {A} a.
Arguments Raise {A} e.

Definition bind {A B : Type} (r : result A) (k : A -> result B) : result B :=
  match r with
  | Ok a => k a
  | Raise e => Raise e
  end.

Notation "x <- r ;; k" := (bind r (fun x => k))
  (at level 61, r at next level, right associativity).
Notation "' pat <- r ;; k" := (bind r (fun x => match x with pat => k end))
  (at level 61, pat pattern, r at next level, right associativity).

(** ** Python integer arithmetic

    [%] and [//] on Python integers are floored, as [Z.modulo] and [Z.div]
    are; a zero divisor raises. *)

Definition py_mod (a b : Z) : result Z :=
  if b =? 0 then Raise ZeroDivisionError else Ok (a mod b).

Definition py_floordiv (a b : Z) : result Z :=
  if b =? 0 then Raise ZeroDivisionError else Ok (a / b).

(** [tf.math.ceil(a / 2)] for an integer [a]: the true quotient rounded
    towards plus infinity, kept as an integer. *)
Definition ceil_half (a : Z) : Z := - ((- a) / 2).

(** ** Symbolic tensors *)

Definition Shape := list Z.

Inductive Padding : Type := SAME | VALID.
Inductive Interpolation : Type := nearest | bilinear.
Inductive PadMode : Type := CONSTANT | REFLECT | SYMMETRIC.

(** Nodes of the traced computation graph.  A layer node carries the name of
    the layer object that owns the weights. *)
Inductive Op : Type :=
| Placeholder (name : string)
| PadOp (paddings : list (Z * Z)) (mode : PadMode) (x : Op)
| Conv2DOp (layer : string) (filters kernel_size : Z) (strides : Z * Z)
    (padding : Padding) (x : Op)
| SeparableConv2DOp (layer : string) (filters kernel_size dilation_rate : Z)
    (padding : Padding) (x : Op)
| BatchNormalizationOp (layer : string) (x : Op)
| ReLUOp (x : Op)
| AddOp (x y : Op)
| MaxPooling2DOp (pool_size : Z * Z) (x : Op)
| UpSampling2DOp (size : Z * Z) (interpolation : Interpolation) (x : Op)
| SpatialDropout2DOp (layer : string) (x : Op)
| ConcatOp (xs : list Op)
| ResizeWithCropOrPadOp (target_height target_width : Z) (x : Op)
| ExternalOp (module : string) (output : nat) (x : Op).

Record Tensor : Type := mkTensor { op : Op; shape : Shape }.

Definition placeholder (name : string) (s : Shape) : Tensor :=
  mkTensor (Placeholder name) s.

(** [inputs.shape[i]] *)
Definition shape_at (t : Tensor) (i : nat) : result Z :=
  match nth_error (shape t) i with
  | Some d => Ok d
  | None => Raise IndexError
  end.

(** ** [tf.pad]

    One [(before, after)] pair per axis.  Paddings are non-negative; in
    REFLECT mode both are at most [dim - 1], in SYMMETRIC mode at most
    [dim]. *)

Definition pad_admissible (mode : PadMode) (d : Z) (p : Z * Z) : bool :=
  let '(before, after) := p in
  (0 <=? before) && (0 <=? after) &&
  match mode with
  | CONSTANT => true
  | REFLECT => (before <=? d - 1) && (after <=? d - 1)
  | SYMMETRIC => (before <=? d) && (after <=? d)
  end.

Fixpoint pad_shape (mode : PadMode) (s : Shape) (paddings : list (Z * Z))
  : result Shape :=
  match s, paddings with
  | [], [] => Ok []
  | d :: s', p :: ps =>
      if pad_admissible mode d p
      then (rest <- pad_shape mode s' ps ;; Ok ((fst p + d + snd p) :: rest))
      else Raise InvalidArgumentError
  | _, _ => Raise ValueError
  end.

Definition tf_pad (inputs : Tensor) (paddings : list (Z * Z)) (mode : PadMode)
  : result Tensor :=
  s <- pad_shape mode (shape inputs) paddings ;;
  Ok (mkTensor (PadOp paddings mode (op inputs)) s).

(** ** experiments/baseline_fastfcn.py: [pad_to_stride] *)

(** [target_stride - (dim % target_stride)] *)
Definition missing (dim target_stride : Z) : result Z :=
  r <- py_mod dim target_stride ;;
  Ok (target_stride - r).

(** [(missing // 2, tf.math.ceil(missing / 2))] *)
Definition split_padding (m : Z) : Z * Z := (m / 2, ceil_half m).

Definition pad_to_stride_paddings (inputs : Tensor) (target_stride : Z)
  : result (list (Z * Z)) :=
  height <- shape_at inputs 1 ;;
  missing_y <- missing height target_stride ;;
  width <- shape_at inputs 2 ;;
  missing_x <- missing width target_stride ;;
  Ok [ (0, 0); split_padding missing_y; split_padding missing_x; (0, 0) ].

Definition pad_to_stride (inputs : Tensor) (target_stride : Z) (mode : PadMode)
  : result Tensor :=
  paddings <- pad_to_stride_paddings inputs target_stride ;;
  tf_pad inputs paddings mode.

(** ** Python objects returned by a model

    A Keras model returns a tensor, a sequence of tensors or, when its
    [call] has no [return], [None]. *)

Inductive PyObject : Type :=
| PyNone
| PyTensor (t : Tensor)
| PyList (l : list Tensor).

(** [l[-k:]] on a Python sequence *)
Definition py_slice_last {A : Type} (k : nat) (l : list A) : list A :=
  skipn (List.length l - k) l.

(** [obj[-3:]]: [None] is not subscriptable; a tensor is sliced along its
    first axis. *)
Definition py_last3 (obj : PyObject) : result PyObject :=
  match obj with
  | PyNone => Raise TypeError
  | PyList l => Ok (PyList (py_slice_last 3 l))
  | PyTensor t =>
      match shape t with
      | n :: rest =>
          Ok (PyTensor (mkTensor (ExternalOp "strided_slice" 0 (op t))
                          (Z.min n 3 :: rest)))
      | [] => Raise IndexError
      end
  end.

(** [a, b, c = obj]: a sequence of exactly three tensors; a symbolic tensor
    cannot be iterated while a graph is traced. *)
Definition py_unpack3 (obj : PyObject) : result (Tensor * Tensor * Tensor) :=
  match obj with
  | PyList [a; b; c] => Ok (a, b, c)
  | PyList _ => Raise ValueError
  | _ => Raise TypeError
  end.

(** A call [f(keyword=value, ...)] of a function that has the named
    [parameters] and no [**kwargs]: a keyword that is not among them raises
    [TypeError] before the body runs. *)
Definition py_call_keywords {A : Type} (parameters keywords : list string)
    (body : result A) : result A :=
  if forallb (fun keyword => existsb (String.eqb keyword) parameters) keywords
  then body
  else Raise TypeError.

(** ** Keras layers (shapes)

    Initialisers, regularisers and weight decay configure training only and
    are left out of the layer records. *)

(** [conv_utils.conv_output_length] of Keras; a window that does not fit a
    VALID input is rejected (negative dimension size). *)
Definition conv_output_length (input_length filter_size : Z) (padding : Padding)
    (stride dilation : Z) : result Z :=
  let dilated_filter_size := filter_size + (filter_size - 1) * (dilation - 1) in
  match padding with
  | SAME => Ok ((input_length + stride - 1) / stride)
  | VALID =>
      if input_length <? dilated_filter_size then Raise ValueError
      else Ok ((input_length - dilated_filter_size + 1 + stride - 1) / stride)
  end.

Module Conv2D.
Record t : Type := mk {
  name : string;
  filters : Z;
  kernel_size : Z;
  strides : Z * Z;
  padding : Padding;
  use_bias : bool
}.

Definition call (self : t) (inputs : Tensor) : result Tensor :=
  match shape inputs with
  | [n; h; w; _] =>
      h' <- conv_output_length h (kernel_size self) (padding self)
              (fst (strides self)) 1 ;;
      w' <- conv_output_length w (kernel_size self) (padding self)
              (snd (strides self)) 1 ;;
      Ok (mkTensor
            (Conv2DOp (name self) (filters self) (kernel_size self)
               (strides self) (padding self) (op inputs))
            [n; h'; w'; filters self])
  | _ => Raise ValueError
  end.
End Conv2D.

Module SeparableConv2D.
Record t : Type := mk {
  name : string;
  filters : Z;
  kernel_size : Z;
  padding : Padding;
  dilation_rate : Z;
  depth_multiplier : Z;
  use_bias : bool
}.

Definition call (self : t) (inputs : Tensor) : result Tensor :=
  match shape inputs with
  | [n; h; w; _] =>
      h' <- conv_output_length h (kernel_size self) (padding self) 1
              (dilation_rate self) ;;
      w' <- conv_output_length w (kernel_size self) (padding self) 1
              (dilation_rate self) ;;
      Ok (mkTensor
            (SeparableConv2DOp (name self) (filters self) (kernel_size self)
               (dilation_rate self) (padding self) (op inputs))
            [n; h'; w'; filters self])
  | _ => Raise ValueError
  end.
End SeparableConv2D.

Module BatchNormalization.
Record t : Type := mk { name : string }.

Definition call (self : t) (inputs : Tensor) : result Tensor :=
  Ok (mkTensor (BatchNormalizationOp (name self) (op inputs)) (shape inputs)).
End BatchNormalization.

Module ReLU.
Inductive t : Type := mk.

Definition call (self : t) (inputs : Tensor) : result Tensor :=
  Ok (mkTensor (ReLUOp (op inputs)) (shape inputs)).
End ReLU.

Module MaxPooling2D.
(** [strides] defaults to [pool_size], [padding] to ['valid']. *)
Record t : Type := mk { pool_size : Z * Z }.

Definition call (self : t) (inputs : Tensor) : result Tensor :=
  match shape inputs with
  | [n; h; w; c] =>
      h' <- conv_output_length h (fst (pool_size self)) VALID
              (fst (pool_size self)) 1 ;;
      w' <- conv_output_length w (snd (pool_size self)) VALID
              (snd (pool_size self)) 1 ;;
      Ok (mkTensor (MaxPooling2DOp (pool_size self) (op inputs)) [n; h'; w'; c])
  | _ => Raise ValueError
  end.
End MaxPooling2D.

Module UpSampling2D.
Record t : Type := mk { size : Z * Z; interpolation : Interpolation }.

Definition call (self : t) (inputs : Tensor) : result Tensor :=
  match shape inputs with
  | [n; h; w; c] =>
      Ok (mkTensor
            (UpSampling2DOp (size self) (interpolation self) (op inputs))
            [n; h * fst (size self); w * snd (size self); c])
  | _ => Raise ValueError
  end.
End UpSampling2D.

Module SpatialDropout2D.
Record t : Type := mk { name : string; rate : Q }.

Definition call (self : t) (inputs : Tensor) : result Tensor :=
  match shape inputs with
  | [_; _; _; _] =>
      Ok (mkTensor (SpatialDropout2DOp (name self) (op inputs)) (shape inputs))
  | _ => Raise ValueError
  end.
End SpatialDropout2D.

(** ** [tf.concat(values, axis=-1)]

    All values agree on every axis but the last. *)

Fixpoint concat_last_dim (leading : Shape) (values : list Tensor) : result Z :=
  match values with
  | [] => Ok 0
  | v :: vs =>
      match shape v with
      | [] => Raise ValueError
      | _ :: _ =>
          if list_eq_dec Z.eq_dec (removelast (shape v)) leading
          then (c <- concat_last_dim leading vs ;; Ok (last (shape v) 0 + c))
          else Raise ValueError
      end
  end.

Definition tf_concat (values : list Tensor) : result Tensor :=
  match values with
  | [] => Raise ValueError
  | v :: _ =>
      let leading := removelast (shape v) in
      c <- concat_last_dim leading values ;;
      Ok (mkTensor (ConcatOp (map op values)) (leading ++ [c]))
  end.

(** ** [tf.image.resize_with_crop_or_pad]

    Centrally crops or zero-pads a batch to the target size; the target and
    the image dimensions must be positive. *)
Definition tf_image_resize_with_crop_or_pad (image : Tensor)
    (target_height target_width : Z) : result Tensor :=
  match shape image with
  | [n; h; w; c] =>
      if (0 <? target_height) && (0 <? target_width)
         && (0 <? h) && (0 <? w) && (0 <? c)
      then Ok (mkTensor
                 (ResizeWithCropOrPadOp target_height target_width (op image))
                 [n; target_height; target_width; c])
      else Raise ValueError
  | _ => Raise ValueError
  end.

(** ** models/resnet.py *)

Module ResNetLayer.
(** [__init__] stores none of its arguments and [call] has no [return]
    (both bodies are [pass  # TODO]). *)
Inductive t : Type := mk.

Definition init (blocks initial_features : Z) (downsample : bool) : t := mk.

Definition call (self : t) (inputs : PyObject) : result PyObject := Ok PyNone.
End ResNetLayer.

Module ResNetBackbone.
Definition _INITIAL_FILTERS : Z := 64.

Record t : Type := mk {
  conv_in : Conv2D.t;
  batch_norm_in : BatchNormalization.t;
  activation_in : ReLU.t;
  pool_in : MaxPooling2D.t;
  residual_layers : list ResNetLayer.t
}.

(** [[ResNetLayer(current_blocks, _INITIAL_FILTERS * 2 ** idx, idx > 0)
      for idx, current_blocks in enumerate(blocks)]] *)
Fixpoint make_residual_layers (idx : Z) (blocks : list Z) : list ResNetLayer.t :=
  match blocks with
  | [] => []
  | current_blocks :: rest =>
      ResNetLayer.init current_blocks (_INITIAL_FILTERS * 2 ^ idx) (0 <? idx)
        :: make_residual_layers (idx + 1) rest
  end.

Definition init (blocks : list Z) : t :=
  {| conv_in := Conv2D.mk "conv_in" _INITIAL_FILTERS 7 (2, 2) SAME true;
     batch_norm_in := BatchNormalization.mk "batch_norm_in";
     activation_in := ReLU.mk;
     pool_in := MaxPooling2D.mk (2, 2);
     residual_layers := make_residual_layers 0 blocks |}.

(** The loop over [self.residual_layers]. *)
Fixpoint run_layers (layers : list ResNetLayer.t) (features : PyObject)
  : result PyObject :=
  match layers with
  | [] => Ok features
  | current_layer :: rest =>
      features' <- ResNetLayer.call current_layer features ;;
      run_layers rest features'
  end.

Definition call (self : t) (inputs : Tensor) : result PyObject :=
  initial_features <- Conv2D.call (conv_in self) inputs ;;
  initial_features <- BatchNormalization.call (batch_norm_in self) initial_features ;;
  initial_features <- ReLU.call (activation_in self) initial_features ;;
  features <- MaxPooling2D.call (pool_in self) initial_features ;;
  run_layers (residual_layers self) (PyTensor features).
End ResNetBackbone.

Module ResNet50Backbone.
(** [def __init__(self)]: no parameter besides [self]. *)
Definition parameters : list string := [].

Definition init : ResNetBackbone.t := ResNetBackbone.init [3; 4; 6; 3].
End ResNet50Backbone.

Module ResNet101Backbone.
Definition parameters : list string := [].

Definition init : ResNetBackbone.t := ResNetBackbone.init [3; 4; 23; 3].
End ResNet101Backbone.

Module BottleneckBlock.
Record t : Type := mk {
  conv_in : Conv2D.t;
  batch_norm_in : BatchNormalization.t;
  activation_in : ReLU.t;
  conv_middle : Conv2D.t;
  batch_norm_middle : BatchNormalization.t;
  activation_middle : ReLU.t;
  conv_out : Conv2D.t;
  batch_norm_out : BatchNormalization.t
}.

Definition init (filters_in : Z) (downsample : bool) : t :=
  let strides_in := if downsample then (2, 2) else (1, 1) in
  {| conv_in := Conv2D.mk "conv_in" filters_in 1 strides_in SAME true;
     batch_norm_in := BatchNormalization.mk "batch_norm_in";
     activation_in := ReLU.mk;
     conv_middle := Conv2D.mk "conv_middle" filters_in 3 (1, 1) SAME true;
     batch_norm_middle := BatchNormalization.mk "batch_norm_middle";
     activation_middle := ReLU.mk;
     conv_out := Conv2D.mk "conv_out" (4 * filters_in) 1 (1, 1) SAME true;
     batch_norm_out := BatchNormalization.mk "batch_norm_out" |}.

Definition call (self : t) (inputs : Tensor) : result Tensor :=
  features <- Conv2D.call (conv_in self) inputs ;;
  features <- BatchNormalization.call (batch_norm_in self) features ;;
  features1 <- ReLU.call (activation_in self) features ;;
  features <- Conv2D.call (conv_middle self) features1 ;;
  features <- BatchNormalization.call (batch_norm_middle self) features ;;
  features2 <- ReLU.call (activation_middle self) features ;;
  features <- Conv2D.call (conv_out self) features2 ;;
  output <- BatchNormalization.call (batch_norm_out self) features ;;
  Ok output.
End BottleneckBlock.

(** ** models/fastfcn.py *)

Definition OUTPUT_STRIDE : Z := 8.

Module JPUInputBlock.
Record t : Type := mk {
  conv : Conv2D.t;
  batch_norm : BatchNormalization.t;
  activation : ReLU.t
}.

Definition init (name : string) (features : Z) : t :=
  {| conv := Conv2D.mk (name ++ "/conv") features 3 (1, 1) SAME false;
     batch_norm := BatchNormalization.mk (name ++ "/batch_norm");
     activation := ReLU.mk |}.

Definition call (self : t) (inputs : Tensor) : result Tensor :=
  features <- Conv2D.call (conv self) inputs ;;
  features <- BatchNormalization.call (batch_norm self) features ;;
  output <- ReLU.call (activation self) features ;;
  Ok output.
End JPUInputBlock.

Module JPUSeparableBlock.
Record t : Type := mk {
  conv : SeparableConv2D.t;
  batch_norm : BatchNormalization.t;
  activation : ReLU.t
}.

Definition init (name : string) (features dilation_rate : Z) : t :=
  {| conv := SeparableConv2D.mk (name ++ "/conv") features 3 SAME dilation_rate 1 false;
     batch_norm := BatchNormalization.mk (name ++ "/batch_norm");
     activation := ReLU.mk |}.

Definition call (self : t) (inputs : Tensor) : result Tensor :=
  features <- SeparableConv2D.call (conv self) inputs ;;
  features <- BatchNormalization.call (batch_norm self) features ;;
  output <- ReLU.call (activation self) features ;;
  Ok output.
End JPUSeparableBlock.

(** [[f(x) for x in xs]] where [f] can raise *)
Fixpoint result_map {A B : Type} (f : A -> result B) (xs : list A)
  : result (list B) :=
  match xs with
  | [] => Ok []
  | x :: rest =>
      y <- f x ;;
      ys <- result_map f rest ;;
      Ok (y :: ys)
  end.

Module JPUModule.
Definition _INTERPOLATION : Interpolation := bilinear.
Definition _DILATION_RATES : list Z := [1; 2; 4; 8].

Record t : Type := mk {
  initial_s32 : JPUInputBlock.t;
  initial_s16 : JPUInputBlock.t;
  initial_s8 : JPUInputBlock.t;
  upsampling_s32 : UpSampling2D.t;
  upsampling_s16 : UpSampling2D.t;
  separable_blocks : list JPUSeparableBlock.t
}.

Definition init (features : Z) : t :=
  {| initial_s32 := JPUInputBlock.init "initial_s32" features;
     initial_s16 := JPUInputBlock.init "initial_s16" features;
     initial_s8 := JPUInputBlock.init "initial_s8" features;
     upsampling_s32 := UpSampling2D.mk (4, 4) _INTERPOLATION;
     upsampling_s16 := UpSampling2D.mk (2, 2) _INTERPOLATION;
     separable_blocks :=
       map (fun dilation_rate =>
              JPUSeparableBlock.init "separable_block" features dilation_rate)
           _DILATION_RATES |}.

Definition call (self : t) (inputs : PyObject) : result Tensor :=
  '(inputs_s8, inputs_s16, inputs_s32) <- py_unpack3 inputs ;;
  features_s8 <- JPUInputBlock.call (initial_s8 self) inputs_s8 ;;
  features_s16 <- JPUInputBlock.call (initial_s16 self) inputs_s16 ;;
  features_s32 <- JPUInputBlock.call (initial_s32 self) inputs_s32 ;;
  upsampled_s16 <- UpSampling2D.call (upsampling_s16 self) features_s16 ;;
  upsampled_s32 <- UpSampling2D.call (upsampling_s32 self) features_s32 ;;
  dilation_inputs <- tf_concat [features_s8; upsampled_s16; upsampled_s32] ;;
  dilation_outputs <-
    result_map (fun block => JPUSeparableBlock.call block dilation_inputs)
      (separable_blocks self) ;;
  output <- tf_concat dilation_outputs ;;
  Ok output.
End JPUModule.

Module ContextEncodingModule.
(** Modelled from the spec: [rs.models.encnet.ContextEncodingModule] is not
    among the sources.  It takes stride-8 features and returns the
    re-weighted features, of the same shape, together with a fixed-length
    encoding per sample. *)
Record t : Type := mk { codewords : Z; se_loss_features : Z }.

Definition call (self : t) (inputs : Tensor) : result (Tensor * Tensor) :=
  match shape inputs with
  | [n; _; _; _] =>
      Ok (mkTensor (ExternalOp "encnet.ContextEncodingModule" 0 (op inputs))
            (shape inputs),
          mkTensor (ExternalOp "encnet.ContextEncodingModule" 1 (op inputs))
            [n; se_loss_features self])
  | _ => Raise ValueError
  end.
End ContextEncodingModule.

Module EncoderHead.
Record t : Type := mk {
  conv_in : Conv2D.t;
  batch_norm_in : BatchNormalization.t;
  activation_in : ReLU.t;
  encoder : ContextEncodingModule.t;
  dropout : SpatialDropout2D.t;
  conv_out : Conv2D.t
}.

Definition init (intermediate_features se_loss_features codewords : Z)
    (dropout_rate : Q) : t :=
  {| conv_in := Conv2D.mk "head/conv_in" intermediate_features 1 (1, 1) VALID false;
     batch_norm_in := BatchNormalization.mk "head/batch_norm_in";
     activation_in := ReLU.mk;
     encoder := ContextEncodingModule.mk codewords se_loss_features;
     dropout := SpatialDropout2D.mk "head/dropout" dropout_rate;
     conv_out := Conv2D.mk "head/conv_out" 1 1 (1, 1) VALID true |}.

Definition call (self : t) (inputs : Tensor) : result (Tensor * Tensor) :=
  compressed_features <- Conv2D.call (conv_in self) inputs ;;
  compressed_features <- BatchNormalization.call (batch_norm_in self) compressed_features ;;
  compressed_features <- ReLU.call (activation_in self) compressed_features ;;
  '(weighted_features, se_loss_features) <-
    ContextEncodingModule.call (encoder self) compressed_features ;;
  pre_output_features <- SpatialDropout2D.call (dropout self) weighted_features ;;
  output_features <- Conv2D.call (conv_out self) pre_output_features ;;
  Ok (output_features, se_loss_features).
End EncoderHead.

Module FCNHeadNoContext.
Record t : Type := mk {
  conv_in : Conv2D.t;
  batch_norm_in : BatchNormalization.t;
  activation_in : ReLU.t;
  dropout : SpatialDropout2D.t;
  conv_out : Conv2D.t
}.

Definition init (intermediate_features : Z) (dropout_rate : Q) : t :=
  {| conv_in := Conv2D.mk "head/conv_in" intermediate_features 1 (1, 1) VALID false;
     batch_norm_in := BatchNormalization.mk "head/batch_norm_in";
     activation_in := ReLU.mk;
     dropout := SpatialDropout2D.mk "head/dropout" dropout_rate;
     conv_out := Conv2D.mk "head/conv_out" 1 1 (1, 1) VALID true |}.

Definition call (self : t) (inputs : Tensor) : result Tensor :=
  compressed_features <- Conv2D.call (conv_in self) inputs ;;
  compressed_features <- BatchNormalization.call (batch_norm_in self) compressed_features ;;
  compressed_features <- ReLU.call (activation_in self) compressed_features ;;
  pre_output_features <- SpatialDropout2D.call (dropout self) compressed_features ;;
  output_features <- Conv2D.call (conv_out self) pre_output_features ;;
  Ok output_features.
End FCNHeadNoContext.

Module FCNHead.
Record t : Type := mk {
  conv_in : Conv2D.t;
  batch_norm_in : BatchNormalization.t;
  activation_in : ReLU.t;
  conv_middle : Conv2D.t;
  batch_norm_middle : BatchNormalization.t;
  activation_middle : ReLU.t;
  dropout : SpatialDropout2D.t;
  conv_out : Conv2D.t
}.

Definition init (intermediate_features : Z) (dropout_rate : Q) : t :=
  {| conv_in := Conv2D.mk "head/conv_in" intermediate_features 1 (1, 1) VALID false;
     batch_norm_in := BatchNormalization.mk "head/batch_norm_in";
     activation_in := ReLU.mk;
     conv_middle := Conv2D.mk "head/conv_middle" intermediate_features 3 (1, 1) SAME false;
     batch_norm_middle := BatchNormalization.mk "head/batch_norm_middle";
     activation_middle := ReLU.mk;
     dropout := SpatialDropout2D.mk "head/dropout" dropout_rate;
     conv_out := Conv2D.mk "head/conv_out" 1 1 (1, 1) VALID true |}.

Definition call (self : t) (inputs : Tensor) : result Tensor :=
  compressed_features <- Conv2D.call (conv_in self) inputs ;;
  compressed_features <- BatchNormalization.call (batch_norm_in self) compressed_features ;;
  compressed_features <- ReLU.call (activation_in self) compressed_features ;;
  intermediate_features <- Conv2D.call (conv_middle self) compressed_features ;;
  intermediate_features <- BatchNormalization.call (batch_norm_middle self) intermediate_features ;;
  intermediate_features <- ReLU.call (activation_middle self) intermediate_features ;;
  intermediate_features <- SpatialDropout2D.call (dropout self) intermediate_features ;;
  output_features <- Conv2D.call (conv_out self) intermediate_features ;;
  Ok output_features.
End FCNHead.

(** A [tf.keras.Model] used as a backbone, seen through its [__call__]. *)
Definition KerasModel : Type := Tensor -> result PyObject.

(** [_, input_height, input_width, _ = tf.unstack(tf.shape(inputs))] *)
Definition unstack_shape4 (inputs : Tensor) : result (Z * Z * Z * Z) :=
  match shape inputs with
  | [n; h; w; c] => Ok (n, h, w, c)
  | _ => Raise ValueError
  end.

(** [rs.util.pad_to_stride]: the module [rs.util] is not among the sources;
    the function is the one of experiments/baseline_fastfcn.py, which that
    file announces to move there. *)
Definition util_pad_to_stride := pad_to_stride.

Module FastFCN.
Record t : Type := mk {
  backbone : KerasModel;
  upsampling : JPUModule.t;
  head : EncoderHead.t
}.

Definition init (backbone : KerasModel) (jpu_features : Z)
    (head_dropout_rate : Q) (se_loss_features codewords : Z) : t :=
  {| backbone := backbone;
     upsampling := JPUModule.init jpu_features;
     head := EncoderHead.init 512 se_loss_features codewords head_dropout_rate |}.

Definition call (self : t) (inputs : Tensor) : result (Tensor * Tensor) :=
  '(_, input_height, input_width, _) <- unstack_shape4 inputs ;;
  padded_inputs <- util_pad_to_stride inputs 32 REFLECT ;;
  features <- backbone self padded_inputs ;;
  intermediate_features <- py_last3 features ;;
  upsampled_features <- JPUModule.call (upsampling self) intermediate_features ;;
  '(small_outputs, loss_features) <- EncoderHead.call (head self) upsampled_features ;;
  cropped_outputs <-
    tf_image_resize_with_crop_or_pad small_outputs (input_height / 8) (input_width / 8) ;;
  Ok (cropped_outputs, loss_features).
End FastFCN.

Module FastFCNNoContext.
Record t : Type := mk {
  backbone : KerasModel;
  upsampling : JPUModule.t;
  head : FCNHeadNoContext.t
}.

Definition init (backbone : KerasModel) (jpu_features : Z)
    (head_dropout_rate : Q) : t :=
  {| backbone := backbone;
     upsampling := JPUModule.init jpu_features;
     head := FCNHeadNoContext.init 512 head_dropout_rate |}.

Definition call (self : t) (inputs : Tensor) : result Tensor :=
  '(_, input_height, input_width, _) <- unstack_shape4 inputs ;;
  padded_inputs <- util_pad_to_stride inputs 32 REFLECT ;;
  features <- backbone self padded_inputs ;;
  intermediate_features <- py_last3 features ;;
  upsampled_features <- JPUModule.call (upsampling self) intermediate_features ;;
  small_outputs <- FCNHeadNoContext.call (head self) upsampled_features ;;
  outputs <-
    tf_image_resize_with_crop_or_pad small_outputs (input_height / 8) (input_width / 8) ;;
  Ok outputs.
End FastFCNNoContext.

(** ** experiments/baseline_fastfcn.py: [TestFastFCN] *)

Module TestFastFCN.
Record t : Type := mk {
  backbone : KerasModel;
  upsampling : JPUModule.t;
  head : FCNHead.t;
  output_upsampling : UpSampling2D.t
}.

(** [__init__] first builds its backbone by
    [rs.models.resnet.ResNet50Backbone(weight_decay=weight_decay)], then the
    JPU module and the FCN head of [rs.models.jpu], the module that
    models/fastfcn.py holds now (the head with its default dropout rate
    0.1), and the output upsampling. *)
Definition init (jpu_features : Z) (weight_decay : Q)
    (output_upsampling : Interpolation) : result t :=
  backbone <-
    py_call_keywords ResNet50Backbone.parameters ["weight_decay"%string]
      (Ok ResNet50Backbone.init) ;;
  Ok {| backbone := ResNetBackbone.call backbone;
        upsampling := JPUModule.init jpu_features;
        head := FCNHead.init 256 (1 # 10);
        output_upsampling := UpSampling2D.mk (8, 8) output_upsampling |}.

Definition call (self : t) (inputs : Tensor) : result Tensor :=
  '(_, input_height, input_width, _) <- unstack_shape4 inputs ;;
  padded_inputs <- pad_to_stride inputs 32 REFLECT ;;
  features <- backbone self padded_inputs ;;
  intermediate_features <- py_last3 features ;;
  upsampled_features <- JPUModule.call (upsampling self) intermediate_features ;;
  small_outputs <- FCNHead.call (head self) upsampled_features ;;
  padded_outputs <- UpSampling2D.call (output_upsampling self) small_outputs ;;
  outputs <- tf_image_resize_with_crop_or_pad padded_outputs input_height input_width ;;
  Ok outputs.
End TestFastFCN.



(** A backbone that meets the contract documented by [FastFCN.__init__]:
    feature maps at strides 4, 8, 16 and 32 of its input. *)
Definition strided_backbone : KerasModel := fun inputs =>
  match shape inputs with
  | [n; h; w; _] =>
      Ok (PyList
            (map (fun '(k, stride, channels) =>
                    mkTensor (ExternalOp "backbone" k (op inputs))
                      [n; h / stride; w / stride; channels])
               [(0%nat, 4, 256); (1%nat, 8, 512); (2%nat, 16, 1024);
                (3%nat, 32, 2048)]))
  | _ => Raise ValueError
  end.

Definition stride_features (n h w : Z) (l : list Tensor) : Prop :=
  exists rest f8 f16 f32 c8 c16 c32,
    l = rest ++ [f8; f16; f32] /\
    shape f8 = [n; h / 8; w / 8; c8] /\
    shape f16 = [n; h / 16; w / 16; c16] /\
    shape f32 = [n; h / 32; w / 32; c32].

(** The contract [FastFCN.__init__] documents for its backbone: on a padded
    input it returns a sequence whose last three feature maps have strides
    8, 16 and 32. *)
Definition backbone_contract (b : KerasModel) : Prop :=
  forall x n h w c,
    shape x = [n; h; w; c] -> 0 < h -> 0 < w -> (32 | h) -> (32 | w) ->
    exists l, b x = Ok (PyList l) /\ stride_features n h w l.

(** ** Image arrays with values

    The augmentation works on single samples [height, width, channels].
    Pixel values are rationals; an array is its three dimensions and its
    indexing function. *)

Record Array3 : Type := mkArray3 {
  dim_y : Z;
  dim_x : Z;
  dim_c : Z;
  item : Z -> Z -> Z -> Q
}.

Definition in_range (a : Array3) (y x c : Z) : Prop :=
  0 <= y < dim_y a /\ 0 <= x < dim_x a /\ 0 <= c < dim_c a.

(** [tf.round]: to the nearest integer, halves to the even one. *)
Definition round_half_even (q : Q) : Z :=
  let f := Qfloor q in
  match Qcompare (q - inject_Z f) (1 # 2) with
  | Lt => f
  | Gt => f + 1
  | Eq => if Z.even f then f else f + 1
  end.

Definition tf_round (a : Array3) : Array3 :=
  mkArray3 (dim_y a) (dim_x a) (dim_c a)
    (fun y x c => inject_Z (round_half_even (item a y x c))).

(** Source index of nearest-neighbour resizing with half-pixel centres:
    [max(0, min(floor((i + 0.5) * in_size / out_size), in_size - 1))]. *)
Definition nearest_index (i in_size out_size : Z) : Z :=
  Z.max 0 (Z.min (((2 * i + 1) * in_size) / (2 * out_size)) (in_size - 1)).

(** [tf.concat((a, b), axis=-1)] on two samples *)
Definition tf_concat3 (a b : Array3) : result Array3 :=
  if (dim_y a =? dim_y b) && (dim_x a =? dim_x b)
  then Ok (mkArray3 (dim_y a) (dim_x a) (dim_c a + dim_c b)
             (fun y x c =>
                if c <? dim_c a then item a y x c else item b y x (c - dim_c a)))
  else Raise ValueError.

(** [tf.image.flip_left_right] *)
Definition flip_left_right (a : Array3) : Array3 :=
  mkArray3 (dim_y a) (dim_x a) (dim_c a)
    (fun y x c => item a y (dim_x a - 1 - x) c).

(** [tf.image.random_flip_left_right], the coin given *)
Definition tf_image_random_flip_left_right (flip : bool) (a : Array3) : Array3 :=
  if flip then flip_left_right a else a.

(** [tf.image.rot90(image, k)]: [k mod 4] counter-clockwise quarter turns.
    One turn is [transpose(reverse(image, [1]))], two are
    [reverse(image, [0, 1])], three [reverse(transpose(image), [1])]. *)
Definition tf_image_rot90 (a : Array3) (k : Z) : Array3 :=
  let k := k mod 4 in
  if k =? 1 then
    mkArray3 (dim_x a) (dim_y a) (dim_c a)
      (fun y x c => item a x (dim_x a - 1 - y) c)
  else if k =? 2 then
    mkArray3 (dim_y a) (dim_x a) (dim_c a)
      (fun y x c => item a (dim_y a - 1 - y) (dim_x a - 1 - x) c)
  else if k =? 3 then
    mkArray3 (dim_x a) (dim_y a) (dim_c a)
      (fun y x c => item a (dim_y a - 1 - x) y c)
  else a.

(** [tf.image.random_crop(value, size)]: needs [value.shape >= size]; the
    offset is a raw uniform integer modulo [shape - size + 1].  Sizes are
    non-negative (the size -1 that [tf.slice] reads as "to the end" is not
    used by the experiments and is rejected here). *)
Definition tf_image_random_crop (raw : Z * Z * Z) (value : Array3)
    (size : Z * Z * Z) : result Array3 :=
  let '(raw_y, raw_x, raw_c) := raw in
  let '(size_y, size_x, size_c) := size in
  if (0 <=? size_y) && (0 <=? size_x) && (0 <=? size_c)
     && (size_y <=? dim_y value) && (size_x <=? dim_x value)
     && (size_c <=? dim_c value)
  then
    let offset_y := raw_y mod (dim_y value - size_y + 1) in
    let offset_x := raw_x mod (dim_x value - size_x + 1) in
    let offset_c := raw_c mod (dim_c value - size_c + 1) in
    Ok (mkArray3 size_y size_x size_c
          (fun y x c => item value (offset_y + y) (offset_x + x) (offset_c + c)))
  else Raise InvalidArgumentError.

(** [a[:, :, :k]] and [a[:, :, k:]] for [0 <= k] *)
Definition channels_to (k : Z) (a : Array3) : Array3 :=
  mkArray3 (dim_y a) (dim_x a) (Z.min k (dim_c a)) (item a).

Definition channels_from (k : Z) (a : Array3) : Array3 :=
  mkArray3 (dim_y a) (dim_x a) (Z.max 0 (dim_c a - k))
    (fun y x c => item a y x (c + k)).

(** ** experiments/baseline_fastfcn.py: the augmentation *)

Record Parameters : Type := mkParameters {
  augmentation_max_relative_scaling : Q;
  augmentation_interpolation : Interpolation;
  augmentation_blur_probability : Q;
  augmentation_blur_size : Z;
  training_image_size : Z * Z
}.

(** The values of [build_parameter_dict]. *)
Definition default_parameters : Parameters :=
  {| augmentation_max_relative_scaling := 4 # 100;
     augmentation_interpolation := bilinear;
     augmentation_blur_probability := 1 # 2;
     augmentation_blur_size := 5;
     training_image_size := (384, 384) |}.

(** One value per random draw of [_augment_sample]: the unit-interval
    samples behind the [tf.random.uniform] calls, the coin of the flip, the
    number of rotations and the raw integers of the crop offset. *)
Record RandomDraws : Type := mkRandomDraws {
  blur_uniform : Q;
  sigma_uniform : Q;
  scaling_uniform : Q;
  flip : bool;
  num_rotations : Z;
  crop_raw : Z * Z * Z
}.

(** [tf.random.uniform(shape=[], minval, maxval)] from a unit sample *)
Definition tf_random_uniform (u minval maxval : Q) : Q :=
  (minval + u * (maxval - minval))%Q.

(** The length of an axis [start:stop] (step 1) of a grid
    [np.mgrid[start:stop, ...]] of several axes: the lengths are handed to
    [np.indices], which refuses a negative one. *)
Definition np_mgrid_length (start stop : Z) : result Z :=
  if stop - start <? 0 then Raise ValueError else Ok (stop - start).

(** [tf.reshape(tensor, shape)] on static shapes: the number of values is
    kept.  One entry of the new shape may be [-1] and is then inferred,
    which needs the other entries to have a positive product that divides
    the number of values; any other negative entry, a second [-1] or a
    different number of values is refused. *)
Definition tf_reshape (old_shape new_shape : Shape) : result Shape :=
  let values := fold_right Z.mul 1 old_shape in
  let known := filter (fun d => negb (d =? -1)) new_shape in
  let product := fold_right Z.mul 1 known in
  if existsb (fun d => d <? 0) known then Raise ValueError
  else
    match filter (fun d => d =? -1) new_shape with
    | [] => if values =? product then Ok new_shape else Raise ValueError
    | [_] =>
        if (0 <? product) && (values mod product =? 0)
        then Ok (map (fun d => if d =? -1 then values / product else d) new_shape)
        else Raise ValueError
    | _ => Raise ValueError
    end.

(** [tf.repeat(tensor, repeats, axis)] on static shapes *)
Definition tf_repeat (tensor_shape : Shape) (repeats : Z) (axis : nat)
  : result Shape :=
  match nth_error tensor_shape axis with
  | Some d => Ok (firstn axis tensor_shape ++ d * repeats :: skipn (S axis) tensor_shape)
  | None => Raise ValueError
  end.

(** The shape of the Gaussian kernel that [_augment_blur] builds: the grid
    of [np.mgrid[-half:half + 1, -half:half + 1]], reshaped to
    [(kernel_size, kernel_size, 1, 1)] and repeated three times along the
    axis of the input channels. *)
Definition blur_kernel_shape (kernel_size : Z) : result Shape :=
  let half_kernel_size := kernel_size / 2 in
  grid_height <- np_mgrid_length (- half_kernel_size) (half_kernel_size + 1) ;;
  grid_width <- np_mgrid_length (- half_kernel_size) (half_kernel_size + 1) ;;
  kernel <- tf_reshape [grid_height; grid_width] [kernel_size; kernel_size; 1; 1] ;;
  tf_repeat kernel 3 2.

Section Augmentation.

(** Floating-point image computations that the geometry does not depend on:
    the Gaussian filter response, bilinear interpolation and
    [skimage.color.rgb2lab]. *)
Variable gaussian_filter : Q -> Z -> Array3 -> Z -> Z -> Z -> Q.
Variable bilinear_interpolation : Array3 -> Z -> Z -> Z -> Z -> Z -> Q.
Variable rgb2lab : Q * Q * Q -> Q * Q * Q.

(** [tf.image.resize(images, size, method)] on one sample *)
Definition tf_image_resize (images : Array3) (size : Z * Z)
    (method : Interpolation) : result Array3 :=
  let '(new_height, new_width) := size in
  if (0 <? new_height) && (0 <? new_width)
     && (0 <? dim_y images) && (0 <? dim_x images)
  then
    Ok (mkArray3 new_height new_width (dim_c images)
          match method with
          | nearest =>
              fun y x c =>
                item images (nearest_index y (dim_y images) new_height)
                  (nearest_index x (dim_x images) new_width) c
          | bilinear => bilinear_interpolation images new_height new_width
          end)
  else Raise InvalidArgumentError.

(** The steps of [_augment_blur] that can fail: the kernel is built; the
    image is reflection-padded by half a kernel on both sides of its rows
    and columns; the depthwise convolution with stride 1 and padding
    'VALID' needs an image with the input channels of the filter that is
    not smaller than the filter, and leaves [padded - filter + 1] rows and
    columns.  The result is clipped to [0, 1]. *)
Definition _augment_blur (self : Parameters) (rnd : RandomDraws)
    (image : Array3) : result Array3 :=
  let sigma := tf_random_uniform (sigma_uniform rnd) (1 # 2) 1 in
  let kernel_size := augmentation_blur_size self in
  let half_kernel_size := kernel_size / 2 in
  kernel <- blur_kernel_shape kernel_size ;;
  let paddings := (half_kernel_size, half_kernel_size) in
  if pad_admissible REFLECT (dim_y image) paddings
     && pad_admissible REFLECT (dim_x image) paddings
     && pad_admissible REFLECT (dim_c image) (0, 0)
  then
    let padded_height := half_kernel_size + dim_y image + half_kernel_size in
    let padded_width := half_kernel_size + dim_x image + half_kernel_size in
    match kernel with
    | [filter_height; filter_width; in_channels; channel_multiplier] =>
        if (dim_c image =? in_channels)
           && (filter_height <=? padded_height) && (filter_width <=? padded_width)
        then Ok (mkArray3 (padded_height - filter_height + 1)
                   (padded_width - filter_width + 1)
                   (in_channels * channel_multiplier)
                   (fun y x c =>
                      Qmin 1 (Qmax 0 (gaussian_filter sigma kernel_size image y x c))))
        else Raise InvalidArgumentError
    | _ => Raise InvalidArgumentError
    end
  else Raise InvalidArgumentError.

(** [rgb2lab] followed by the division by [(100, 128, 128)] *)
Definition convert_colorspace (images : Array3) : result Array3 :=
  if dim_c images =? 3
  then Ok (mkArray3 (dim_y images) (dim_x images) 3
             (fun y x c =>
                let '(l, a, b) :=
                  rgb2lab (item images y x 0, item images y x 1, item images y x 2) in
                if c =? 0 then l / 100 else if c =? 1 then a / 128 else b / 128)%Q)
  else Raise ValueError.

Definition _augment_sample (self : Parameters) (rnd : RandomDraws)
    (image mask : Array3) : result (Array3 * Array3) :=
  let do_blur := negb (Qle_bool (augmentation_blur_probability self) (blur_uniform rnd)) in
  blurred_image <- (if do_blur then _augment_blur self rnd image else Ok image) ;;
  let scaling_factor :=
    tf_random_uniform (scaling_uniform rnd)
      (1 - augmentation_max_relative_scaling self)
      (1 + augmentation_max_relative_scaling self) in
  let input_height := inject_Z (dim_y blurred_image) in
  let input_width := inject_Z (dim_x blurred_image) in
  let scaled_size :=
    (round_half_even (input_height * scaling_factor),
     round_half_even (input_width * scaling_factor)) in
  scaled_image <-
    tf_image_resize blurred_image scaled_size (augmentation_interpolation self) ;;
  scaled_mask <- tf_image_resize mask scaled_size nearest ;;
  concatenated_sample <- tf_concat3 scaled_image scaled_mask ;;
  let flipped_sample :=
    tf_image_random_flip_left_right (flip rnd) concatenated_sample in
  let rotated_sample := tf_image_rot90 flipped_sample (num_rotations rnd) in
  let crop_size :=
    (fst (training_image_size self), snd (training_image_size self), 4) in
  cropped_sample <- tf_image_random_crop (crop_raw rnd) rotated_sample crop_size ;;
  let output_image := channels_to 3 cropped_sample in
  let output_mask := channels_from 3 cropped_sample in
  let output_mask := tf_round output_mask in
  output_image_lab <- convert_colorspace output_image ;;
  Ok (output_image_lab, output_mask).

End Augmentation.

(** A mask with labels 0 and 1 only; [binary_from k] asks this of the
    channels from [k] on. *)
Definition binary_from (k : Z) (a : Array3) : Prop :=
  forall y x c, in_range a y x c -> k <= c ->
    (item a y x c == 0)%Q \/ (item a y x c == 1)%Q.

Definition binary (a : Array3) : Prop := binary_from 0 a.

(** A checkerboard mask and a grey image, as test inputs. *)
Definition checkerboard (height width : Z) : Array3 :=
  mkArray3 height width 1 (fun y x _ => if Z.even (y + x) then 0%Q else 1%Q).

Definition grey_image (height width : Z) : Array3 :=
  mkArray3 height width 3 (fun _ _ _ => (1 # 2)%Q).

(** One outcome of the random draws: blur, scale by 1.02, flip, one
    quarter turn and raw crop offsets. *)
Definition sample_draws : RandomDraws :=
  {| blur_uniform := 1 # 4;
     sigma_uniform := 1 # 2;
     scaling_uniform := 3 # 4;
     flip := true;
     num_rotations := 1;
     crop_raw := (1000, 77, 5) |}.

Ltac inv_bind H :=
  match type of H with
  | bind ?r _ = Ok _ =>
      let v := fresh "v" in
      let E := fresh "E" in
      destruct r as [v |] eqn:E; [cbn [bind] in H | discriminate H]
  end.

(** ** Graphs of the JPU branches, for the statements below *)

(** Convolution, normalisation and rectification of one input block. *)
Definition input_branch (name : string) (features : Z) (x : Op) : Op :=
  ReLUOp
    (BatchNormalizationOp (name ++ "/batch_norm")
       (Conv2DOp (name ++ "/conv") features 3 (1, 1) SAME x)).

(** Separable dilated convolution, normalisation and rectification. *)
Definition separable_branch (name : string) (features : Z) (x : Op) (rate : Z) : Op :=
  ReLUOp
    (BatchNormalizationOp (name ++ "/batch_norm")
       (SeparableConv2DOp (name ++ "/conv") features 3 rate SAME x)).

(** Upsampled and concatenated results of the three input blocks. *)
Definition jpu_dilation_inputs (features : Z) (x8 x16 x32 : Op) : Op :=
  ConcatOp [ input_branch "initial_s8" features x8;
             UpSampling2DOp (2, 2) bilinear (input_branch "initial_s16" features x16);
             UpSampling2DOp (4, 4) bilinear (input_branch "initial_s32" features x32) ].

(** ** Helpers for the statements on the augmentation *)

(** One channel of a pixel after [convert_colorspace]. *)
Definition lab_channel (rgb2lab : Q * Q * Q -> Q * Q * Q) (rgb : Q * Q * Q)
    (c : Z) : Q :=
  (let '(l, a, b) := rgb2lab rgb in
   if c =? 0 then l / 100 else if c =? 1 then a / 128 else b / 128)%Q.

(** A position [(y, x)] lies within the first two dimensions. *)
Definition in_plane (height width : Z) (p : Z * Z) : Prop :=
  0 <= fst p < height /\ 0 <= snd p < width.

(** ** framework.py: experiment parameters

    The parameters of an experiment are a Python dictionary: keys in
    insertion order, none twice, each a string (or [None]). *)

Inductive PyValue : Type :=
| PyInt (z : Z)
| PyFloat (q : Q)
| PyStr (s : string)
| PyBool (b : bool)
| PyTuple (items : list PyValue).

Definition PyKey : Type := option string.
Definition PyDict : Type := list (PyKey * PyValue).

Definition key_eqb (a b : PyKey) : bool :=
  match a, b with
  | None, None => true
  | Some x, Some y => String.eqb x y
  | _, _ => false
  end.

(** [d.get(k)] *)
Fixpoint dict_get (d : PyDict) (k : PyKey) : option PyValue :=
  match d with
  | [] => None
  | (k', v) :: rest => if key_eqb k k' then Some v else dict_get rest k
  end.

(** [d[k] = v]: the value of an existing key is replaced in place, a new
    key goes to the end. *)
Fixpoint dict_set (d : PyDict) (k : PyKey) (v : PyValue) : PyDict :=
  match d with
  | [] => [(k, v)]
  | (k', v') :: rest =>
      if key_eqb k k' then (k', v) :: rest else (k', v') :: dict_set rest k v
  end.

Definition dict_keys (d : PyDict) : list PyKey := map fst d.

(** [d.update({...})] *)
Definition dict_update (d : PyDict) (items : list (PyKey * PyValue)) : PyDict :=
  fold_left (fun acc kv => dict_set acc (fst kv) (snd kv)) items d.

(** Truth value of a key: [None] and the empty string are false. *)
Definition py_truthy_key (k : PyKey) : bool :=
  match k with
  | None => false
  | Some s => negb (String.eqb s "")
  end.

(** [key is not None and str(key).startswith('base_')] *)
Definition is_base_key (key : PyKey) : bool :=
  match key with
  | None => false
  | Some k => String.prefix "base_" k
  end.

(** The parsed command line: the arguments of every experiment, those of
    a search experiment and those of the baseline experiment. *)
Record Namespace : Type := mkNamespace {
  datadir : string;
  logdir : string;
  debug : bool;
  initial_trials : Z;
  optimised_trials : Z;
  folds : Z;
  batch_size : Z;
  learning_rate : Q;
  momentum : Q;
  weight_decay : Q;
  epochs : Z
}.

Module BaseExperiment.
Section Experiment.

(** The abstract method of the concrete experiment. *)
Variable build_parameter_dict : Namespace -> PyDict.

Definition _build_parameter_dict (args : Namespace) : result PyDict :=
  let parameters := build_parameter_dict args in
  if existsb py_truthy_key (filter is_base_key (dict_keys parameters))
  then Raise ValueError
  else
    let parameters :=
      dict_set parameters (Some "base_data_directory"%string) (PyStr (datadir args)) in
    let parameters :=
      dict_set parameters (Some "base_log_directory"%string) (PyStr (logdir args)) in
    let parameters :=
      dict_set parameters (Some "base_is_debug"%string) (PyBool (debug args)) in
    Ok parameters.

End Experiment.

(** [self.parameters['base_data_directory']]; [None] stands for the
    [KeyError] of a missing key. *)
Definition data_directory (parameters : PyDict) : option PyValue :=
  dict_get parameters (Some "base_data_directory"%string).
End BaseExperiment.

Module SearchExperiment.
Section Experiment.

Variable build_parameter_dict : Namespace -> PyDict.

Definition _build_parameter_dict (args : Namespace) : result PyDict :=
  parameters <- BaseExperiment._build_parameter_dict build_parameter_dict args ;;
  Ok (dict_update parameters
        [ (Some "base_search_initial_trials"%string, PyInt (initial_trials args));
          (Some "base_search_optimised_trials"%string, PyInt (optimised_trials args));
          (Some "base_search_folds"%string, PyInt (folds args)) ]).

End Experiment.
End SearchExperiment.

Module BaselineFCNExperiment.
Definition build_parameter_dict (args : Namespace) : PyDict :=
  [ (Some "jpu_features"%string, PyInt 512);
    (Some "weight_decay"%string, PyFloat (weight_decay args));
    (Some "output_upsampling"%string, PyStr "nearest");
    (Some "batch_size"%string, PyInt (batch_size args));
    (Some "initial_learning_rate"%string, PyFloat (learning_rate args));
    (Some "end_learning_rate"%string, PyFloat (1 # 100000000));
    (Some "learning_rate_decay"%string, PyFloat (9 # 10));
    (Some "momentum"%string, PyFloat (momentum args));
    (Some "epochs"%string, PyInt (epochs args));
    (Some "augmentation_max_relative_scaling"%string, PyFloat (4 # 100));
    (Some "augmentation_interpolation"%string, PyStr "bilinear");
    (Some "augmentation_blur_probability"%string, PyFloat (1 # 2));
    (Some "augmentation_blur_size"%string, PyInt 5);
    (Some "training_image_size"%string, PyTuple [PyInt 384; PyInt 384]) ]%string.
End BaselineFCNExperiment.

(** ** framework.py: the submission file *)

(** ['0' * k] *)
Fixpoint zeros (k : nat) : string :=
  match k with
  | O => EmptyString
  | S k' => String "0" (zeros k')
  end.

(** Digits padded with zeros on the left to a width. *)
Definition zfill (width : nat) (digits : string) : string :=
  (zeros (width - String.length digits) ++ digits)%string.

(** [str(z)] and [f'{z}'] for an integer *)
Definition py_str_int (z : Z) : string := NilZero.string_of_int (Z.to_int z).

(** [f'{z:03d}']: sign-aware zero padding to width 3 *)
Definition py_format_03d (z : Z) : string :=
  match Z.to_int z with
  | Decimal.Pos d => zfill 3 (NilZero.string_of_uint d)
  | Decimal.Neg d => String "-" (zfill 2 (NilZero.string_of_uint d))
  end.

(** Strings without the separator of the output ids. *)
Fixpoint no_underscore (s : string) : bool :=
  match s with
  | EmptyString => true
  | String c rest => negb (Ascii.eqb c "_") && no_underscore rest
  end.

(** A numpy array: its shape and its items by index. *)
Record NdArray : Type := mkNdArray {
  nd_shape : list Z;
  nd_item : list Z -> Q
}.

(** The index into the original array of an index into the squeezed one. *)
Fixpoint unsqueeze_index (shape idx : list Z) : list Z :=
  match shape with
  | [] => []
  | d :: ds =>
      if d =? 1 then 0 :: unsqueeze_index ds idx
      else match idx with
           | i :: rest => i :: unsqueeze_index ds rest
           | [] => 0 :: unsqueeze_index ds []
           end
  end.

(** [np.squeeze]: the axes of length 1 are removed. *)
Definition np_squeeze (a : NdArray) : NdArray :=
  mkNdArray (filter (fun d => negb (d =? 1)) (nd_shape a))
    (fun idx => nd_item a (unsqueeze_index (nd_shape a) idx)).

(** [astype(np.int)] on one item: truncation towards zero. *)
Definition np_astype_int (q : Q) : Z :=
  if Qle_bool 0 q then Qfloor q else Qceiling q.

(** [range(0, n)] *)
Definition py_range (n : Z) : list Z := map Z.of_nat (seq 0 (Z.to_nat n)).

(** What a block of code did: it ran through, raised one of the modelled
    exceptions, or raised [KeyError]. *)
Inductive Outcome (A : Type) : Type :=
| Returned (a : A)
| Raised (e : exn)
| RaisedKeyError.

Arguments Returned {A} a.
Arguments Raised {A} e.
Arguments RaisedKeyError {A}.

(** [d[k]] on a dictionary with integer keys *)
Fixpoint lookup_sample {A : Type} (d : list (Z * A)) (k : Z) : option A :=
  match d with
  | [] => None
  | (k', v) :: rest => if k =? k' then Some v else lookup_sample rest k
  end.

Module FitExperiment.
Section Submission.

(** [rs.data.cil.PATCH_SIZE]; the module is not among the sources. *)
Variable PATCH_SIZE : Z.

Definition _create_output_id (sample_id patch_x patch_y : Z) : string :=
  let x := patch_x * PATCH_SIZE in
  let y := patch_y * PATCH_SIZE in
  (py_format_03d sample_id ++ "_" ++ py_str_int x ++ "_" ++ py_str_int y)%string.

(** The rows written for one predicted segmentation, by the two loops over
    the patches. *)
Definition patch_rows (test_sample_id : Z) (predicted_segmentation : NdArray)
    (rows cols : Z) : list (list string) :=
  flat_map
    (fun patch_y =>
       map (fun patch_x =>
              [ _create_output_id test_sample_id patch_x patch_y;
                py_str_int
                  (np_astype_int (nd_item predicted_segmentation [patch_y; patch_x])) ])
         (py_range cols))
    (py_range rows).

(** The body of the loop over [test_prediction.items()]: squeeze, check
    the shape against the input image, write the rows. *)
Definition sample_rows (test_prediction_input : list (Z * NdArray))
    (test_sample_id : Z) (predicted_segmentation : NdArray)
  : Outcome (list (list string)) :=
  let predicted_segmentation := np_squeeze predicted_segmentation in
  match nd_shape predicted_segmentation with
  | [rows; cols] =>
      match lookup_sample test_prediction_input test_sample_id with
      | None => RaisedKeyError
      | Some input =>
          match nd_shape input with
          | [] => Raised IndexError
          | height :: input_size =>
              if PATCH_SIZE =? 0 then Raised ZeroDivisionError
              else match input_size with
                   | [] => Raised IndexError
                   | width :: _ =>
                       if (rows =? height / PATCH_SIZE) && (cols =? width / PATCH_SIZE)
                       then Returned
                              (patch_rows test_sample_id predicted_segmentation rows cols)
                       else Raised ValueError
                   end
          end
      end
  | _ => Raised ValueError
  end.

(** The rows written after the header, and how the loop ended; rows of
    earlier samples stay written when a later sample raises. *)
Fixpoint write_samples (test_prediction_input : list (Z * NdArray))
    (test_prediction : list (Z * NdArray))
  : list (list string) * Outcome unit :=
  match test_prediction with
  | [] => ([], Returned tt)
  | (test_sample_id, predicted_segmentation) :: rest =>
      match sample_rows test_prediction_input test_sample_id predicted_segmentation with
      | Returned rows =>
          let '(more, outcome) := write_samples test_prediction_input rest in
          (rows ++ more, outcome)
      | Raised e => ([], Raised e)
      | RaisedKeyError => ([], RaisedKeyError)
      end
  end.

(** The creation of the submission file in [_run_actual_experiment]: the
    rows of the file and how the block ended. *)
Definition write_submission (test_prediction_input : list (Z * NdArray))
    (test_prediction : list (Z * NdArray))
  : list (list string) * Outcome unit :=
  let '(rows, outcome) := write_samples test_prediction_input test_prediction in
  (["Id"; "Prediction"]%string :: rows, outcome).

End Submission.
End FitExperiment.

(** ** experiments/baseline_fastfcn.py: [predict] *)

(** [np.where(raw_prediction >= 0, 1, 0)] *)
Definition np_where_nonnegative (raw_prediction : Array3) : Array3 :=
  mkArray3 (dim_y raw_prediction) (dim_x raw_prediction) (dim_c raw_prediction)
    (fun y x c => if Qle_bool 0 (item raw_prediction y x c) then 1%Q else 0%Q).

Section Predict.

Variable rgb2lab : Q * Q * Q -> Q * Q * Q.

(** [classifier.predict] on a batch of one image: the batch of outputs. *)
Variable classifier_predict : Array3 -> result (list Array3).

Fixpoint predict (images : list (Z * Array3)) : result (list (Z * Array3)) :=
  match images with
  | [] => Ok []
  | (sample_id, image) :: rest =>
      image <- convert_colorspace rgb2lab image ;;
      batch <- classifier_predict image ;;
      match batch with
      | [raw_prediction] =>
          let prediction := np_where_nonnegative raw_prediction in
          result <- predict rest ;;
          Ok ((sample_id, prediction) :: result)
      | _ => Raise ValueError
      end
  end.

End Predict.

(** ** framework.py: temperature decay *)

Module TemperatureDecayCallback.
Record t : Type := mk {
  initial_temperature : Q;
  min_temperature : Q;
  decay_rate : Q
}.

(** [max(a, b)] of Python: [b] only when it is larger. *)
Definition py_max (a b : Q) : Q :=
  match Qcompare b a with
  | Gt => b
  | _ => a
  end.

(** The temperature that [on_epoch_end] assigns to the model. *)
Definition on_epoch_end (self : t) (epoch : Z) : Q :=
  let decayed_temperature :=
    (initial_temperature self * decay_rate self ^ (epoch + 1))%Q in
  py_max decayed_temperature (min_temperature self).
End TemperatureDecayCallback.

(** * Properties *)

(** ** Stride padding *)

Section PadToStride.

Variables (d s : Z).
Hypothesis s_pos : 0 < s.

Lemma missing_value : missing d s = Ok (s - d mod s).
Proof.
  unfold missing, py_mod.
  destruct (Z.eqb_spec s 0) as [E | _]; [lia | reflexivity].
Qed.

Lemma missing_bounds : 0 < s - d mod s <= s.
Proof. pose proof (Z.mod_pos_bound d s s_pos); lia. Qed.

Lemma missing_reaches_multiple : (s | d + (s - d mod s)).
Proof.
  exists (d / s + 1).
  pose proof (Z.div_mod d s ltac:(lia)); nia.
Qed.

Lemma missing_aligned : d mod s = 0 -> missing d s = Ok s.
Proof. intros E; rewrite missing_value, E; f_equal; lia. Qed.

End PadToStride.

Lemma split_padding_sum (m : Z) : fst (split_padding m) + snd (split_padding m) = m.
Proof.
  unfold split_padding, ceil_half; simpl.
  pose proof (Z.div_mod m 2 ltac:(lia)) as Hm.
  pose proof (Z.mod_pos_bound m 2 ltac:(lia)) as Bm.
  pose proof (Z.div_mod (- m) 2 ltac:(lia)) as Hn.
  pose proof (Z.mod_pos_bound (- m) 2 ltac:(lia)) as Bn.
  lia.
Qed.

Lemma split_padding_floor_ceil (m : Z) :
  let '(before, after) := split_padding m in
  2 * before <= m < 2 * before + 2 /\ 2 * after - 2 < m <= 2 * after.
Proof.
  unfold split_padding, ceil_half.
  pose proof (Z.div_mod m 2 ltac:(lia)) as Hm.
  pose proof (Z.mod_pos_bound m 2 ltac:(lia)) as Bm.
  pose proof (Z.div_mod (- m) 2 ltac:(lia)) as Hn.
  pose proof (Z.mod_pos_bound (- m) 2 ltac:(lia)) as Bn.
  lia.
Qed.

Lemma split_padding_nonneg (m : Z) :
  0 <= m -> 0 <= fst (split_padding m) /\ 0 <= snd (split_padding m).
Proof.
  intros Hm.
  pose proof (split_padding_floor_ceil m) as H.
  destruct (split_padding m) as [before after]; simpl; lia.
Qed.

Lemma pad_to_stride_paddings_value (inputs : Tensor) (n h w c s : Z) :
  shape inputs = [n; h; w; c] -> 0 < s ->
  pad_to_stride_paddings inputs s =
  Ok [ (0, 0); split_padding (s - h mod s); split_padding (s - w mod s); (0, 0) ].
Proof.
  intros Hs Hpos.
  unfold pad_to_stride_paddings, shape_at; rewrite Hs; simpl.
  rewrite (missing_value h s Hpos); simpl.
  rewrite (missing_value w s Hpos); reflexivity.
Qed.

(** C1, at an aligned input: a [1, 32, 32, 3] batch padded to stride 32
    is not returned unchanged; the missing amount is computed as
    [32 - 32 % 32 = 32], so 16 pixels are added on every side and the
    result is [1, 64, 64, 3]. *)
Theorem pad_to_stride_aligned_input_padded :
  pad_to_stride (placeholder "inputs" [1; 32; 32; 3]) 32 REFLECT =
  Ok (mkTensor
        (PadOp [ (0, 0); (16, 16); (16, 16); (0, 0) ] REFLECT (Placeholder "inputs"))
        [1; 64; 64; 3]).
Proof. reflexivity. Qed.

(** On every aligned dimension the computed total is a whole stride. *)
Lemma pad_to_stride_aligned_total (inputs : Tensor) (n h w c s : Z) :
  shape inputs = [n; h; w; c] -> 0 < s -> h mod s = 0 -> w mod s = 0 ->
  pad_to_stride_paddings inputs s =
  Ok [ (0, 0); split_padding s; split_padding s; (0, 0) ].
Proof.
  intros Hs Hpos Eh Ew.
  rewrite (pad_to_stride_paddings_value inputs n h w c s Hs Hpos), Eh, Ew.
  now rewrite Z.sub_0_r.
Qed.




Lemma pad_admissible_zero (mode : PadMode) (d : Z) :
  0 < d -> pad_admissible mode d (0, 0) = true.
Proof.
  intros Hd; destruct mode; simpl; [reflexivity | |];
    apply andb_true_intro; split; apply Z.leb_le; lia.
Qed.

Lemma pad_shape_rank4 (mode : PadMode) (n h w c : Z) (ph pw : Z * Z) :
  0 < n -> 0 < c ->
  pad_admissible mode h ph = true -> pad_admissible mode w pw = true ->
  pad_shape mode [n; h; w; c] [ (0, 0); ph; pw; (0, 0) ] =
  Ok [n; fst ph + h + snd ph; fst pw + w + snd pw; c].
Proof.
  intros Hn Hc Ah Aw.
  cbn [pad_shape].
  rewrite (pad_admissible_zero mode n Hn), Ah, Aw, (pad_admissible_zero mode c Hc).
  cbn [bind fst snd]. repeat f_equal; lia.
Qed.

Lemma pad_to_stride_value (inputs : Tensor) (n h w c s : Z) (mode : PadMode) :
  shape inputs = [n; h; w; c] -> 0 < n -> 0 < c -> 0 < s ->
  pad_admissible mode h (split_padding (s - h mod s)) = true ->
  pad_admissible mode w (split_padding (s - w mod s)) = true ->
  pad_to_stride inputs s mode =
  Ok (mkTensor
        (PadOp [ (0, 0); split_padding (s - h mod s);
                 split_padding (s - w mod s); (0, 0) ] mode (op inputs))
        [n; h + (s - h mod s); w + (s - w mod s); c]).
Proof.
  intros Hs Hn Hc Hpos Ah Aw.
  pose proof (split_padding_sum (s - h mod s)) as Sh.
  pose proof (split_padding_sum (s - w mod s)) as Sw.
  unfold pad_to_stride.
  rewrite (pad_to_stride_paddings_value inputs n h w c s Hs Hpos).
  cbn [bind]. unfold tf_pad. rewrite Hs.
  rewrite (pad_shape_rank4 mode n h w c _ _ Hn Hc Ah Aw).
  cbn [bind]. do 3 f_equal. f_equal; [lia | f_equal; lia].
Qed.


Lemma pad_shape_rejects (mode : PadMode) (n h w c : Z) (ph pw : Z * Z) :
  pad_admissible mode h ph = false \/ pad_admissible mode w pw = false ->
  pad_shape mode [n; h; w; c] [ (0, 0); ph; pw; (0, 0) ] = Raise InvalidArgumentError.
Proof.
  intros H. cbn [pad_shape].
  destruct (pad_admissible mode n (0, 0)); [| reflexivity].
  destruct (pad_admissible mode h ph) eqn:Eh; [| reflexivity].
  destruct (pad_admissible mode w pw) eqn:Ew; [| reflexivity].
  destruct H; discriminate.
Qed.




(** ** Layer shapes *)

Lemma conv_output_length_same_stride1 (x k dilation : Z) :
  conv_output_length x k SAME 1 dilation = Ok x.
Proof.
  unfold conv_output_length. f_equal.
  replace (x + 1 - 1) with x by lia. apply Z.div_1_r.
Qed.

Lemma conv_output_length_same_stride2 (x k dilation : Z) :
  conv_output_length x k SAME 2 dilation = Ok ((x + 1) / 2).
Proof.
  unfold conv_output_length. do 2 f_equal. lia.
Qed.

Lemma conv_output_length_valid_pointwise (x : Z) :
  0 < x -> conv_output_length x 1 VALID 1 1 = Ok x.
Proof.
  intros Hx. unfold conv_output_length. cbn.
  destruct (Z.ltb_spec x 1) as [L | _]; [lia |].
  f_equal. replace (x - 1 + 1 + 1 - 1) with x by lia. apply Z.div_1_r.
Qed.

Lemma Conv2D_call_same_stride1 (name : string) (f k : Z) (ub : bool)
    (t : Tensor) (n h w c : Z) :
  shape t = [n; h; w; c] ->
  Conv2D.call (Conv2D.mk name f k (1, 1) SAME ub) t =
  Ok (mkTensor (Conv2DOp name f k (1, 1) SAME (op t)) [n; h; w; f]).
Proof.
  intros Hs. unfold Conv2D.call. rewrite Hs. cbn [Conv2D.kernel_size
    Conv2D.padding Conv2D.strides Conv2D.filters Conv2D.name fst snd].
  now rewrite !conv_output_length_same_stride1.
Qed.

Lemma Conv2D_call_same_stride2 (name : string) (f k : Z) (ub : bool)
    (t : Tensor) (n h w c : Z) :
  shape t = [n; h; w; c] ->
  Conv2D.call (Conv2D.mk name f k (2, 2) SAME ub) t =
  Ok (mkTensor (Conv2DOp name f k (2, 2) SAME (op t))
        [n; (h + 1) / 2; (w + 1) / 2; f]).
Proof.
  intros Hs. unfold Conv2D.call. rewrite Hs. cbn [Conv2D.kernel_size
    Conv2D.padding Conv2D.strides Conv2D.filters Conv2D.name fst snd].
  now rewrite !conv_output_length_same_stride2.
Qed.

Lemma Conv2D_call_valid_pointwise (name : string) (f : Z) (ub : bool)
    (t : Tensor) (n h w c : Z) :
  shape t = [n; h; w; c] -> 0 < h -> 0 < w ->
  Conv2D.call (Conv2D.mk name f 1 (1, 1) VALID ub) t =
  Ok (mkTensor (Conv2DOp name f 1 (1, 1) VALID (op t)) [n; h; w; f]).
Proof.
  intros Hs Hh Hw. unfold Conv2D.call. rewrite Hs. cbn [Conv2D.kernel_size
    Conv2D.padding Conv2D.strides Conv2D.filters Conv2D.name fst snd].
  now rewrite !conv_output_length_valid_pointwise.
Qed.

Lemma SeparableConv2D_call_same (name : string) (f k rate dm : Z) (ub : bool)
    (t : Tensor) (n h w c : Z) :
  shape t = [n; h; w; c] ->
  SeparableConv2D.call (SeparableConv2D.mk name f k SAME rate dm ub) t =
  Ok (mkTensor (SeparableConv2DOp name f k rate SAME (op t)) [n; h; w; f]).
Proof.
  intros Hs. unfold SeparableConv2D.call. rewrite Hs.
  cbn [SeparableConv2D.kernel_size SeparableConv2D.padding
    SeparableConv2D.dilation_rate SeparableConv2D.filters SeparableConv2D.name].
  now rewrite !conv_output_length_same_stride1.
Qed.

(** ** ResNet backbone *)

Lemma run_layers_None (layers : list ResNetLayer.t) :
  ResNetBackbone.run_layers layers PyNone = Ok PyNone.
Proof. induction layers as [| l ls IH]; [reflexivity | exact IH]. Qed.

Lemma run_layers_nonempty (l : ResNetLayer.t) (ls : list ResNetLayer.t)
    (features : PyObject) :
  ResNetBackbone.run_layers (l :: ls) features = Ok PyNone.
Proof. exact (run_layers_None ls). Qed.

(** Without residual layers the backbone returns the stride-4 stem
    features. *)
Lemma ResNetBackbone_stem (name : string) (n : Z) :
  exists features,
    ResNetBackbone.call (ResNetBackbone.init []) (placeholder name [n; 256; 256; 3])
      = Ok (PyTensor features) /\
    shape features = [n; 64; 64; 64].
Proof. eexists; split; reflexivity. Qed.

(** C3, on the code: for a batch [N, 256, 256, 3] the 50-layer and the
    101-layer backbone return [None], the result of the unimplemented
    residual layer, and not three feature maps; taking the last three
    entries of that result, as the full models do, raises. *)
Theorem ResNetBackbone_call_returns_None (name : string) (n : Z) :
  ResNetBackbone.call ResNet50Backbone.init (placeholder name [n; 256; 256; 3])
    = Ok PyNone /\
  ResNetBackbone.call ResNet101Backbone.init (placeholder name [n; 256; 256; 3])
    = Ok PyNone /\
  py_last3 PyNone = Raise TypeError.
Proof. repeat split; reflexivity. Qed.

(** ** Bottleneck block *)

(** The graph of the main branch of a block. *)
Lemma BottleneckBlock_call_value (filters_in : Z) (downsample : bool)
    (inputs : Tensor) (n h w c : Z) :
  shape inputs = [n; h; w; c] ->
  BottleneckBlock.call (BottleneckBlock.init filters_in downsample) inputs =
  Ok (mkTensor
        (BatchNormalizationOp "batch_norm_out"
           (Conv2DOp "conv_out" (4 * filters_in) 1 (1, 1) SAME
              (ReLUOp
                 (BatchNormalizationOp "batch_norm_middle"
                    (Conv2DOp "conv_middle" filters_in 3 (1, 1) SAME
                       (ReLUOp
                          (BatchNormalizationOp "batch_norm_in"
                             (Conv2DOp "conv_in" filters_in 1
                                (if downsample then (2, 2) else (1, 1)) SAME
                                (op inputs)))))))))
        [n; if downsample then (h + 1) / 2 else h;
            if downsample then (w + 1) / 2 else w; 4 * filters_in]).
Proof.
  intros Hs. unfold BottleneckBlock.call, BottleneckBlock.init.
  cbn [BottleneckBlock.conv_in BottleneckBlock.batch_norm_in
    BottleneckBlock.activation_in BottleneckBlock.conv_middle
    BottleneckBlock.batch_norm_middle BottleneckBlock.activation_middle
    BottleneckBlock.conv_out BottleneckBlock.batch_norm_out].
  destruct downsample.
  - rewrite (Conv2D_call_same_stride2 _ _ _ _ _ n h w c Hs). cbn [bind].
    unfold BatchNormalization.call, ReLU.call. cbn [bind op shape BatchNormalization.name].
    erewrite Conv2D_call_same_stride1 by reflexivity. cbn [bind op shape].
    erewrite Conv2D_call_same_stride1 by reflexivity. reflexivity.
  - rewrite (Conv2D_call_same_stride1 _ _ _ _ _ n h w c Hs). cbn [bind].
    unfold BatchNormalization.call, ReLU.call. cbn [bind op shape BatchNormalization.name].
    erewrite Conv2D_call_same_stride1 by reflexivity. cbn [bind op shape].
    erewrite Conv2D_call_same_stride1 by reflexivity. reflexivity.
Qed.

(** C2, as stated, fails: the output of a block is the normalised result
    of its last convolution, not the rectified sum of a main branch and a
    shortcut. *)
Lemma BottleneckBlock_call_not_residual :
  ~ exists main shortcut out,
      BottleneckBlock.call (BottleneckBlock.init 64 false)
        (placeholder "inputs" [1; 64; 64; 256]) = Ok out /\
      op out = ReLUOp (AddOp main shortcut).
Proof.
  intros (main & shortcut & out & Hcall & Hop).
  rewrite (BottleneckBlock_call_value 64 false
             (placeholder "inputs" [1; 64; 64; 256]) 1 64 64 256 eq_refl) in Hcall.
  injection Hcall as <-. discriminate Hop.
Qed.

(** C2, amended: a bottleneck block computes a 1x1 convolution (stride 2
    exactly when the block downsamples), normalisation, rectification, a
    3x3 convolution, normalisation, rectification, a 1x1 convolution to
    four times the channels and a normalisation, and returns that result
    unrectified; no shortcut is added and no final rectification applied
    inside the block.  The output has four times [filters_in] channels and
    half the spatial size, rounded up, exactly when the block
    downsamples. *)
Theorem BottleneckBlock_call_main_branch (filters_in : Z) (downsample : bool)
    (inputs : Tensor) (n h w c : Z) :
  shape inputs = [n; h; w; c] ->
  exists out,
    BottleneckBlock.call (BottleneckBlock.init filters_in downsample) inputs = Ok out /\
    op out =
      BatchNormalizationOp "batch_norm_out"
        (Conv2DOp "conv_out" (4 * filters_in) 1 (1, 1) SAME
           (ReLUOp
              (BatchNormalizationOp "batch_norm_middle"
                 (Conv2DOp "conv_middle" filters_in 3 (1, 1) SAME
                    (ReLUOp
                       (BatchNormalizationOp "batch_norm_in"
                          (Conv2DOp "conv_in" filters_in 1
                             (if downsample then (2, 2) else (1, 1)) SAME
                             (op inputs)))))))) /\
    shape out = [n; if downsample then (h + 1) / 2 else h;
                    if downsample then (w + 1) / 2 else w; 4 * filters_in] /\
    (forall x, op out <> ReLUOp x) /\
    (forall x y, op out <> AddOp x y).
Proof.
  intros Hs. eexists. split.
  - exact (BottleneckBlock_call_value filters_in downsample inputs n h w c Hs).
  - cbn [op shape]. repeat split; intros; discriminate.
Qed.

Lemma BottleneckBlock_call_main_branch_witness :
  exists out,
    BottleneckBlock.call (BottleneckBlock.init 64 true)
      (placeholder "inputs" [1; 64; 64; 256]) = Ok out /\
    shape out = [1; 32; 32; 256].
Proof.
  destruct (BottleneckBlock_call_main_branch 64 true
              (placeholder "inputs" [1; 64; 64; 256]) 1 64 64 256 eq_refl)
    as (out & Hcall & _ & Hshape & _).
  exists out. split; [exact Hcall | exact Hshape].
Defined.

(** ** JPU module *)

Lemma JPUInputBlock_call_value (name : string) (features : Z) (t : Tensor)
    (n h w c : Z) :
  shape t = [n; h; w; c] ->
  JPUInputBlock.call (JPUInputBlock.init name features) t =
  Ok (mkTensor
        (ReLUOp
           (BatchNormalizationOp (name ++ "/batch_norm")
              (Conv2DOp (name ++ "/conv") features 3 (1, 1) SAME (op t))))
        [n; h; w; features]).
Proof.
  intros Hs. unfold JPUInputBlock.call, JPUInputBlock.init.
  cbn [JPUInputBlock.conv JPUInputBlock.batch_norm JPUInputBlock.activation].
  rewrite (Conv2D_call_same_stride1 _ _ _ _ _ n h w c Hs). reflexivity.
Qed.

Lemma JPUSeparableBlock_call_value (name : string) (features rate : Z)
    (t : Tensor) (n h w c : Z) :
  shape t = [n; h; w; c] ->
  JPUSeparableBlock.call (JPUSeparableBlock.init name features rate) t =
  Ok (mkTensor (separable_branch name features (op t) rate) [n; h; w; features]).
Proof.
  intros Hs. unfold JPUSeparableBlock.call, JPUSeparableBlock.init.
  cbn [JPUSeparableBlock.conv JPUSeparableBlock.batch_norm
    JPUSeparableBlock.activation].
  rewrite (SeparableConv2D_call_same _ _ _ _ _ _ _ n h w c Hs). reflexivity.
Qed.

Lemma separable_blocks_value (name : string) (features : Z) (rates : list Z)
    (t : Tensor) (n h w c : Z) :
  shape t = [n; h; w; c] ->
  result_map (fun block => JPUSeparableBlock.call block t)
    (map (fun rate => JPUSeparableBlock.init name features rate) rates) =
  Ok (map (fun rate =>
             mkTensor (separable_branch name features (op t) rate)
               [n; h; w; features]) rates).
Proof.
  intros Hs. induction rates as [| r rs IH]; [reflexivity |].
  cbn [map result_map].
  rewrite (JPUSeparableBlock_call_value name features r t n h w c Hs).
  cbn [bind]. rewrite IH. reflexivity.
Qed.

Lemma concat_last_dim_rank4 (n h w : Z) (values : list Tensor) (cs : list Z) :
  Forall2 (fun v c => shape v = [n; h; w; c]) values cs ->
  concat_last_dim [n; h; w] values = Ok (fold_right Z.add 0 cs).
Proof.
  induction 1 as [| v c vs cs' Hv _ IH]; [reflexivity |].
  cbn [concat_last_dim fold_right]. rewrite Hv. cbn [removelast last].
  destruct (list_eq_dec Z.eq_dec [n; h; w] [n; h; w]) as [_ | Hne];
    [| now elim Hne].
  rewrite IH. reflexivity.
Qed.

Lemma tf_concat_rank4 (n h w : Z) (values : list Tensor) (cs : list Z) :
  values <> [] ->
  Forall2 (fun v c => shape v = [n; h; w; c]) values cs ->
  tf_concat values =
  Ok (mkTensor (ConcatOp (map op values)) [n; h; w; fold_right Z.add 0 cs]).
Proof.
  intros Hne HF. destruct values as [| v vs]; [now elim Hne |].
  unfold tf_concat.
  assert (Hv : removelast (shape v) = [n; h; w]).
  { inversion HF as [| ? c ? ? Hs _]; subst. now rewrite Hs. }
  rewrite Hv, (concat_last_dim_rank4 n h w (v :: vs) cs HF). reflexivity.
Qed.

(** The module on feature maps whose sizes are in the ratio 4 : 2 : 1. *)
Lemma JPUModule_call_value (features : Z) (t8 t16 t32 : Tensor)
    (n h w h16 w16 h32 w32 c8 c16 c32 : Z) :
  shape t8 = [n; h; w; c8] ->
  shape t16 = [n; h16; w16; c16] ->
  shape t32 = [n; h32; w32; c32] ->
  h16 * 2 = h -> w16 * 2 = w -> h32 * 4 = h -> w32 * 4 = w ->
  let dilation_inputs := jpu_dilation_inputs features (op t8) (op t16) (op t32) in
  JPUModule.call (JPUModule.init features) (PyList [t8; t16; t32]) =
  Ok (mkTensor
        (ConcatOp
           (map (separable_branch "separable_block" features dilation_inputs)
              [1; 2; 4; 8]))
        [n; h; w; 4 * features]).
Proof.
  intros H8 H16 H32 Eh16 Ew16 Eh32 Ew32 dilation_inputs.
  subst dilation_inputs. unfold jpu_dilation_inputs, input_branch.
  unfold JPUModule.call, JPUModule.init.
  cbn [py_unpack3 bind JPUModule.initial_s8 JPUModule.initial_s16
    JPUModule.initial_s32 JPUModule.upsampling_s16 JPUModule.upsampling_s32
    JPUModule.separable_blocks].
  rewrite (JPUInputBlock_call_value _ _ _ n h w c8 H8). cbn [bind].
  rewrite (JPUInputBlock_call_value _ _ _ n h16 w16 c16 H16). cbn [bind].
  rewrite (JPUInputBlock_call_value _ _ _ n h32 w32 c32 H32). cbn [bind].
  unfold UpSampling2D.call.
  cbn [shape op bind UpSampling2D.size UpSampling2D.interpolation fst snd
    JPUModule._INTERPOLATION].
  rewrite Eh16, Ew16, Eh32, Ew32.
  erewrite (tf_concat_rank4 n h w _ [features; features; features]);
    [| discriminate | repeat constructor].
  cbn [bind map op fold_right].
  unfold JPUModule._DILATION_RATES.
  erewrite separable_blocks_value by reflexivity.
  cbn [bind].
  erewrite (tf_concat_rank4 n h w _ [features; features; features; features]);
    [| discriminate | repeat constructor].
  cbn [bind map op fold_right]. unfold JPUModule._INTERPOLATION.
  do 3 f_equal. f_equal. f_equal. f_equal. lia.
Qed.

(** C5: on feature maps of spatial sizes 32x32, 16x16 and 8x8 the JPU
    module with channel width [features] runs each map through its own
    input block, upsamples the stride-16 result by 2 and the stride-32
    result by 4, concatenates the three along the channel axis, applies the
    four separable convolutions with dilation rates 1, 2, 4 and 8 to that
    tensor and returns their concatenation, of shape
    [N, 32, 32, 4 * features]. *)
Theorem JPUModule_call_output (features n c8 c16 c32 : Z) (x8 x16 x32 : Op) :
  let block (name : string) (x : Op) :=
    ReLUOp (BatchNormalizationOp (name ++ "/batch_norm")
              (Conv2DOp (name ++ "/conv") features 3 (1, 1) SAME x)) in
  let dilation_inputs :=
    ConcatOp [ block "initial_s8"%string x8;
               UpSampling2DOp (2, 2) bilinear (block "initial_s16"%string x16);
               UpSampling2DOp (4, 4) bilinear (block "initial_s32"%string x32) ] in
  JPUModule._DILATION_RATES = [1; 2; 4; 8] /\
  exists out,
    JPUModule.call (JPUModule.init features)
      (PyList [ mkTensor x8 [n; 32; 32; c8];
                mkTensor x16 [n; 16; 16; c16];
                mkTensor x32 [n; 8; 8; c32] ]) = Ok out /\
    shape out = [n; 32; 32; 4 * features] /\
    op out =
      ConcatOp
        (map (fun rate =>
                ReLUOp
                  (BatchNormalizationOp "separable_block/batch_norm"
                     (SeparableConv2DOp "separable_block/conv" features 3 rate
                        SAME dilation_inputs)))
           JPUModule._DILATION_RATES).
Proof.
  intros block dilation_inputs. split; [reflexivity |].
  eexists. split.
  - apply (JPUModule_call_value features _ _ _ n 32 32 16 16 8 8 c8 c16 c32);
      reflexivity.
  - split; reflexivity.
Qed.

(** ** Heads *)

Lemma EncoderHead_call_shape (f se cw : Z) (rate : Q) (t : Tensor) (n h w c : Z) :
  shape t = [n; h; w; c] -> 0 < h -> 0 < w ->
  exists out loss,
    EncoderHead.call (EncoderHead.init f se cw rate) t = Ok (out, loss) /\
    shape out = [n; h; w; 1].
Proof.
  intros Hs Hh Hw. unfold EncoderHead.call, EncoderHead.init.
  cbn [EncoderHead.conv_in EncoderHead.batch_norm_in EncoderHead.activation_in
    EncoderHead.encoder EncoderHead.dropout EncoderHead.conv_out].
  rewrite (Conv2D_call_valid_pointwise _ _ _ _ n h w c Hs Hh Hw).
  cbn [bind BatchNormalization.call ReLU.call ContextEncodingModule.call
    SpatialDropout2D.call op shape].
  erewrite Conv2D_call_valid_pointwise by (reflexivity || assumption).
  cbn [bind]. eexists _, _. split; reflexivity.
Qed.

Lemma FCNHeadNoContext_call_shape (f : Z) (rate : Q) (t : Tensor) (n h w c : Z) :
  shape t = [n; h; w; c] -> 0 < h -> 0 < w ->
  exists out,
    FCNHeadNoContext.call (FCNHeadNoContext.init f rate) t = Ok out /\
    shape out = [n; h; w; 1].
Proof.
  intros Hs Hh Hw. unfold FCNHeadNoContext.call, FCNHeadNoContext.init.
  cbn [FCNHeadNoContext.conv_in FCNHeadNoContext.batch_norm_in
    FCNHeadNoContext.activation_in FCNHeadNoContext.dropout
    FCNHeadNoContext.conv_out].
  rewrite (Conv2D_call_valid_pointwise _ _ _ _ n h w c Hs Hh Hw).
  cbn [bind BatchNormalization.call ReLU.call SpatialDropout2D.call op shape].
  erewrite Conv2D_call_valid_pointwise by (reflexivity || assumption).
  cbn [bind]. eexists. split; reflexivity.
Qed.

Lemma FCNHead_call_shape (f : Z) (rate : Q) (t : Tensor) (n h w c : Z) :
  shape t = [n; h; w; c] -> 0 < h -> 0 < w ->
  exists out,
    FCNHead.call (FCNHead.init f rate) t = Ok out /\
    shape out = [n; h; w; 1].
Proof.
  intros Hs Hh Hw. unfold FCNHead.call, FCNHead.init.
  cbn [FCNHead.conv_in FCNHead.batch_norm_in FCNHead.activation_in
    FCNHead.conv_middle FCNHead.batch_norm_middle FCNHead.activation_middle
    FCNHead.dropout FCNHead.conv_out].
  rewrite (Conv2D_call_valid_pointwise _ _ _ _ n h w c Hs Hh Hw).
  cbn [bind BatchNormalization.call ReLU.call op shape].
  erewrite Conv2D_call_same_stride1 by reflexivity.
  cbn [bind BatchNormalization.call ReLU.call SpatialDropout2D.call op shape].
  erewrite Conv2D_call_valid_pointwise by (reflexivity || assumption).
  cbn [bind]. eexists. split; reflexivity.
Qed.

Lemma tf_image_resize_with_crop_or_pad_shape (t : Tensor) (n h w c th tw : Z) :
  shape t = [n; h; w; c] -> 0 < h -> 0 < w -> 0 < c -> 0 < th -> 0 < tw ->
  exists out,
    tf_image_resize_with_crop_or_pad t th tw = Ok out /\
    shape out = [n; th; tw; c].
Proof.
  intros Hs Hh Hw Hc Hth Htw. unfold tf_image_resize_with_crop_or_pad.
  rewrite Hs.
  destruct (Z.ltb_spec 0 th); [| lia]. destruct (Z.ltb_spec 0 tw); [| lia].
  destruct (Z.ltb_spec 0 h); [| lia]. destruct (Z.ltb_spec 0 w); [| lia].
  destruct (Z.ltb_spec 0 c); [| lia].
  cbn [andb]. eexists. split; reflexivity.
Qed.

(** ** Full models *)

Lemma py_last3_of_contract (rest : list Tensor) (f8 f16 f32 : Tensor) :
  py_last3 (PyList (rest ++ [f8; f16; f32])) = Ok (PyList [f8; f16; f32]).
Proof.
  unfold py_last3, py_slice_last. do 2 f_equal.
  rewrite length_app. cbn [List.length].
  replace (List.length rest + 3 - 3)%nat with (List.length rest + 0)%nat by lia.
  rewrite skipn_app, Nat.add_comm. cbn [Nat.add].
  rewrite skipn_all, Nat.sub_diag. reflexivity.
Qed.

Lemma stride_32_quotients (h : Z) :
  0 < h -> (32 | h) ->
  h / 16 * 2 = h / 8 /\ h / 32 * 4 = h / 8 /\ 0 < h / 8 /\ h / 8 * 8 = h.
Proof.
  intros Hh [k ->].
  assert (E8 : k * 32 / 8 = 4 * k)
    by (replace (k * 32) with (4 * k * 8) by lia; apply Z.div_mul; lia).
  assert (E16 : k * 32 / 16 = 2 * k)
    by (replace (k * 32) with (2 * k * 16) by lia; apply Z.div_mul; lia).
  assert (E32 : k * 32 / 32 = k) by (apply Z.div_mul; lia).
  rewrite E8, E16, E32. lia.
Qed.



Section FullModels.

Variable backbone : KerasModel.
Hypothesis backbone_ok : backbone_contract backbone.

Variables (jpu_features : Z) (inputs : Tensor) (n h w : Z).
Hypothesis inputs_shape : shape inputs = [n; h; w; 3].
Hypothesis batch_pos : 0 < n.
Hypothesis height_ok : 12 <= h.
Hypothesis width_ok : 12 <= w.




End FullModels.

Lemma strided_backbone_contract : backbone_contract strided_backbone.
Proof.
  intros x n h w c Hs _ _ _ _. unfold strided_backbone. rewrite Hs.
  eexists. split; [reflexivity |].
  cbn [map].
  eexists [_], _, _, _, _, _, _. split; [reflexivity |].
  repeat split; reflexivity.
Qed.

(** C7, at its input: the context-encoding FastFCN built on a backbone of
    models/resnet.py (ResNet-50 or ResNet-101) returns no logits for a
    [1, 384, 384, 3] batch.  The batch is padded to [1, 416, 416, 3], the
    backbone's unimplemented residual layers leave [None], and taking the
    last three feature maps of [None] raises [TypeError]. *)
Theorem FastFCN_call_384_raises (jpu_features se cw : Z) (rate : Q) (name : string) :
  pad_to_stride (placeholder name [1; 384; 384; 3]) 32 REFLECT =
    Ok (mkTensor
          (PadOp [ (0, 0); (16, 16); (16, 16); (0, 0) ] REFLECT (Placeholder name))
          [1; 416; 416; 3]) /\
  FastFCN.call
    (FastFCN.init (ResNetBackbone.call ResNet50Backbone.init) jpu_features rate se cw)
    (placeholder name [1; 384; 384; 3]) = Raise TypeError /\
  FastFCN.call
    (FastFCN.init (ResNetBackbone.call ResNet101Backbone.init) jpu_features rate se cw)
    (placeholder name [1; 384; 384; 3]) = Raise TypeError.
Proof.
  split; [reflexivity |]. split; reflexivity.
Qed.




(** ** Augmentation *)



Lemma nearest_index_range (i in_size out_size : Z) :
  0 < in_size -> 0 <= nearest_index i in_size out_size < in_size.
Proof. unfold nearest_index; lia. Qed.

Lemma binary_from_weaken (k k' : Z) (a : Array3) :
  k <= k' -> binary_from k a -> binary_from k' a.
Proof. intros Hk H y x c R Hc. apply H; [exact R | lia]. Qed.


Lemma flip_dims (b : bool) (a : Array3) :
  dim_y (tf_image_random_flip_left_right b a) = dim_y a /\
  dim_x (tf_image_random_flip_left_right b a) = dim_x a /\
  dim_c (tf_image_random_flip_left_right b a) = dim_c a.
Proof. destruct b; repeat split; reflexivity. Qed.


Lemma rot90_dims (rotations : Z) (a : Array3) :
  dim_c (tf_image_rot90 a rotations) = dim_c a /\
  ((dim_y (tf_image_rot90 a rotations) = dim_y a /\
    dim_x (tf_image_rot90 a rotations) = dim_x a) \/
   (dim_y (tf_image_rot90 a rotations) = dim_x a /\
    dim_x (tf_image_rot90 a rotations) = dim_y a)).
Proof.
  unfold tf_image_rot90.
  destruct (rotations mod 4 =? 1); [| destruct (rotations mod 4 =? 2);
    [| destruct (rotations mod 4 =? 3)]]; cbn; auto.
Qed.

Lemma concat3_spec (a b s : Array3) :
  tf_concat3 a b = Ok s ->
  dim_y s = dim_y a /\ dim_x s = dim_x a /\ dim_c s = dim_c a + dim_c b /\
  dim_y a = dim_y b /\ dim_x a = dim_x b /\
  (0 <= dim_c a -> binary b -> binary_from (dim_c a) s).
Proof.
  unfold tf_concat3.
  destruct (Z.eqb_spec (dim_y a) (dim_y b)) as [Ey |]; [| discriminate].
  destruct (Z.eqb_spec (dim_x a) (dim_x b)) as [Ex |]; [| discriminate].
  cbn [andb]. intros [= <-]. cbn. repeat split; try assumption.
  intros Hca Hb y x c (Ry & Rx & Rc) Hc. cbn in *.
  destruct (Z.ltb_spec c (dim_c a)); [lia |].
  apply Hb; unfold in_range; lia.
Qed.

Lemma random_crop_spec (raw : Z * Z * Z) (value cropped : Array3)
    (size_y size_x size_c : Z) (k : Z) :
  tf_image_random_crop raw value (size_y, size_x, size_c) = Ok cropped ->
  dim_y cropped = size_y /\ dim_x cropped = size_x /\ dim_c cropped = size_c /\
  (binary_from k value -> binary_from k cropped).
Proof.
  unfold tf_image_random_crop. destruct raw as [[raw_y raw_x] raw_c].
  destruct (Z.leb_spec 0 size_y); [| discriminate].
  destruct (Z.leb_spec 0 size_x); [| discriminate].
  destruct (Z.leb_spec 0 size_c); [| discriminate].
  destruct (Z.leb_spec size_y (dim_y value)); [| discriminate].
  destruct (Z.leb_spec size_x (dim_x value)); [| discriminate].
  destruct (Z.leb_spec size_c (dim_c value)); [| discriminate].
  cbn [andb]. intros [= <-]. cbn. repeat split.
  intros Hb y x c (Ry & Rx & Rc) Hc. cbn in *.
  pose proof (Z.mod_pos_bound raw_y (dim_y value - size_y + 1) ltac:(lia)).
  pose proof (Z.mod_pos_bound raw_x (dim_x value - size_x + 1) ltac:(lia)).
  pose proof (Z.mod_pos_bound raw_c (dim_c value - size_c + 1) ltac:(lia)).
  apply Hb; unfold in_range; lia.
Qed.

Lemma random_crop_returns (raw : Z * Z * Z) (value : Array3)
    (size_y size_x size_c : Z) :
  0 <= size_y <= dim_y value -> 0 <= size_x <= dim_x value ->
  0 <= size_c <= dim_c value ->
  exists cropped, tf_image_random_crop raw value (size_y, size_x, size_c) = Ok cropped.
Proof.
  intros Hy Hx Hc. unfold tf_image_random_crop. destruct raw as [[raw_y raw_x] raw_c].
  destruct (Z.leb_spec 0 size_y); [| lia].
  destruct (Z.leb_spec 0 size_x); [| lia].
  destruct (Z.leb_spec 0 size_c); [| lia].
  destruct (Z.leb_spec size_y (dim_y value)); [| lia].
  destruct (Z.leb_spec size_x (dim_x value)); [| lia].
  destruct (Z.leb_spec size_c (dim_c value)); [| lia].
  cbn [andb]. eexists; reflexivity.
Qed.



Section AugmentationProperties.

Variable gaussian_filter : Q -> Z -> Array3 -> Z -> Z -> Z -> Q.
Variable bilinear_interpolation : Array3 -> Z -> Z -> Z -> Z -> Z -> Q.
Variable rgb2lab : Q * Q * Q -> Q * Q * Q.

Lemma tf_image_resize_spec (images resized : Array3) (size : Z * Z)
    (method : Interpolation) :
  tf_image_resize bilinear_interpolation images size method = Ok resized ->
  dim_y resized = fst size /\ dim_x resized = snd size /\
  dim_c resized = dim_c images /\
  (method = nearest -> binary images -> binary resized).
Proof.
  unfold tf_image_resize. destruct size as [new_height new_width].
  destruct (Z.ltb_spec 0 new_height); [| discriminate].
  destruct (Z.ltb_spec 0 new_width); [| discriminate].
  destruct (Z.ltb_spec 0 (dim_y images)); [| discriminate].
  destruct (Z.ltb_spec 0 (dim_x images)); [| discriminate].
  cbn [andb]. intros [= <-]. cbn. repeat split.
  intros -> Hb y x c (Ry & Rx & Rc) _. cbn in *.
  pose proof (nearest_index_range y (dim_y images) new_height ltac:(lia)).
  pose proof (nearest_index_range x (dim_x images) new_width ltac:(lia)).
  apply Hb; unfold in_range; lia.
Qed.

Lemma tf_image_resize_returns (images : Array3) (size : Z * Z)
    (method : Interpolation) :
  0 < fst size -> 0 < snd size -> 0 < dim_y images -> 0 < dim_x images ->
  exists resized, tf_image_resize bilinear_interpolation images size method = Ok resized.
Proof.
  intros H1 H2 H3 H4. unfold tf_image_resize. destruct size as [nh nw]. cbn in *.
  destruct (Z.ltb_spec 0 nh); [| lia]. destruct (Z.ltb_spec 0 nw); [| lia].
  destruct (Z.ltb_spec 0 (dim_y images)); [| lia].
  destruct (Z.ltb_spec 0 (dim_x images)); [| lia].
  cbn [andb]. eexists; reflexivity.
Qed.

(** The kernel can be built exactly for the odd positive kernel sizes:
    only then has the grid as many values as the reshape asks for. *)
Lemma blur_kernel_shape_inv (k : Z) (kernel : Shape) :
  blur_kernel_shape k = Ok kernel ->
  0 < k /\ Z.odd k = true /\ 2 * (k / 2) + 1 = k /\ kernel = [k; k; 3; 1].
Proof.
  unfold blur_kernel_shape, np_mgrid_length. cbv zeta.
  pose proof (Z.div_mod k 2 ltac:(lia)) as D.
  pose proof (Z.mod_pos_bound k 2 ltac:(lia)) as B.
  destruct (Z.ltb_spec (k / 2 + 1 - - (k / 2)) 0) as [| Hgrid]; [discriminate |].
  cbn [bind]. unfold tf_reshape. cbn [filter fold_right existsb].
  destruct (Z.eqb_spec k (-1)) as [-> | Hk]; [discriminate |].
  cbn [negb filter fold_right existsb].
  destruct (Z.ltb_spec k 0) as [Hneg | Hpos]; [discriminate |].
  cbn [orb]. change (1 <? 0) with false. cbn [orb].
  change (1 =? -1) with false. cbn [negb filter fold_right].
  destruct (Z.eqb_spec
              ((k / 2 + 1 - - (k / 2)) * ((k / 2 + 1 - - (k / 2)) * 1))
              (k * (k * (1 * (1 * 1))))) as [E |]; [| discriminate].
  cbn [bind tf_repeat nth_error firstn skipn app]. intros [= <-].
  assert (Hk2 : 2 * (k / 2) + 1 = k) by nia.
  split; [lia |]. split; [| split; [exact Hk2 |]].
  - apply Z.odd_spec. exists (k / 2). lia.
  - reflexivity.
Qed.

Lemma blur_kernel_shape_returns (k : Z) :
  0 < k -> Z.odd k = true ->
  blur_kernel_shape k = Ok [k; k; 3; 1] /\ 2 * (k / 2) + 1 = k.
Proof.
  intros Hpos Hodd.
  apply Z.odd_spec in Hodd as [m Hm].
  pose proof (Z.div_mod k 2 ltac:(lia)) as D.
  pose proof (Z.mod_pos_bound k 2 ltac:(lia)) as B.
  assert (Hk2 : 2 * (k / 2) + 1 = k) by lia.
  split; [| exact Hk2].
  unfold blur_kernel_shape, np_mgrid_length. cbv zeta.
  destruct (Z.ltb_spec (k / 2 + 1 - - (k / 2)) 0) as [| _]; [lia |].
  cbn [bind]. unfold tf_reshape. cbn [filter fold_right existsb].
  destruct (Z.eqb_spec k (-1)) as [-> | Hk]; [lia |].
  cbn [negb filter fold_right existsb].
  destruct (Z.ltb_spec k 0) as [Hneg | _]; [lia |].
  cbn [orb]. change (1 <? 0) with false. cbn [orb].
  change (1 =? -1) with false. cbn [negb filter fold_right].
  destruct (Z.eqb_spec
              ((k / 2 + 1 - - (k / 2)) * ((k / 2 + 1 - - (k / 2)) * 1))
              (k * (k * (1 * (1 * 1))))) as [_ | E].
  - reflexivity.
  - exfalso. apply E.
    replace (k / 2 + 1 - - (k / 2)) with k by lia. ring.
Qed.

(** Building the kernel raises nothing but [ValueError]. *)
Lemma blur_kernel_shape_raises (k : Z) (e : exn) :
  blur_kernel_shape k = Raise e -> e = ValueError.
Proof.
  unfold blur_kernel_shape, np_mgrid_length. cbv zeta.
  destruct (_ <? 0); [now intros [= <-] |].
  cbn [bind]. unfold tf_reshape.
  destruct (existsb _ _); [now intros [= <-] |].
  destruct (filter _ _) as [| ? [| ? ?]].
  - destruct (_ =? _); [| now intros [= <-]].
    cbn [bind tf_repeat nth_error]. discriminate.
  - destruct (_ && _); [| now intros [= <-]].
    cbn [bind map tf_repeat nth_error]. discriminate.
  - now intros [= <-].
Qed.

(** When the blur returns: the conditions on kernel and image, and the
    shape of the result. *)
Lemma augment_blur_inv (self : Parameters) (rnd : RandomDraws)
    (image blurred : Array3) :
  _augment_blur gaussian_filter self rnd image = Ok blurred ->
  (0 < augmentation_blur_size self /\ Z.odd (augmentation_blur_size self) = true /\
   augmentation_blur_size self / 2 < dim_y image /\
   augmentation_blur_size self / 2 < dim_x image /\ dim_c image = 3) /\
  dim_y blurred = dim_y image /\ dim_x blurred = dim_x image /\
  dim_c blurred = dim_c image /\
  forall y x c, (0 <= item blurred y x c <= 1)%Q.
Proof.
  unfold _augment_blur. cbv zeta. intros H.
  inv_bind H.
  apply blur_kernel_shape_inv in E as (Hpos & Hodd & Hk2 & ->).
  destruct (pad_admissible REFLECT (dim_y image) _) eqn:Py; [| discriminate].
  destruct (pad_admissible REFLECT (dim_x image) _) eqn:Px; [| discriminate].
  destruct (pad_admissible REFLECT (dim_c image) (0, 0)); [| discriminate].
  cbn [andb] in H.
  destruct (Z.eqb_spec (dim_c image) 3) as [Hc |]; [| discriminate].
  destruct (_ <=? _); [| discriminate]. destruct (_ <=? _); [| discriminate].
  cbn [andb] in H. injection H as <-. cbn [dim_y dim_x dim_c item].
  cbn [pad_admissible] in Py, Px.
  rewrite !andb_true_iff, !Z.leb_le in Py, Px.
  split; [repeat split; try assumption; lia |].
  split; [lia |]. split; [lia |]. split; [lia |].
  intros y x c. split.
  - apply Q.min_glb; [lra | apply Q.le_max_l].
  - apply Q.le_min_l.
Qed.

Lemma augment_blur_returns (self : Parameters) (rnd : RandomDraws) (image : Array3) :
  0 < augmentation_blur_size self -> Z.odd (augmentation_blur_size self) = true ->
  augmentation_blur_size self / 2 < dim_y image ->
  augmentation_blur_size self / 2 < dim_x image -> dim_c image = 3 ->
  exists blurred, _augment_blur gaussian_filter self rnd image = Ok blurred.
Proof.
  intros Hpos Hodd Hy Hx Hc. unfold _augment_blur. cbv zeta.
  destruct (blur_kernel_shape_returns _ Hpos Hodd) as [-> Hk2]. cbn [bind].
  assert (Py : pad_admissible REFLECT (dim_y image)
                 (augmentation_blur_size self / 2, augmentation_blur_size self / 2)
               = true).
  { cbn [pad_admissible]. rewrite !andb_true_iff, !Z.leb_le. lia. }
  assert (Px : pad_admissible REFLECT (dim_x image)
                 (augmentation_blur_size self / 2, augmentation_blur_size self / 2)
               = true).
  { cbn [pad_admissible]. rewrite !andb_true_iff, !Z.leb_le. lia. }
  rewrite Py, Px, Hc. cbn [pad_admissible andb].
  change ((0 <=? 0) && (0 <=? 0) && ((0 <=? 3 - 1) && (0 <=? 3 - 1))) with true.
  change (3 =? 3) with true. cbn [andb].
  destruct (Z.leb_spec (augmentation_blur_size self)
              (augmentation_blur_size self / 2 + dim_y image
               + augmentation_blur_size self / 2)); [| lia].
  destruct (Z.leb_spec (augmentation_blur_size self)
              (augmentation_blur_size self / 2 + dim_x image
               + augmentation_blur_size self / 2)); [| lia].
  cbn [andb]. eexists; reflexivity.
Qed.

Lemma augment_blur_dims (self : Parameters) (rnd : RandomDraws)
    (image blurred : Array3) :
  _augment_blur gaussian_filter self rnd image = Ok blurred ->
  dim_y blurred = dim_y image /\ dim_x blurred = dim_x image /\
  dim_c blurred = dim_c image.
Proof.
  intros H. apply augment_blur_inv in H as (_ & Hy & Hx & Hc & _).
  repeat split; assumption.
Qed.

Lemma blur_step (self : Parameters) (rnd : RandomDraws) (image : Array3)
    (do_blur : bool) (blurred : Array3) :
  (if do_blur then _augment_blur gaussian_filter self rnd image else Ok image)
    = Ok blurred ->
  dim_y blurred = dim_y image /\ dim_x blurred = dim_x image /\
  dim_c blurred = dim_c image.
Proof.
  destruct do_blur.
  - apply augment_blur_dims.
  - intros [= <-]. repeat split.
Qed.

Lemma blur_step_returns (self : Parameters) (rnd : RandomDraws) (image : Array3)
    (do_blur : bool) :
  dim_c image = 3 ->
  (do_blur = true ->
   0 < augmentation_blur_size self /\ Z.odd (augmentation_blur_size self) = true /\
   augmentation_blur_size self / 2 < dim_y image /\
   augmentation_blur_size self / 2 < dim_x image) ->
  exists blurred,
    (if do_blur then _augment_blur gaussian_filter self rnd image else Ok image)
      = Ok blurred.
Proof.
  intros Hc Hblur. destruct do_blur; [| eexists; reflexivity].
  destruct (Hblur eq_refl) as (Hpos & Hodd & Hy & Hx).
  now apply augment_blur_returns.
Qed.


(** The size that the sample is scaled to. *)
Lemma scaled_size_of_blurred (self : Parameters) (rnd : RandomDraws)
    (image blurred : Array3) (f : Q) :
  dim_y blurred = dim_y image -> dim_x blurred = dim_x image ->
  (round_half_even (inject_Z (dim_y blurred) * f),
   round_half_even (inject_Z (dim_x blurred) * f)) =
  (round_half_even (inject_Z (dim_y image) * f),
   round_half_even (inject_Z (dim_x image) * f)).
Proof. now intros -> ->. Qed.


End AugmentationProperties.


(** * Further properties of the code *)

(** ** Stride padding: domain and balance *)

Lemma reflect_admissible_32_iff (h : Z) :
  pad_admissible REFLECT h (split_padding (32 - h mod 32)) = true <-> 12 <= h.
Proof.
  pose proof (missing_bounds h 32 ltac:(lia)) as B.
  pose proof (split_padding_floor_ceil (32 - h mod 32)) as FC.
  pose proof (Z.mod_pos_bound h 32 ltac:(lia)) as M.
  pose proof (Z.div_mod h 32 ltac:(lia)) as D.
  destruct (split_padding (32 - h mod 32)) as [before after].
  cbn [pad_admissible]. rewrite !andb_true_iff, !Z.leb_le.
  split; [intros | intros; repeat split]; lia.
Qed.

Lemma pad_shape_rank4_inv (mode : PadMode) (n h w c : Z) (ph pw : Z * Z) (s : Shape) :
  pad_shape mode [n; h; w; c] [ (0, 0); ph; pw; (0, 0) ] = Ok s ->
  pad_admissible mode h ph = true /\ pad_admissible mode w pw = true.
Proof.
  cbn [pad_shape].
  destruct (pad_admissible mode n (0, 0)); [| discriminate].
  destruct (pad_admissible mode h ph); [| discriminate].
  destruct (pad_admissible mode w pw); [| discriminate].
  intros _. split; reflexivity.
Qed.

Lemma pad_to_stride_32_reflect_returns (inputs : Tensor) (n h w c : Z) :
  shape inputs = [n; h; w; c] -> 0 < n -> 0 < c ->
  (12 <= h /\ 12 <= w ->
   pad_to_stride inputs 32 REFLECT =
   Ok (mkTensor
         (PadOp [ (0, 0); split_padding (32 - h mod 32);
                  split_padding (32 - w mod 32); (0, 0) ] REFLECT (op inputs))
         [n; h + (32 - h mod 32); w + (32 - w mod 32); c])) /\
  (h < 12 \/ w < 12 ->
   pad_to_stride inputs 32 REFLECT = Raise InvalidArgumentError).
Proof.
  intros Hs Hn Hc. split.
  - intros [Hh Hw].
    apply (pad_to_stride_value inputs n h w c 32 REFLECT Hs Hn Hc);
      [lia | now apply reflect_admissible_32_iff ..].
  - intros Hsmall. unfold pad_to_stride.
    rewrite (pad_to_stride_paddings_value inputs n h w c 32 Hs ltac:(lia)).
    cbn [bind]. unfold tf_pad. rewrite Hs.
    rewrite pad_shape_rejects; [reflexivity |].
    destruct Hsmall as [Hh | Hw]; [left | right];
      apply not_true_is_false; rewrite reflect_admissible_32_iff; lia.
Qed.

(** The padding step of the models: on a non-empty rank-4 batch,
    [pad_to_stride(inputs, 32, 'REFLECT')] returns exactly when height and
    width are at least 12; below that the reflection needs more pixels than
    there are and the call raises. *)
Theorem pad_to_stride_32_reflect_domain (inputs : Tensor) (n h w c : Z) :
  shape inputs = [n; h; w; c] -> 0 < n -> 0 < c ->
  (12 <= h /\ 12 <= w ->
   pad_to_stride inputs 32 REFLECT =
   Ok (mkTensor
         (PadOp [ (0, 0); split_padding (32 - h mod 32);
                  split_padding (32 - w mod 32); (0, 0) ] REFLECT (op inputs))
         [n; h + (32 - h mod 32); w + (32 - w mod 32); c])) /\
  (h < 12 \/ w < 12 ->
   pad_to_stride inputs 32 REFLECT = Raise InvalidArgumentError).
Proof. exact (pad_to_stride_32_reflect_returns inputs n h w c). Qed.

Lemma pad_to_stride_32_reflect_domain_witness :
  pad_to_stride (placeholder "inputs" [1; 12; 40; 3]) 32 REFLECT =
    Ok (mkTensor
          (PadOp [ (0, 0); (10, 10); (12, 12); (0, 0) ] REFLECT (Placeholder "inputs"))
          [1; 32; 64; 3]) /\
  pad_to_stride (placeholder "inputs" [1; 11; 40; 3]) 32 REFLECT =
    Raise InvalidArgumentError.
Proof.
  split.
  - apply (proj1 (pad_to_stride_32_reflect_domain
                    (placeholder "inputs" [1; 12; 40; 3]) 1 12 40 3
                    eq_refl eq_refl eq_refl)).
    split; discriminate.
  - apply (proj2 (pad_to_stride_32_reflect_domain
                    (placeholder "inputs" [1; 11; 40; 3]) 1 11 40 3
                    eq_refl eq_refl eq_refl)).
    left; reflexivity.
Defined.



(** A stride that is not positive never yields a padded tensor: stride 0
    raises [ZeroDivisionError] in the modulo, a negative stride makes the
    computed paddings negative, which [tf.pad] rejects in every mode. *)
Theorem pad_to_stride_needs_positive_stride (inputs : Tensor) (n h w c s : Z)
    (mode : PadMode) :
  shape inputs = [n; h; w; c] -> s <= 0 ->
  (s = 0 -> pad_to_stride inputs s mode = Raise ZeroDivisionError) /\
  (s < 0 -> pad_to_stride inputs s mode = Raise InvalidArgumentError).
Proof.
  intros Hs Hle. split.
  - intros ->. unfold pad_to_stride, pad_to_stride_paddings, shape_at.
    rewrite Hs. reflexivity.
  - intros Hneg. unfold pad_to_stride, pad_to_stride_paddings, shape_at, missing, py_mod.
    rewrite Hs. cbn [nth_error bind].
    destruct (Z.eqb_spec s 0) as [E | _]; [lia |]. cbn [bind].
    unfold tf_pad. rewrite Hs.
    rewrite pad_shape_rejects; [reflexivity |].
    left.
    pose proof (Z.mod_neg_bound h s Hneg) as M.
    pose proof (split_padding_floor_ceil (s - h mod s)) as FC.
    destruct (split_padding (s - h mod s)) as [before after].
    cbn [pad_admissible].
    destruct (Z.leb_spec 0 before); [lia | reflexivity].
Qed.

Lemma pad_to_stride_needs_positive_stride_witness :
  pad_to_stride (placeholder "inputs" [1; 40; 40; 3]) 0 REFLECT
    = Raise ZeroDivisionError /\
  pad_to_stride (placeholder "inputs" [1; 40; 40; 3]) (-32) CONSTANT
    = Raise InvalidArgumentError.
Proof.
  split.
  - apply (proj1 (pad_to_stride_needs_positive_stride
                    (placeholder "inputs" [1; 40; 40; 3]) 1 40 40 3 0 REFLECT
                    eq_refl ltac:(discriminate))). reflexivity.
  - apply (proj2 (pad_to_stride_needs_positive_stride
                    (placeholder "inputs" [1; 40; 40; 3]) 1 40 40 3 (-32) CONSTANT
                    eq_refl ltac:(discriminate))). reflexivity.
Defined.



(** ** ResNet backbone: stem and stub layers *)

Lemma MaxPooling2D_call_2x2 (t : Tensor) (n h w c : Z) :
  shape t = [n; h; w; c] -> 2 <= h -> 2 <= w ->
  MaxPooling2D.call (MaxPooling2D.mk (2, 2)) t =
  Ok (mkTensor (MaxPooling2DOp (2, 2) (op t)) [n; h / 2; w / 2; c]).
Proof.
  intros Hs Hh Hw. unfold MaxPooling2D.call, conv_output_length. rewrite Hs.
  cbn [MaxPooling2D.pool_size fst snd].
  replace (2 + (2 - 1) * (1 - 1)) with 2 by lia.
  destruct (Z.ltb_spec h 2); [lia |]. destruct (Z.ltb_spec w 2); [lia |].
  cbn [bind]. do 3 f_equal. f_equal; [f_equal; lia | f_equal; f_equal; lia].
Qed.

Lemma MaxPooling2D_call_2x2_small (t : Tensor) (n h w c : Z) :
  shape t = [n; h; w; c] -> h < 2 \/ w < 2 ->
  MaxPooling2D.call (MaxPooling2D.mk (2, 2)) t = Raise ValueError.
Proof.
  intros Hs Hsmall. unfold MaxPooling2D.call, conv_output_length. rewrite Hs.
  cbn [MaxPooling2D.pool_size fst snd].
  replace (2 + (2 - 1) * (1 - 1)) with 2 by lia.
  destruct (Z.ltb_spec h 2); [reflexivity |].
  destruct (Z.ltb_spec w 2); [reflexivity | lia].
Qed.

Lemma quarter_of_multiple (k : Z) : (k * 4 + 1) / 2 / 2 = k * 4 / 4.
Proof.
  rewrite Z.div_mul by lia.
  replace ((k * 4 + 1) / 2) with (2 * k)
    by (apply (Z.div_unique (k * 4 + 1) 2 (2 * k) 1); lia).
  rewrite Z.mul_comm. apply Z.div_mul. lia.
Qed.

(** The stem of the backbone (7x7 stride-2 convolution, normalisation,
    rectification, 2x2 max-pooling) maps a rank-4 batch at least 3 pixels
    high and wide to 64 channels at a quarter of the size; a backbone
    without residual layers returns these stem features, and with any
    non-empty list of block counts it returns [None], the result of its
    last residual layer. *)
Theorem ResNetBackbone_call_value (blocks : list Z) (inputs : Tensor) (n h w c : Z) :
  shape inputs = [n; h; w; c] -> 3 <= h -> 3 <= w ->
  ResNetBackbone.call (ResNetBackbone.init blocks) inputs =
  Ok (match blocks with
      | [] =>
          PyTensor
            (mkTensor
               (MaxPooling2DOp (2, 2)
                  (ReLUOp
                     (BatchNormalizationOp "batch_norm_in"
                        (Conv2DOp "conv_in" 64 7 (2, 2) SAME (op inputs)))))
               [n; (h + 1) / 2 / 2; (w + 1) / 2 / 2; 64])
      | _ :: _ => PyNone
      end) /\
  ((4 | h) -> (h + 1) / 2 / 2 = h / 4) /\ ((4 | w) -> (w + 1) / 2 / 2 = w / 4).
Proof.
  intros Hs Hh Hw. split; [| split; intros [k ->]; apply quarter_of_multiple].
  unfold ResNetBackbone.call, ResNetBackbone.init.
  cbn [ResNetBackbone.conv_in ResNetBackbone.batch_norm_in
    ResNetBackbone.activation_in ResNetBackbone.pool_in
    ResNetBackbone.residual_layers].
  unfold ResNetBackbone._INITIAL_FILTERS.
  rewrite (Conv2D_call_same_stride2 _ _ _ _ _ n h w c Hs).
  cbn [bind BatchNormalization.call ReLU.call op shape BatchNormalization.name].
  erewrite (MaxPooling2D_call_2x2 _ n ((h + 1) / 2) ((w + 1) / 2) 64);
    [| reflexivity | apply Z.div_le_lower_bound; lia ..].
  cbn [bind op].
  destruct blocks as [| b bs]; [reflexivity |].
  cbn [ResNetBackbone.make_residual_layers].
  apply run_layers_nonempty.
Qed.

Lemma ResNetBackbone_call_value_witness :
  ResNetBackbone.call (ResNetBackbone.init [2; 2])
    (placeholder "inputs" [4; 96; 64; 3]) = Ok PyNone /\
  exists features,
    ResNetBackbone.call (ResNetBackbone.init [])
      (placeholder "inputs" [4; 96; 64; 3]) = Ok (PyTensor features) /\
    shape features = [4; 24; 16; 64].
Proof.
  split.
  - exact (proj1 (ResNetBackbone_call_value [2; 2]
                    (placeholder "inputs" [4; 96; 64; 3]) 4 96 64 3
                    eq_refl ltac:(discriminate) ltac:(discriminate))).
  - eexists. split.
    + exact (proj1 (ResNetBackbone_call_value []
                      (placeholder "inputs" [4; 96; 64; 3]) 4 96 64 3
                      eq_refl ltac:(discriminate) ltac:(discriminate))).
    + reflexivity.
Defined.

(** A batch less than 3 pixels high or wide leaves the stem's max-pooling
    without a full window and the backbone raises, whatever its blocks. *)
Theorem ResNetBackbone_call_small_input (blocks : list Z) (inputs : Tensor)
    (n h w c : Z) :
  shape inputs = [n; h; w; c] -> h < 3 \/ w < 3 ->
  ResNetBackbone.call (ResNetBackbone.init blocks) inputs = Raise ValueError.
Proof.
  intros Hs Hsmall.
  unfold ResNetBackbone.call, ResNetBackbone.init.
  cbn [ResNetBackbone.conv_in ResNetBackbone.batch_norm_in
    ResNetBackbone.activation_in ResNetBackbone.pool_in
    ResNetBackbone.residual_layers].
  unfold ResNetBackbone._INITIAL_FILTERS.
  rewrite (Conv2D_call_same_stride2 _ _ _ _ _ n h w c Hs).
  cbn [bind BatchNormalization.call ReLU.call op shape BatchNormalization.name].
  erewrite (MaxPooling2D_call_2x2_small _ n ((h + 1) / 2) ((w + 1) / 2) 64);
    [reflexivity | reflexivity |].
  destruct Hsmall; [left | right]; apply Z.div_lt_upper_bound; lia.
Qed.

Lemma ResNetBackbone_call_small_input_witness :
  ResNetBackbone.call ResNet50Backbone.init (placeholder "inputs" [1; 2; 256; 3])
  = Raise ValueError.
Proof.
  apply (ResNetBackbone_call_small_input [3; 4; 6; 3]
           (placeholder "inputs" [1; 2; 256; 3]) 1 2 256 3 eq_refl).
  left; reflexivity.
Defined.

Lemma ResNetBackbone_call_nonempty_None (b : Z) (bs : list Z) (inputs : Tensor)
    (result : PyObject) :
  ResNetBackbone.call (ResNetBackbone.init (b :: bs)) inputs = Ok result ->
  result = PyNone.
Proof.
  unfold ResNetBackbone.call. intros H.
  inv_bind H. inv_bind H. inv_bind H. inv_bind H.
  cbn [ResNetBackbone.init ResNetBackbone.residual_layers
    ResNetBackbone.make_residual_layers] in H.
  rewrite run_layers_nonempty in H. now injection H as <-.
Qed.

(** The test model cannot be constructed: whatever the arguments, its
    constructor raises [TypeError], because it passes [weight_decay] to the
    constructor of the ResNet-50 backbone, which takes no such argument;
    with that keyword declared the construction would go through.  So the
    experiment's [fit] never gets a model to call. *)
Theorem TestFastFCN_init_raises (jpu_features : Z) (weight_decay : Q)
    (output_upsampling : Interpolation) :
  TestFastFCN.init jpu_features weight_decay output_upsampling = Raise TypeError /\
  py_call_keywords ("weight_decay"%string :: ResNet50Backbone.parameters)
    ["weight_decay"%string] (Ok ResNet50Backbone.init) = Ok ResNet50Backbone.init.
Proof.
  split; reflexivity.
Qed.

(** ** JPU module: which inputs it accepts *)

Lemma tf_concat_triple_inv (a b c out : Tensor) (na ha wa ca nb hb wb cb nc hc wc cc : Z) :
  shape a = [na; ha; wa; ca] -> shape b = [nb; hb; wb; cb] ->
  shape c = [nc; hc; wc; cc] ->
  tf_concat [a; b; c] = Ok out ->
  nb = na /\ hb = ha /\ wb = wa /\ nc = na /\ hc = ha /\ wc = wa.
Proof.
  intros Ha Hb Hc. unfold tf_concat. cbn [concat_last_dim].
  rewrite Ha, Hb, Hc. cbn [removelast last].
  destruct (list_eq_dec Z.eq_dec [na; ha; wa] [na; ha; wa]); [| discriminate].
  destruct (list_eq_dec Z.eq_dec [nb; hb; wb] [na; ha; wa]) as [Eb |]; [| discriminate].
  destruct (list_eq_dec Z.eq_dec [nc; hc; wc] [na; ha; wa]) as [Ec |]; [| discriminate].
  intros _. injection Eb as -> -> ->. injection Ec as -> -> ->. repeat split.
Qed.

(** The JPU module accepts three rank-4 feature maps exactly when they
    share the batch size and their heights and widths are in the ratio
    4 : 2 : 1, that is when upsampling by 2 and by 4 makes the three
    concatenable; its output then has the stride-8 map's batch and size and
    [4 * features] channels, whatever the input channel counts. *)
Theorem JPUModule_call_accepts_iff (features : Z) (t8 t16 t32 : Tensor)
    (n8 h8 w8 c8 n16 h16 w16 c16 n32 h32 w32 c32 : Z) :
  shape t8 = [n8; h8; w8; c8] ->
  shape t16 = [n16; h16; w16; c16] ->
  shape t32 = [n32; h32; w32; c32] ->
  ((exists out,
      JPUModule.call (JPUModule.init features) (PyList [t8; t16; t32]) = Ok out) <->
   n16 = n8 /\ n32 = n8 /\ h16 * 2 = h8 /\ w16 * 2 = w8 /\
   h32 * 4 = h8 /\ w32 * 4 = w8) /\
  (forall out,
     JPUModule.call (JPUModule.init features) (PyList [t8; t16; t32]) = Ok out ->
     shape out = [n8; h8; w8; 4 * features]).
Proof.
  intros H8 H16 H32.
  assert (Hinv : forall out,
             JPUModule.call (JPUModule.init features) (PyList [t8; t16; t32]) = Ok out ->
             n16 = n8 /\ n32 = n8 /\ h16 * 2 = h8 /\ w16 * 2 = w8 /\
             h32 * 4 = h8 /\ w32 * 4 = w8).
  { intros out H. unfold JPUModule.call, JPUModule.init in H.
    cbn [py_unpack3 bind JPUModule.initial_s8 JPUModule.initial_s16
      JPUModule.initial_s32 JPUModule.upsampling_s16 JPUModule.upsampling_s32
      JPUModule.separable_blocks] in H.
    rewrite (JPUInputBlock_call_value _ _ _ n8 h8 w8 c8 H8) in H. cbn [bind] in H.
    rewrite (JPUInputBlock_call_value _ _ _ n16 h16 w16 c16 H16) in H. cbn [bind] in H.
    rewrite (JPUInputBlock_call_value _ _ _ n32 h32 w32 c32 H32) in H. cbn [bind] in H.
    unfold UpSampling2D.call in H.
    cbn [shape op bind UpSampling2D.size UpSampling2D.interpolation fst snd] in H.
    inv_bind H.
    eapply tf_concat_triple_inv in E; [| reflexivity ..].
    destruct E as (En16 & Eh16 & Ew16 & En32 & Eh32 & Ew32).
    repeat split; assumption. }
  split.
  - split.
    + intros [out H]. exact (Hinv out H).
    + intros (-> & -> & Eh16 & Ew16 & Eh32 & Ew32). eexists.
      exact (JPUModule_call_value features t8 t16 t32 n8 h8 w8 h16 w16 h32 w32
               c8 c16 c32 H8 H16 H32 Eh16 Ew16 Eh32 Ew32).
  - intros out H.
    destruct (Hinv out H) as (-> & -> & Eh16 & Ew16 & Eh32 & Ew32).
    rewrite (JPUModule_call_value features t8 t16 t32 n8 h8 w8 h16 w16 h32 w32
               c8 c16 c32 H8 H16 H32 Eh16 Ew16 Eh32 Ew32) in H.
    injection H as <-. reflexivity.
Qed.

Lemma JPUModule_call_accepts_iff_witness :
  (exists out,
     JPUModule.call (JPUModule.init 128)
       (PyList [ placeholder "s8" [2; 12; 20; 512];
                 placeholder "s16" [2; 6; 10; 1024];
                 placeholder "s32" [2; 3; 5; 2048] ]) = Ok out) /\
  ~ (exists out,
       JPUModule.call (JPUModule.init 128)
         (PyList [ placeholder "s8" [2; 13; 20; 512];
                   placeholder "s16" [2; 7; 10; 1024];
                   placeholder "s32" [2; 4; 5; 2048] ]) = Ok out).
Proof.
  split.
  - apply (proj1 (JPUModule_call_accepts_iff 128
                    (placeholder "s8" [2; 12; 20; 512])
                    (placeholder "s16" [2; 6; 10; 1024])
                    (placeholder "s32" [2; 3; 5; 2048])
                    2 12 20 512 2 6 10 1024 2 3 5 2048 eq_refl eq_refl eq_refl)).
    repeat split.
  - intros H.
    apply (proj1 (JPUModule_call_accepts_iff 128
                    (placeholder "s8" [2; 13; 20; 512])
                    (placeholder "s16" [2; 7; 10; 1024])
                    (placeholder "s32" [2; 4; 5; 2048])
                    2 13 20 512 2 7 10 1024 2 4 5 2048 eq_refl eq_refl eq_refl)) in H.
    destruct H as (_ & _ & H & _). discriminate H.
Defined.

(** ** Heads *)

Lemma Conv2D_call_valid_pointwise_empty (name : string) (f : Z) (ub : bool)
    (t : Tensor) (n h w c : Z) :
  shape t = [n; h; w; c] -> h <= 0 \/ w <= 0 ->
  Conv2D.call (Conv2D.mk name f 1 (1, 1) VALID ub) t = Raise ValueError.
Proof.
  intros Hs He. unfold Conv2D.call, conv_output_length. rewrite Hs.
  cbn [Conv2D.kernel_size Conv2D.padding Conv2D.strides Conv2D.filters
    Conv2D.name fst snd].
  replace (1 + (1 - 1) * (1 - 1)) with 1 by lia.
  destruct (Z.ltb_spec h 1); [reflexivity |].
  destruct (Z.ltb_spec w 1); [reflexivity | lia].
Qed.

(** The three heads map a stride-8 feature map with any number of channels
    to logits of the same batch and spatial size with exactly one channel,
    whatever the intermediate width and the dropout rate; a feature map
    without rows or columns is rejected by the first convolution. *)
Theorem heads_return_single_channel (intermediate_features se cw : Z) (rate : Q)
    (t : Tensor) (n h w c : Z) :
  shape t = [n; h; w; c] ->
  (0 < h /\ 0 < w ->
   (exists out loss,
      EncoderHead.call (EncoderHead.init intermediate_features se cw rate) t
        = Ok (out, loss) /\ shape out = [n; h; w; 1]) /\
   (exists out,
      FCNHeadNoContext.call (FCNHeadNoContext.init intermediate_features rate) t
        = Ok out /\ shape out = [n; h; w; 1]) /\
   (exists out,
      FCNHead.call (FCNHead.init intermediate_features rate) t = Ok out /\
      shape out = [n; h; w; 1])) /\
  (h <= 0 \/ w <= 0 ->
   EncoderHead.call (EncoderHead.init intermediate_features se cw rate) t
     = Raise ValueError /\
   FCNHeadNoContext.call (FCNHeadNoContext.init intermediate_features rate) t
     = Raise ValueError /\
   FCNHead.call (FCNHead.init intermediate_features rate) t = Raise ValueError).
Proof.
  intros Hs. split.
  - intros [Hh Hw]. split; [| split].
    + exact (EncoderHead_call_shape intermediate_features se cw rate t n h w c Hs Hh Hw).
    + exact (FCNHeadNoContext_call_shape intermediate_features rate t n h w c Hs Hh Hw).
    + exact (FCNHead_call_shape intermediate_features rate t n h w c Hs Hh Hw).
  - intros He. split; [| split].
    + unfold EncoderHead.call, EncoderHead.init. cbn [EncoderHead.conv_in].
      now rewrite (Conv2D_call_valid_pointwise_empty _ _ _ _ n h w c Hs He).
    + unfold FCNHeadNoContext.call, FCNHeadNoContext.init.
      cbn [FCNHeadNoContext.conv_in].
      now rewrite (Conv2D_call_valid_pointwise_empty _ _ _ _ n h w c Hs He).
    + unfold FCNHead.call, FCNHead.init. cbn [FCNHead.conv_in].
      now rewrite (Conv2D_call_valid_pointwise_empty _ _ _ _ n h w c Hs He).
Qed.

Lemma heads_return_single_channel_witness :
  (exists out,
     FCNHead.call (FCNHead.init 256 (1 # 10)) (placeholder "features" [2; 48; 48; 2048])
       = Ok out /\ shape out = [2; 48; 48; 1]) /\
  FCNHeadNoContext.call (FCNHeadNoContext.init 512 (1 # 10))
    (placeholder "features" [2; 0; 48; 2048]) = Raise ValueError.
Proof.
  destruct (heads_return_single_channel 256 1 32 (1 # 10)
              (placeholder "features" [2; 48; 48; 2048]) 2 48 48 2048 eq_refl)
    as [Hok _].
  destruct (heads_return_single_channel 512 1 32 (1 # 10)
              (placeholder "features" [2; 0; 48; 2048]) 2 0 48 2048 eq_refl)
    as [_ Hempty].
  split.
  - exact (proj2 (proj2 (Hok (conj eq_refl eq_refl)))).
  - exact (proj1 (proj2 (Hempty (or_introl (Z.le_refl 0))))).
Defined.

(** ** Full models: the inputs they accept *)

Lemma backbone_jpu_value (backbone : KerasModel) (jpu_features : Z)
    (padded : Tensor) (n h' w' c : Z) :
  backbone_contract backbone ->
  shape padded = [n; h'; w'; c] -> 0 < h' -> 0 < w' -> (32 | h') -> (32 | w') ->
  exists features intermediate upsampled,
    backbone padded = Ok features /\
    py_last3 features = Ok intermediate /\
    JPUModule.call (JPUModule.init jpu_features) intermediate = Ok upsampled /\
    shape upsampled = [n; h' / 8; w' / 8; 4 * jpu_features] /\
    0 < h' / 8 /\ 0 < w' / 8.
Proof.
  intros Hb Hs Hh Hw Dh Dw.
  destruct (Hb padded n h' w' c Hs Hh Hw Dh Dw)
    as (l & Hcall & rest & f8 & f16 & f32 & c8 & c16 & c32 & -> & S8 & S16 & S32).
  destruct (stride_32_quotients h' Hh Dh) as (Eh16 & Eh32 & Ph & _).
  destruct (stride_32_quotients w' Hw Dw) as (Ew16 & Ew32 & Pw & _).
  exists (PyList (rest ++ [f8; f16; f32])), (PyList [f8; f16; f32]).
  eexists. split; [exact Hcall |]. split; [apply py_last3_of_contract |].
  split.
  - exact (JPUModule_call_value jpu_features f8 f16 f32 n (h' / 8) (w' / 8)
             (h' / 16) (w' / 16) (h' / 32) (w' / 32) c8 c16 c32
             S8 S16 S32 Eh16 Ew16 Eh32 Ew32).
  - split; [reflexivity | split; assumption].
Qed.

(** On a non-empty batch with any positive number of channels, the
    context-encoding and the no-context model, built on a backbone with
    stride-8/16/32 feature maps, return logits of shape
    [N, height // 8, width // 8, 1] as soon as height and width are at
    least 12; on anything smaller both raise in the reflection padding,
    before the backbone is reached, whatever the backbone. *)
Theorem FastFCN_call_domain (backbone : KerasModel) (jpu_features se cw : Z)
    (rate : Q) (inputs : Tensor) (n h w c : Z) :
  shape inputs = [n; h; w; c] -> 0 < n -> 0 < c ->
  (backbone_contract backbone -> 12 <= h /\ 12 <= w ->
   (exists out loss,
      FastFCN.call (FastFCN.init backbone jpu_features rate se cw) inputs
        = Ok (out, loss) /\ shape out = [n; h / 8; w / 8; 1]) /\
   (exists out,
      FastFCNNoContext.call (FastFCNNoContext.init backbone jpu_features rate) inputs
        = Ok out /\ shape out = [n; h / 8; w / 8; 1])) /\
  (h < 12 \/ w < 12 ->
   FastFCN.call (FastFCN.init backbone jpu_features rate se cw) inputs
     = Raise InvalidArgumentError /\
   FastFCNNoContext.call (FastFCNNoContext.init backbone jpu_features rate) inputs
     = Raise InvalidArgumentError).
Proof.
  intros Hs Hn Hc.
  destruct (pad_to_stride_32_reflect_returns inputs n h w c Hs Hn Hc) as [Hpad Hrej].
  split.
  - intros Hb [Hh Hw].
    specialize (Hpad (conj Hh Hw)).
    pose proof (missing_bounds h 32 ltac:(lia)) as Bh.
    pose proof (missing_bounds w 32 ltac:(lia)) as Bw.
    match type of Hpad with _ = Ok ?t => set (padded := t) in * end.
    destruct (backbone_jpu_value backbone jpu_features padded n
                (h + (32 - h mod 32)) (w + (32 - w mod 32)) c Hb eq_refl
                ltac:(lia) ltac:(lia)
                (missing_reaches_multiple h 32 ltac:(lia))
                (missing_reaches_multiple w 32 ltac:(lia)))
      as (feats & inter & up & Hcall & Hl & Hj & Hup & Ph & Pw).
    split.
    + destruct (EncoderHead_call_shape 512 se cw rate up n _ _ _ Hup Ph Pw)
        as (small & loss & Hhead & Hsmall).
      destruct (tf_image_resize_with_crop_or_pad_shape small n _ _ 1
                  (h / 8) (w / 8) Hsmall Ph Pw ltac:(lia)
                  ltac:(apply Z.div_str_pos; lia) ltac:(apply Z.div_str_pos; lia))
        as (out & Hcrop & Hout).
      exists out, loss. split; [| exact Hout].
      unfold FastFCN.call, FastFCN.init, unstack_shape4, util_pad_to_stride.
      cbn [FastFCN.backbone FastFCN.upsampling FastFCN.head].
      rewrite Hs. cbn [bind].
      rewrite Hpad. cbn [bind]. rewrite Hcall. cbn [bind]. rewrite Hl. cbn [bind].
      rewrite Hj. cbn [bind]. rewrite Hhead. cbn [bind]. rewrite Hcrop. reflexivity.
    + destruct (FCNHeadNoContext_call_shape 512 rate up n _ _ _ Hup Ph Pw)
        as (small & Hhead & Hsmall).
      destruct (tf_image_resize_with_crop_or_pad_shape small n _ _ 1
                  (h / 8) (w / 8) Hsmall Ph Pw ltac:(lia)
                  ltac:(apply Z.div_str_pos; lia) ltac:(apply Z.div_str_pos; lia))
        as (out & Hcrop & Hout).
      exists out. split; [| exact Hout].
      unfold FastFCNNoContext.call, FastFCNNoContext.init, unstack_shape4,
        util_pad_to_stride.
      cbn [FastFCNNoContext.backbone FastFCNNoContext.upsampling
        FastFCNNoContext.head].
      rewrite Hs. cbn [bind].
      rewrite Hpad. cbn [bind]. rewrite Hcall. cbn [bind]. rewrite Hl. cbn [bind].
      rewrite Hj. cbn [bind]. rewrite Hhead. cbn [bind]. rewrite Hcrop. reflexivity.
  - intros Hsmall. specialize (Hrej Hsmall). split.
    + unfold FastFCN.call, unstack_shape4, util_pad_to_stride.
      rewrite Hs. cbn [bind]. rewrite Hrej. reflexivity.
    + unfold FastFCNNoContext.call, unstack_shape4, util_pad_to_stride.
      rewrite Hs. cbn [bind]. rewrite Hrej. reflexivity.
Qed.

Lemma FastFCN_call_domain_witness :
  (exists out,
     FastFCNNoContext.call (FastFCNNoContext.init strided_backbone 512 (1 # 10))
       (placeholder "inputs" [2; 12; 100; 3]) = Ok out /\
     shape out = [2; 1; 12; 1]) /\
  FastFCNNoContext.call (FastFCNNoContext.init strided_backbone 512 (1 # 10))
    (placeholder "inputs" [2; 11; 100; 3]) = Raise InvalidArgumentError.
Proof.
  destruct (FastFCN_call_domain strided_backbone 512 1 32 (1 # 10)
              (placeholder "inputs" [2; 12; 100; 3]) 2 12 100 3
              eq_refl eq_refl eq_refl) as [Hok _].
  destruct (FastFCN_call_domain strided_backbone 512 1 32 (1 # 10)
              (placeholder "inputs" [2; 11; 100; 3]) 2 11 100 3
              eq_refl eq_refl eq_refl) as [_ Hsmall].
  split.
  - apply Hok; [exact strided_backbone_contract | split; discriminate].
  - apply Hsmall. left. reflexivity.
Defined.

(** ** Augmentation: joint transformation of image and mask *)

Lemma flip_source (b : bool) (a : Array3) :
  exists source : Z * Z -> Z * Z,
    forall p, in_plane (dim_y (tf_image_random_flip_left_right b a))
                (dim_x (tf_image_random_flip_left_right b a)) p ->
      in_plane (dim_y a) (dim_x a) (source p) /\
      forall c, item (tf_image_random_flip_left_right b a) (fst p) (snd p) c =
                item a (fst (source p)) (snd (source p)) c.
Proof.
  destruct b.
  - exists (fun p => (fst p, dim_x a - 1 - snd p)).
    intros [y x] [Hy Hx]. unfold in_plane. cbn in *. split; [split; lia | reflexivity].
  - exists (fun p => p). intros p Hp. split; [exact Hp | reflexivity].
Qed.

Lemma rot90_source (k : Z) (a : Array3) :
  exists source : Z * Z -> Z * Z,
    forall p, in_plane (dim_y (tf_image_rot90 a k)) (dim_x (tf_image_rot90 a k)) p ->
      in_plane (dim_y a) (dim_x a) (source p) /\
      forall c, item (tf_image_rot90 a k) (fst p) (snd p) c =
                item a (fst (source p)) (snd (source p)) c.
Proof.
  unfold tf_image_rot90.
  destruct (k mod 4 =? 1); [| destruct (k mod 4 =? 2); [| destruct (k mod 4 =? 3)]].
  - exists (fun p => (snd p, dim_x a - 1 - fst p)).
    intros [y x] [Hy Hx]. unfold in_plane. cbn in *. split; [split; lia | reflexivity].
  - exists (fun p => (dim_y a - 1 - fst p, dim_x a - 1 - snd p)).
    intros [y x] [Hy Hx]. unfold in_plane. cbn in *. split; [split; lia | reflexivity].
  - exists (fun p => (dim_y a - 1 - snd p, fst p)).
    intros [y x] [Hy Hx]. unfold in_plane. cbn in *. split; [split; lia | reflexivity].
  - exists (fun p => p). intros p Hp. split; [exact Hp | reflexivity].
Qed.

Lemma crop_source (raw : Z * Z * Z) (value cropped : Array3)
    (size_y size_x size_c : Z) :
  dim_c value = size_c ->
  tf_image_random_crop raw value (size_y, size_x, size_c) = Ok cropped ->
  exists source : Z * Z -> Z * Z,
    forall p, in_plane size_y size_x p ->
      in_plane (dim_y value) (dim_x value) (source p) /\
      forall c, item cropped (fst p) (snd p) c =
                item value (fst (source p)) (snd (source p)) c.
Proof.
  intros <-.
  unfold tf_image_random_crop. destruct raw as [[raw_y raw_x] raw_c].
  destruct (Z.leb_spec 0 size_y); [| discriminate].
  destruct (Z.leb_spec 0 size_x); [| discriminate].
  destruct (Z.leb_spec 0 (dim_c value)); [| discriminate].
  destruct (Z.leb_spec size_y (dim_y value)); [| discriminate].
  destruct (Z.leb_spec size_x (dim_x value)); [| discriminate].
  destruct (Z.leb_spec (dim_c value) (dim_c value)); [| discriminate].
  cbn [andb]. intros [= <-].
  exists (fun p => (raw_y mod (dim_y value - size_y + 1) + fst p,
                    raw_x mod (dim_x value - size_x + 1) + snd p)).
  intros [y x] [Hy Hx]. unfold in_plane. cbn in *.
  pose proof (Z.mod_pos_bound raw_y (dim_y value - size_y + 1) ltac:(lia)).
  pose proof (Z.mod_pos_bound raw_x (dim_x value - size_x + 1) ltac:(lia)).
  split; [split; lia |].
  intros c. replace (dim_c value - dim_c value + 1) with 1 by lia.
  rewrite Z.mod_1_r. reflexivity.
Qed.

Section AugmentationAlignment.

Variable gaussian_filter : Q -> Z -> Array3 -> Z -> Z -> Z -> Q.
Variable bilinear_interpolation : Array3 -> Z -> Z -> Z -> Z -> Z -> Q.
Variable rgb2lab : Q * Q * Q -> Q * Q * Q.

(** When the blur kernel has an odd positive size and fits, the mask has
    one channel and the scaled sample covers the training size, the
    augmentation returns a sample. *)
Lemma augment_sample_returns (self : Parameters) (rnd : RandomDraws)
    (image mask : Array3) :
  dim_c image = 3 ->
  let scaling_factor :=
    tf_random_uniform (scaling_uniform rnd)
      (1 - augmentation_max_relative_scaling self)
      (1 + augmentation_max_relative_scaling self) in
  let scaled_height := round_half_even (inject_Z (dim_y image) * scaling_factor) in
  let scaled_width := round_half_even (inject_Z (dim_x image) * scaling_factor) in
  0 < augmentation_blur_size self /\ Z.odd (augmentation_blur_size self) = true ->
  0 <= augmentation_blur_size self / 2 < dim_y image ->
  augmentation_blur_size self / 2 < dim_x image ->
  0 < dim_y mask -> 0 < dim_x mask -> dim_c mask = 1 ->
  0 < fst (training_image_size self) <= Z.min scaled_height scaled_width ->
  0 < snd (training_image_size self) <= Z.min scaled_height scaled_width ->
  exists output_image output_mask,
    _augment_sample gaussian_filter bilinear_interpolation rgb2lab
      self rnd image mask = Ok (output_image, output_mask).
Proof.
  intros Hc scaling_factor scaled_height scaled_width [Kpos Kodd] Ky Kx My Mx Mc Th Tw.
    unfold _augment_sample. cbv zeta.
    destruct (blur_step_returns gaussian_filter self rnd image
                (negb (Qle_bool (augmentation_blur_probability self) (blur_uniform rnd)))
                Hc (fun _ => conj Kpos (conj Kodd (conj (proj2 Ky) Kx))))
      as (blurred & Eb).
    rewrite Eb. cbn [bind].
    destruct (blur_step gaussian_filter _ _ _ _ _ Eb) as (By & Bx & Bc).
    rewrite (scaled_size_of_blurred self rnd image blurred _ By Bx).
    fold scaling_factor. fold scaled_height. fold scaled_width.
    destruct (tf_image_resize_returns bilinear_interpolation blurred (scaled_height, scaled_width)
                (augmentation_interpolation self))
      as (scaled_image & Ei); cbn [fst snd]; try lia.
    destruct (tf_image_resize_returns bilinear_interpolation mask (scaled_height, scaled_width) nearest)
      as (scaled_mask & Em); cbn [fst snd]; try lia.
    rewrite Ei. cbn [bind]. rewrite Em. cbn [bind].
    destruct (tf_image_resize_spec _ _ _ _ _ Ei) as (Iy & Ix & Ic & _).
    destruct (tf_image_resize_spec _ _ _ _ _ Em) as (Sy & Sx & Sc & _).
    cbn [fst snd] in Iy, Ix, Sy, Sx.
    assert (Ecat : exists concatenated,
               tf_concat3 scaled_image scaled_mask = Ok concatenated).
    { unfold tf_concat3. rewrite Iy, Ix, Sy, Sx, !Z.eqb_refl.
      eexists; reflexivity. }
    destruct Ecat as (concatenated & Ecat). rewrite Ecat. cbn [bind].
    destruct (concat3_spec _ _ _ Ecat) as (Cy & Cx & Cc & _).
    pose proof (flip_dims (flip rnd) concatenated) as (Fy & Fx & Fc).
    pose proof (rot90_dims (num_rotations rnd)
                  (tf_image_random_flip_left_right (flip rnd) concatenated))
      as (Rc & Ryx).
    destruct (random_crop_returns (crop_raw rnd)
                (tf_image_rot90
                   (tf_image_random_flip_left_right (flip rnd) concatenated)
                   (num_rotations rnd))
                (fst (training_image_size self)) (snd (training_image_size self)) 4)
      as (cropped & Ecrop); try lia.
    rewrite Ecrop. cbn [bind].
    destruct (random_crop_spec _ _ _ _ _ _ 0 Ecrop) as (_ & _ & Dc & _).
    unfold convert_colorspace. cbn [channels_to dim_c]. rewrite Dc.
    cbn. eexists _, _. reflexivity.
Qed.

(** Image and mask stay aligned: for a 3-channel image and a 1-channel
    mask, every position of the returned pair goes back to one position of
    the scaled sample; the returned mask holds the rounded scaled mask of
    that position and the returned image the colour-converted scaled image
    of the same position.  Both have the training size, the image 3
    channels and the mask 1. *)
Theorem augment_sample_aligned (self : Parameters) (rnd : RandomDraws)
    (image mask output_image output_mask : Array3) :
  dim_c image = 3 -> dim_c mask = 1 ->
  _augment_sample gaussian_filter bilinear_interpolation rgb2lab
    self rnd image mask = Ok (output_image, output_mask) ->
  exists (scaled_image scaled_mask : Array3) (source : Z * Z -> Z * Z),
    dim_y scaled_mask = dim_y scaled_image /\
    dim_x scaled_mask = dim_x scaled_image /\
    (dim_y output_image, dim_x output_image, dim_c output_image) =
      (fst (training_image_size self), snd (training_image_size self), 3) /\
    (dim_y output_mask, dim_x output_mask, dim_c output_mask) =
      (fst (training_image_size self), snd (training_image_size self), 1) /\
    (exists blurred,
       tf_image_resize bilinear_interpolation blurred
         (dim_y scaled_image, dim_x scaled_image)
         (augmentation_interpolation self) = Ok scaled_image /\
       (blurred = image \/
        _augment_blur gaussian_filter self rnd image = Ok blurred)) /\
    tf_image_resize bilinear_interpolation mask
      (dim_y scaled_image, dim_x scaled_image) nearest = Ok scaled_mask /\
    forall p,
      in_plane (fst (training_image_size self)) (snd (training_image_size self)) p ->
      in_plane (dim_y scaled_image) (dim_x scaled_image) (source p) /\
      item output_mask (fst p) (snd p) 0 =
        inject_Z (round_half_even
                    (item scaled_mask (fst (source p)) (snd (source p)) 0)) /\
      forall c, 0 <= c < 3 ->
        item output_image (fst p) (snd p) c =
        lab_channel rgb2lab
          (item scaled_image (fst (source p)) (snd (source p)) 0,
           item scaled_image (fst (source p)) (snd (source p)) 1,
           item scaled_image (fst (source p)) (snd (source p)) 2) c.
Proof.
  intros Hc Hm H.
  unfold _augment_sample in H. cbv zeta in H.
  inv_bind H. rename v into blurred.
  inv_bind H. rename v into scaled_image.
  inv_bind H. rename v into scaled_mask.
  inv_bind H. rename v into concatenated.
  inv_bind H. rename v into cropped.
  inv_bind H. rename v into lab. injection H as <- <-.
  assert (Hblur : blurred = image \/
                  _augment_blur gaussian_filter self rnd image = Ok blurred).
  { destruct (negb _) in E; [right; exact E | left; now injection E]. }
  destruct (blur_step _ _ _ _ _ _ E) as (_ & _ & Bc).
  destruct (tf_image_resize_spec _ _ _ _ _ E0) as (Iy & Ix & Ic & _).
  destruct (tf_image_resize_spec _ _ _ _ _ E1) as (My & Mx & Mc & _).
  cbn [fst snd] in Iy, Ix, My, Mx.
  destruct (concat3_spec _ _ _ E2) as (Cy & Cx & Cc & _ & _ & _).
  pose proof (flip_dims (flip rnd) concatenated) as (Fy & Fx & Fc).
  pose proof (rot90_dims (num_rotations rnd)
                (tf_image_random_flip_left_right (flip rnd) concatenated))
    as (Rc & _).
  assert (C4 : dim_c (tf_image_rot90
                        (tf_image_random_flip_left_right (flip rnd) concatenated)
                        (num_rotations rnd)) = 4) by lia.
  destruct (random_crop_spec _ _ _ _ _ _ 0 E3) as (Dy & Dx & Dc & _).
  destruct (crop_source _ _ _ _ _ _ C4 E3) as (src_crop & Hcrop).
  destruct (rot90_source (num_rotations rnd)
              (tf_image_random_flip_left_right (flip rnd) concatenated))
    as (src_rot & Hrot).
  destruct (flip_source (flip rnd) concatenated) as (src_flip & Hflip).
  unfold convert_colorspace in E4. cbn [channels_to dim_c] in E4.
  rewrite Dc in E4. cbn in E4. injection E4 as <-.
  exists scaled_image, scaled_mask, (fun p => src_flip (src_rot (src_crop p))).
  split; [lia |]. split; [lia |].
  split; [cbn; now rewrite Dy, Dx |].
  split; [cbn; now rewrite Dy, Dx, Dc |].
  split; [exists blurred; split; [| exact Hblur] |].
  { rewrite Iy, Ix. exact E0. }
  split; [rewrite Iy, Ix; exact E1 |].
  intros p Hp.
  destruct (Hcrop p Hp) as (R1 & I1).
  destruct (Hrot _ R1) as (R2 & I2).
  destruct (Hflip _ R2) as (R3 & I3).
  assert (Hitem : forall c,
             item cropped (fst p) (snd p) c =
             item concatenated (fst (src_flip (src_rot (src_crop p))))
               (snd (src_flip (src_rot (src_crop p)))) c).
  { intros c. now rewrite I1, I2, I3. }
  assert (Hcat : forall y x c,
             item concatenated y x c =
             if c <? dim_c scaled_image then item scaled_image y x c
             else item scaled_mask y x (c - dim_c scaled_image)).
  { unfold tf_concat3 in E2. destruct (_ && _) in E2; [| discriminate].
    injection E2 as <-. reflexivity. }
  assert (Ic3 : dim_c scaled_image = 3) by congruence.
  split; [unfold in_plane in *; lia |].
  split.
  - cbn. rewrite Hitem, Hcat, Ic3. reflexivity.
  - intros c Hc3. cbn. unfold lab_channel.
    rewrite !Hitem, !Hcat, Ic3. reflexivity.
Qed.

End AugmentationAlignment.

Lemma augment_sample_aligned_witness :
  exists output_image output_mask (source : Z * Z -> Z * Z),
    _augment_sample (fun _ _ a => item a) (fun a _ _ => item a) (fun lab => lab)
      default_parameters sample_draws (grey_image 400 400) (checkerboard 400 400)
      = Ok (output_image, output_mask) /\
    (dim_y output_image, dim_x output_image, dim_c output_image) = (384, 384, 3) /\
    (dim_y output_mask, dim_x output_mask, dim_c output_mask) = (384, 384, 1).
Proof.
  assert (Hsample : exists output_image output_mask,
             _augment_sample (fun _ _ a => item a) (fun a _ _ => item a)
               (fun lab => lab) default_parameters sample_draws
               (grey_image 400 400) (checkerboard 400 400)
             = Ok (output_image, output_mask)).
  { apply (augment_sample_returns (fun _ _ a => item a) (fun a _ _ => item a)
             (fun lab => lab)).
    - reflexivity.
    - split; reflexivity.
    - vm_compute; split; [discriminate | reflexivity].
    - reflexivity.
    - reflexivity.
    - reflexivity.
    - reflexivity.
    - vm_compute; split; [reflexivity | discriminate].
    - vm_compute; split; [reflexivity | discriminate]. }
  destruct Hsample as (output_image & output_mask & E).
  destruct (augment_sample_aligned (fun _ _ a => item a) (fun a _ _ => item a)
              (fun lab => lab) default_parameters sample_draws
              (grey_image 400 400) (checkerboard 400 400)
              output_image output_mask eq_refl eq_refl E)
    as (si & sm & source & _ & _ & Hi & Hm & _).
  exists output_image, output_mask, source.
  split; [exact E |]. split; [exact Hi | exact Hm].
Defined.

(** ** Augmentation: scaling against the crop *)

Lemma round_half_even_lower (k : Z) (q : Q) :
  (inject_Z k <= q)%Q -> k <= round_half_even q.
Proof.
  intros H. apply Qfloor_resp_le in H. rewrite Qfloor_Z in H.
  unfold round_half_even.
  destruct (Qcompare _ _); [destruct (Z.even _) | |]; lia.
Qed.

Lemma round_half_even_upper (k : Z) (q : Q) :
  (q <= inject_Z k)%Q -> round_half_even q <= k.
Proof.
  intros H. pose proof (Qfloor_resp_le _ _ H) as F. rewrite Qfloor_Z in F.
  unfold round_half_even.
  destruct (Z.eq_dec (Qfloor q) k) as [E | NE].
  - assert (L : (q - inject_Z (Qfloor q) < 1 # 2)%Q) by (rewrite E; lra).
    destruct (Qcompare _ _) eqn:C.
    + apply Qeq_alt in C. lra.
    + lia.
    + apply Qgt_alt in C. lra.
  - destruct (Qcompare _ _); [destruct (Z.even _) | |]; lia.
Qed.

Lemma random_crop_fits (raw : Z * Z * Z) (value cropped : Array3)
    (size_y size_x size_c : Z) :
  tf_image_random_crop raw value (size_y, size_x, size_c) = Ok cropped ->
  size_y <= dim_y value /\ size_x <= dim_x value /\ size_c <= dim_c value.
Proof.
  unfold tf_image_random_crop. destruct raw as [[raw_y raw_x] raw_c].
  destruct (Z.leb_spec 0 size_y); [| discriminate].
  destruct (Z.leb_spec 0 size_x); [| discriminate].
  destruct (Z.leb_spec 0 size_c); [| discriminate].
  destruct (Z.leb_spec size_y (dim_y value)); [| discriminate].
  destruct (Z.leb_spec size_x (dim_x value)); [| discriminate].
  destruct (Z.leb_spec size_c (dim_c value)); [| discriminate].
  intros _. repeat split; assumption.
Qed.

Section AugmentationScaling.

Variable gaussian_filter : Q -> Z -> Array3 -> Z -> Z -> Z -> Q.
Variable bilinear_interpolation : Array3 -> Z -> Z -> Z -> Z -> Z -> Q.
Variable rgb2lab : Q * Q * Q -> Q * Q * Q.

(** The crop is not guarded: when the training height or width exceeds
    both dimensions of the scaled sample, no draw of blur, flip, rotation
    or crop offset makes the augmentation return; it raises. *)
Theorem augment_sample_crop_too_large (self : Parameters) (rnd : RandomDraws)
    (image mask : Array3) (sample : Array3 * Array3) :
  let scaling_factor :=
    tf_random_uniform (scaling_uniform rnd)
      (1 - augmentation_max_relative_scaling self)
      (1 + augmentation_max_relative_scaling self) in
  let scaled_height := round_half_even (inject_Z (dim_y image) * scaling_factor) in
  let scaled_width := round_half_even (inject_Z (dim_x image) * scaling_factor) in
  Z.max scaled_height scaled_width < fst (training_image_size self) \/
  Z.max scaled_height scaled_width < snd (training_image_size self) ->
  _augment_sample gaussian_filter bilinear_interpolation rgb2lab
    self rnd image mask <> Ok sample.
Proof.
  intros scaling_factor scaled_height scaled_width Hbig H.
  unfold _augment_sample in H. cbv zeta in H.
  inv_bind H. rename v into blurred.
  inv_bind H. rename v into scaled_image.
  inv_bind H. rename v into scaled_mask.
  inv_bind H. rename v into concatenated.
  inv_bind H. rename v into cropped.
  destruct (blur_step _ _ _ _ _ _ E) as (By & Bx & _).
  destruct (tf_image_resize_spec _ _ _ _ _ E0) as (Iy & Ix & _).
  cbn [fst snd] in Iy, Ix. rewrite By in Iy. rewrite Bx in Ix.
  fold scaling_factor in Iy, Ix. fold scaled_height in Iy. fold scaled_width in Ix.
  destruct (concat3_spec _ _ _ E2) as (Cy & Cx & _).
  pose proof (flip_dims (flip rnd) concatenated) as (Fy & Fx & _).
  pose proof (rot90_dims (num_rotations rnd)
                (tf_image_random_flip_left_right (flip rnd) concatenated))
    as (_ & Ryx).
  destruct (random_crop_fits _ _ _ _ _ _ E3) as (Ty & Tx & _).
  lia.
Qed.

Lemma scaled_size_lower (u : Q) (dim : Z) :
  (0 <= u)%Q -> 400 <= dim ->
  384 <= round_half_even
           (inject_Z dim * tf_random_uniform u (1 - (4 # 100)) (1 + (4 # 100))).
Proof.
  intros Hu Hdim. apply round_half_even_lower.
  unfold tf_random_uniform.
  assert (F : (96 # 100 <= 1 - (4 # 100) + u * (1 + (4 # 100) - (1 - (4 # 100))))%Q)
    by lra.
  assert (D : (inject_Z 400 <= inject_Z dim)%Q) by (rewrite <- Zle_Qle; exact Hdim).
  apply Qle_trans with (inject_Z 400 * (96 # 100))%Q; [unfold inject_Z; lra |].
  apply Qle_trans
    with (inject_Z 400 * (1 - (4 # 100) + u * (1 + (4 # 100) - (1 - (4 # 100)))))%Q.
  - unfold inject_Z. lra.
  - apply Qmult_le_compat_r; [exact D | lra].
Qed.

Lemma scaled_size_upper (u : Q) :
  (u <= 1)%Q ->
  round_half_even
    (inject_Z 400 * tf_random_uniform u (1 - (4 # 100)) (1 + (4 # 100))) <= 416.
Proof.
  intros Hu. apply round_half_even_upper.
  unfold tf_random_uniform, inject_Z. lra.
Qed.

(** With the parameters of the baseline experiment the crop always fits:
    a 400-pixel dimension is scaled into [384, 416] for every unit sample,
    and for every 3-channel image of at least 400x400 pixels, every
    non-empty 1-channel mask and every draw with a non-negative scaling
    sample the augmentation returns a sample. *)
Theorem augment_sample_default_returns (rnd : RandomDraws) (image mask : Array3) :
  (forall u, (0 <= u <= 1)%Q ->
     384 <= round_half_even
              (inject_Z 400 *
               tf_random_uniform u
                 (1 - augmentation_max_relative_scaling default_parameters)
                 (1 + augmentation_max_relative_scaling default_parameters))
         <= 416) /\
  (dim_c image = 3 -> dim_c mask = 1 ->
   400 <= dim_y image -> 400 <= dim_x image ->
   0 < dim_y mask -> 0 < dim_x mask ->
   (0 <= scaling_uniform rnd)%Q ->
   exists output_image output_mask,
     _augment_sample gaussian_filter bilinear_interpolation rgb2lab
       default_parameters rnd image mask = Ok (output_image, output_mask)).
Proof.
  split.
  - intros u [Hu0 Hu1]. cbn [default_parameters augmentation_max_relative_scaling].
    split; [now apply scaled_size_lower | now apply scaled_size_upper].
  - intros Hc Hm Hy Hx My Mx Hu.
    pose proof (scaled_size_lower (scaling_uniform rnd) (dim_y image) Hu Hy) as Sy.
    pose proof (scaled_size_lower (scaling_uniform rnd) (dim_x image) Hu Hx) as Sx.
    apply (augment_sample_returns gaussian_filter bilinear_interpolation rgb2lab);
      cbn [default_parameters augmentation_max_relative_scaling
             augmentation_blur_size training_image_size fst snd];
      try assumption.
    + split; reflexivity.
    + change (5 / 2) with 2. lia.
    + change (5 / 2) with 2. lia.
    + lia.
    + lia.
Qed.

(** The blur returns exactly when the kernel size is odd and positive (so
    that the grid of the kernel has as many values as its reshape asks
    for), half the kernel size is below the image's height and width (the
    reflection padding) and the image has 3 channels; the blurred image
    then has the shape of the input and every value within [0, 1],
    whatever the filter response. *)
Theorem augment_blur_clipped (self : Parameters) (rnd : RandomDraws)
    (image : Array3) :
  let kernel_size := augmentation_blur_size self in
  ((exists blurred, _augment_blur gaussian_filter self rnd image = Ok blurred) <->
   0 < kernel_size /\ Z.odd kernel_size = true /\
   kernel_size / 2 < dim_y image /\ kernel_size / 2 < dim_x image /\
   dim_c image = 3) /\
  (forall blurred,
     _augment_blur gaussian_filter self rnd image = Ok blurred ->
     (dim_y blurred, dim_x blurred, dim_c blurred) =
       (dim_y image, dim_x image, dim_c image) /\
     forall y x c, (0 <= item blurred y x c <= 1)%Q).
Proof.
  intros kernel_size. subst kernel_size. split.
  - split.
    + intros [blurred Hb].
      exact (proj1 (augment_blur_inv gaussian_filter self rnd image blurred Hb)).
    + intros (Hpos & Hodd & Hy & Hx & Hc).
      now apply augment_blur_returns.
  - intros blurred Hb.
    destruct (augment_blur_inv gaussian_filter self rnd image blurred Hb)
      as (_ & -> & -> & -> & Hval).
    split; [reflexivity | exact Hval].
Qed.

(** An even kernel size makes the blur raise on every image: the grid of
    the kernel has one row and one column more than the reshape asks for. *)
Lemma augment_blur_even_size (self : Parameters) (rnd : RandomDraws)
    (image : Array3) :
  Z.even (augmentation_blur_size self) = true ->
  _augment_blur gaussian_filter self rnd image = Raise ValueError.
Proof.
  intros Heven. unfold _augment_blur. cbv zeta.
  destruct (blur_kernel_shape _) as [kernel | e] eqn:E.
  - apply blur_kernel_shape_inv in E as (_ & Hodd & _).
    rewrite <- Z.negb_even, Heven in Hodd. discriminate.
  - cbn [bind]. f_equal. now apply blur_kernel_shape_raises in E.
Qed.

End AugmentationScaling.

Lemma augment_sample_crop_too_large_witness :
  _augment_sample (fun _ _ a => item a) (fun a _ _ => item a) (fun lab => lab)
    default_parameters sample_draws (grey_image 300 300) (checkerboard 300 300)
  <> Ok (grey_image 384 384, checkerboard 384 384).
Proof.
  apply (augment_sample_crop_too_large (fun _ _ a => item a) (fun a _ _ => item a)
           (fun lab => lab) default_parameters sample_draws
           (grey_image 300 300) (checkerboard 300 300)
           (grey_image 384 384, checkerboard 384 384)).
  left. vm_compute. reflexivity.
Defined.

Lemma augment_sample_default_returns_witness :
  exists output_image output_mask,
    _augment_sample (fun _ _ a => item a) (fun a _ _ => item a) (fun lab => lab)
      default_parameters sample_draws (grey_image 400 400) (checkerboard 400 400)
    = Ok (output_image, output_mask).
Proof.
  apply (augment_sample_default_returns (fun _ _ a => item a) (fun a _ _ => item a)
           (fun lab => lab) sample_draws (grey_image 400 400) (checkerboard 400 400));
    try reflexivity; discriminate.
Defined.

Lemma augment_blur_clipped_witness :
  exists blurred,
    _augment_blur (fun _ _ a y x c => (item a y x c * (3 # 1))%Q)
      default_parameters sample_draws (grey_image 8 8) = Ok blurred /\
    (0 <= item blurred 0 0 0 <= 1)%Q.
Proof.
  destruct (augment_blur_clipped (fun _ _ a y x c => (item a y x c * (3 # 1))%Q)
              default_parameters sample_draws (grey_image 8 8)) as [Hiff Hval].
  destruct (proj2 Hiff) as [blurred Hb].
  - vm_compute. repeat split.
  - exists blurred. split; [exact Hb |]. apply (Hval blurred Hb).
Defined.

(** ** Experiment parameters *)

Lemma key_eqb_eq (a b : PyKey) : key_eqb a b = true <-> a = b.
Proof.
  destruct a as [x |], b as [y |]; cbn; try (split; congruence).
  rewrite String.eqb_eq. split; congruence.
Qed.

Lemma key_eqb_neq (a b : PyKey) : a <> b -> key_eqb a b = false.
Proof.
  intros H. destruct (key_eqb a b) eqn:E; [| reflexivity].
  apply key_eqb_eq in E. contradiction.
Qed.

Lemma dict_get_set_same (d : PyDict) (k : PyKey) (v : PyValue) :
  dict_get (dict_set d k v) k = Some v.
Proof.
  induction d as [| [k' v'] rest IH]; cbn.
  - now rewrite (proj2 (key_eqb_eq k k) eq_refl).
  - destruct (key_eqb k k') eqn:E; cbn; rewrite E; [reflexivity | exact IH].
Qed.

Lemma dict_get_set_other (d : PyDict) (k k' : PyKey) (v : PyValue) :
  k <> k' -> dict_get (dict_set d k v) k' = dict_get d k'.
Proof.
  intros Hne. induction d as [| [k0 v0] rest IH]; cbn.
  - rewrite key_eqb_neq; [reflexivity | congruence].
  - destruct (key_eqb k k0) eqn:E; cbn.
    + apply key_eqb_eq in E. subst k0. rewrite key_eqb_neq; [reflexivity | congruence].
    + destruct (key_eqb k' k0); [reflexivity | exact IH].
Qed.

Lemma dict_set_length (d : PyDict) (k : PyKey) (v : PyValue) :
  dict_get d k = None -> List.length (dict_set d k v) = S (List.length d).
Proof.
  induction d as [| [k' v'] rest IH]; cbn; [reflexivity |].
  destruct (key_eqb k k'); [discriminate |].
  intros H. cbn. now rewrite IH.
Qed.

Lemma base_key_truthy (k : PyKey) : is_base_key k = true -> py_truthy_key k = true.
Proof.
  destruct k as [s |]; cbn; [| discriminate].
  destruct s; [discriminate | reflexivity].
Qed.

Lemma validation_test (keys : list PyKey) :
  existsb py_truthy_key (filter is_base_key keys) = existsb is_base_key keys.
Proof.
  induction keys as [| k rest IH]; [reflexivity |].
  cbn. destruct (is_base_key k) eqn:E; cbn.
  - now rewrite (base_key_truthy k E).
  - exact IH.
Qed.

Lemma dict_get_no_base_key (d : PyDict) (k : PyKey) :
  existsb is_base_key (dict_keys d) = false -> is_base_key k = true ->
  dict_get d k = None.
Proof.
  intros Hd Hk. induction d as [| [k' v'] rest IH]; [reflexivity |].
  cbn in *. apply orb_false_iff in Hd as [Hk' Hrest].
  destruct (key_eqb k k') eqn:E.
  - apply key_eqb_eq in E. congruence.
  - now apply IH.
Qed.

Lemma base_parameters_value (build_parameter_dict : Namespace -> PyDict)
    (args : Namespace) :
  existsb is_base_key (dict_keys (build_parameter_dict args)) = false ->
  BaseExperiment._build_parameter_dict build_parameter_dict args =
  Ok (dict_set
        (dict_set
           (dict_set (build_parameter_dict args)
              (Some "base_data_directory"%string) (PyStr (datadir args)))
           (Some "base_log_directory"%string) (PyStr (logdir args)))
        (Some "base_is_debug"%string) (PyBool (debug args))).
Proof.
  intros H. unfold BaseExperiment._build_parameter_dict.
  now rewrite validation_test, H.
Qed.

(** The parameter dictionary of an experiment: a key of the experiment's
    own dictionary that starts with [base_] is refused with [ValueError];
    otherwise the three general parameters are added, holding the data
    directory, the log directory and the debug flag of the command line,
    and every parameter of the experiment keeps its value. *)
Theorem build_parameter_dict_adds_base_keys
    (build_parameter_dict : Namespace -> PyDict) (args : Namespace) :
  let own := build_parameter_dict args in
  (existsb is_base_key (dict_keys own) = true ->
   BaseExperiment._build_parameter_dict build_parameter_dict args = Raise ValueError) /\
  (existsb is_base_key (dict_keys own) = false ->
   exists parameters,
     BaseExperiment._build_parameter_dict build_parameter_dict args = Ok parameters /\
     BaseExperiment.data_directory parameters = Some (PyStr (datadir args)) /\
     dict_get parameters (Some "base_log_directory"%string) = Some (PyStr (logdir args)) /\
     dict_get parameters (Some "base_is_debug"%string) = Some (PyBool (debug args)) /\
     (forall k, is_base_key k = false -> dict_get parameters k = dict_get own k) /\
     List.length parameters = (List.length own + 3)%nat).
Proof.
  intros own. split.
  - intros H. unfold BaseExperiment._build_parameter_dict.
    fold own. now rewrite validation_test, H.
  - intros H. eexists. split; [exact (base_parameters_value _ _ H) |].
    fold own. unfold BaseExperiment.data_directory.
    split; [| split; [| split; [| split]]].
    + rewrite !dict_get_set_other by discriminate. apply dict_get_set_same.
    + rewrite dict_get_set_other by discriminate. apply dict_get_set_same.
    + apply dict_get_set_same.
    + intros k Hk.
      rewrite !dict_get_set_other; [reflexivity | intros <-; discriminate Hk ..].
    + rewrite !dict_set_length.
      * lia.
      * now apply dict_get_no_base_key.
      * rewrite dict_get_set_other by discriminate.
        now apply dict_get_no_base_key.
      * rewrite !dict_get_set_other by discriminate.
        now apply dict_get_no_base_key.
Qed.

Lemma build_parameter_dict_adds_base_keys_witness :
  BaseExperiment._build_parameter_dict
    (fun _ => [ (Some "base_seed"%string, PyInt 1) ])
    (mkNamespace "data" "log" false 8 12 5 4 (1 # 100) (9 # 10) (1 # 10000) 240)
  = Raise ValueError /\
  exists parameters,
    BaseExperiment._build_parameter_dict
      (fun _ => [ (Some "seed"%string, PyInt 1) ])
      (mkNamespace "data" "log" false 8 12 5 4 (1 # 100) (9 # 10) (1 # 10000) 240)
    = Ok parameters /\
    BaseExperiment.data_directory parameters = Some (PyStr "data").
Proof.
  split.
  - apply (proj1 (build_parameter_dict_adds_base_keys
                    (fun _ => [ (Some "base_seed"%string, PyInt 1) ])
                    (mkNamespace "data" "log" false 8 12 5 4 (1 # 100) (9 # 10)
                       (1 # 10000) 240))).
    reflexivity.
  - destruct (proj2 (build_parameter_dict_adds_base_keys
                       (fun _ => [ (Some "seed"%string, PyInt 1) ])
                       (mkNamespace "data" "log" false 8 12 5 4 (1 # 100) (9 # 10)
                          (1 # 10000) 240)) eq_refl)
      as (parameters & Hcall & Hdata & _).
    exists parameters. split; [exact Hcall | exact Hdata].
Defined.

(** A search experiment adds its three parameters to the general ones:
    with no [base_] key in the experiment's own dictionary the result is
    the general dictionary of [BaseExperiment] with the numbers of initial
    trials, optimised trials and folds of the command line added; it holds
    the data directory, the log directory and the debug flag, every other
    key reads as in the general dictionary and every own parameter keeps
    its value; with a [base_] key of its own the call raises
    [ValueError]. *)
Theorem search_build_parameter_dict_adds_search_keys
    (build_parameter_dict : Namespace -> PyDict) (args : Namespace) :
  let own := build_parameter_dict args in
  (existsb is_base_key (dict_keys own) = true ->
   SearchExperiment._build_parameter_dict build_parameter_dict args = Raise ValueError) /\
  (existsb is_base_key (dict_keys own) = false ->
   exists general parameters,
     BaseExperiment._build_parameter_dict build_parameter_dict args = Ok general /\
     SearchExperiment._build_parameter_dict build_parameter_dict args = Ok parameters /\
     dict_get parameters (Some "base_search_initial_trials"%string)
       = Some (PyInt (initial_trials args)) /\
     dict_get parameters (Some "base_search_optimised_trials"%string)
       = Some (PyInt (optimised_trials args)) /\
     dict_get parameters (Some "base_search_folds"%string)
       = Some (PyInt (folds args)) /\
     BaseExperiment.data_directory parameters = Some (PyStr (datadir args)) /\
     dict_get parameters (Some "base_log_directory"%string)
       = Some (PyStr (logdir args)) /\
     dict_get parameters (Some "base_is_debug"%string)
       = Some (PyBool (debug args)) /\
     (forall k,
        k <> Some "base_search_initial_trials"%string ->
        k <> Some "base_search_optimised_trials"%string ->
        k <> Some "base_search_folds"%string ->
        dict_get parameters k = dict_get general k) /\
     (forall k, is_base_key k = false -> dict_get parameters k = dict_get own k) /\
     List.length parameters = (List.length own + 6)%nat).
Proof.
  intros own. unfold SearchExperiment._build_parameter_dict. split.
  - intros H. unfold BaseExperiment._build_parameter_dict.
    fold own. now rewrite validation_test, H.
  - intros H. rewrite (base_parameters_value _ _ H). fold own. cbn [bind].
    eexists _, _. split; [reflexivity |]. split; [reflexivity |].
    unfold dict_update, BaseExperiment.data_directory. cbn [fold_left fst snd].
    split; [| split; [| split; [| split; [| split; [| split; [| split; [| split]]]]]]].
    + rewrite !dict_get_set_other by discriminate. apply dict_get_set_same.
    + rewrite dict_get_set_other by discriminate. apply dict_get_set_same.
    + apply dict_get_set_same.
    + rewrite !dict_get_set_other by discriminate. apply dict_get_set_same.
    + rewrite !dict_get_set_other by discriminate. apply dict_get_set_same.
    + rewrite !dict_get_set_other by discriminate. apply dict_get_set_same.
    + intros k H1 H2 H3.
      do 3 (rewrite dict_get_set_other by congruence). reflexivity.
    + intros k Hk.
      rewrite !dict_get_set_other; [reflexivity | intros <-; discriminate Hk ..].
    + rewrite !dict_set_length.
      * lia.
      * now apply dict_get_no_base_key.
      * rewrite dict_get_set_other by discriminate.
        now apply dict_get_no_base_key.
      * rewrite !dict_get_set_other by discriminate.
        now apply dict_get_no_base_key.
      * rewrite !dict_get_set_other by discriminate.
        now apply dict_get_no_base_key.
      * rewrite !dict_get_set_other by discriminate.
        now apply dict_get_no_base_key.
      * rewrite !dict_get_set_other by discriminate.
        now apply dict_get_no_base_key.
Qed.

Lemma search_build_parameter_dict_adds_search_keys_witness :
  exists parameters,
    SearchExperiment._build_parameter_dict
      (fun _ => [ (Some "seed"%string, PyInt 1) ])
      (mkNamespace "data" "log" false 8 12 5 4 (1 # 100) (9 # 10) (1 # 10000) 240)
    = Ok parameters /\
    dict_get parameters (Some "base_search_folds"%string) = Some (PyInt 5).
Proof.
  destruct (proj2 (search_build_parameter_dict_adds_search_keys
                     (fun _ => [ (Some "seed"%string, PyInt 1) ])
                     (mkNamespace "data" "log" false 8 12 5 4 (1 # 100) (9 # 10)
                        (1 # 10000) 240)) eq_refl)
    as (general & parameters & _ & Hcall & _ & _ & Hfolds & _).
  exists parameters. split; [exact Hcall | exact Hfolds].
Defined.

(** The baseline experiment passes the validation for every command line:
    its parameter dictionary is its own fourteen entries followed by the
    three general ones, and the augmentation parameters in it are those of
    [default_parameters]. *)
Theorem baseline_parameters (args : Namespace) :
  BaseExperiment._build_parameter_dict BaselineFCNExperiment.build_parameter_dict args =
    Ok (BaselineFCNExperiment.build_parameter_dict args ++
        [ (Some "base_data_directory"%string, PyStr (datadir args));
          (Some "base_log_directory"%string, PyStr (logdir args));
          (Some "base_is_debug"%string, PyBool (debug args)) ]) /\
  forall parameters,
    BaseExperiment._build_parameter_dict BaselineFCNExperiment.build_parameter_dict args
      = Ok parameters ->
    dict_get parameters (Some "augmentation_max_relative_scaling"%string)
      = Some (PyFloat (augmentation_max_relative_scaling default_parameters)) /\
    dict_get parameters (Some "augmentation_blur_probability"%string)
      = Some (PyFloat (augmentation_blur_probability default_parameters)) /\
    dict_get parameters (Some "augmentation_blur_size"%string)
      = Some (PyInt (augmentation_blur_size default_parameters)) /\
    dict_get parameters (Some "training_image_size"%string)
      = Some (PyTuple [ PyInt (fst (training_image_size default_parameters));
                        PyInt (snd (training_image_size default_parameters)) ]) /\
    dict_get parameters (Some "augmentation_interpolation"%string)
      = Some (PyStr "bilinear") /\
    dict_get parameters (Some "batch_size"%string) = Some (PyInt (batch_size args)).
Proof.
  assert (H : BaseExperiment._build_parameter_dict
                BaselineFCNExperiment.build_parameter_dict args =
              Ok (BaselineFCNExperiment.build_parameter_dict args ++
                  [ (Some "base_data_directory"%string, PyStr (datadir args));
                    (Some "base_log_directory"%string, PyStr (logdir args));
                    (Some "base_is_debug"%string, PyBool (debug args)) ]))
    by reflexivity.
  split; [exact H |].
  intros parameters Hp. rewrite H in Hp. injection Hp as <-.
  repeat split; reflexivity.
Qed.

(** ** Output ids of the submission file *)

Lemma no_underscore_app (a b : string) :
  no_underscore (a ++ b) = no_underscore a && no_underscore b.
Proof.
  induction a as [| c a IH]; [reflexivity |].
  cbn. rewrite IH. now rewrite andb_assoc.
Qed.

Lemma no_underscore_uint (d : Decimal.uint) :
  no_underscore (NilEmpty.string_of_uint d) = true.
Proof. induction d; cbn; auto. Qed.

Lemma no_underscore_nz_uint (d : Decimal.uint) :
  no_underscore (NilZero.string_of_uint d) = true.
Proof. destruct d; try reflexivity; apply (no_underscore_uint (_ d)). Qed.

Lemma no_underscore_zeros (k : nat) : no_underscore (zeros k) = true.
Proof. induction k; cbn; auto. Qed.

Lemma no_underscore_zfill (w : nat) (d : Decimal.uint) :
  no_underscore (zfill w (NilZero.string_of_uint d)) = true.
Proof.
  unfold zfill. now rewrite no_underscore_app, no_underscore_zeros, no_underscore_nz_uint.
Qed.

Lemma no_underscore_format (z : Z) : no_underscore (py_format_03d z) = true.
Proof.
  unfold py_format_03d. destruct (Z.to_int z); cbn [no_underscore];
    now rewrite no_underscore_zfill.
Qed.

Lemma no_underscore_str (z : Z) : no_underscore (py_str_int z) = true.
Proof.
  unfold py_str_int. destruct (Z.to_int z); cbn [NilZero.string_of_int no_underscore];
    now rewrite no_underscore_nz_uint.
Qed.

Lemma split_at_underscore (a a' r r' : string) :
  no_underscore a = true -> no_underscore a' = true ->
  (a ++ String "_" r)%string = (a' ++ String "_" r')%string ->
  a = a' /\ r = r'.
Proof.
  revert a'. induction a as [| c a IH]; intros [| c' a'] Ha Ha' H; cbn in *.
  - injection H as ->. split; reflexivity.
  - injection H as <- _. discriminate Ha'.
  - injection H as -> _. discriminate Ha.
  - injection H as -> H.
    apply andb_true_iff in Ha as [_ Ha]. apply andb_true_iff in Ha' as [_ Ha'].
    destruct (IH a' Ha Ha' H) as [-> ->]. split; reflexivity.
Qed.

Lemma uint_of_zeros_app (k : nat) (s : string) (d : Decimal.uint) :
  NilEmpty.uint_of_string s = Some d ->
  NilEmpty.uint_of_string (zeros k ++ s) = Some (Nat.iter k Decimal.D0 d).
Proof.
  intros H. induction k as [| k IH]; [exact H |].
  cbn. now rewrite IH.
Qed.

Lemma N_of_uint_iter_D0 (k : nat) (d : Decimal.uint) :
  N.of_uint (Nat.iter k Decimal.D0 d) = N.of_uint d.
Proof. induction k as [| k IH]; [reflexivity | exact IH]. Qed.

Lemma zfill_value (w : nat) (d : Decimal.uint) :
  exists d',
    NilEmpty.uint_of_string (zfill w (NilZero.string_of_uint d)) = Some d' /\
    N.of_uint d' = N.of_uint d.
Proof.
  assert (H : exists d0, NilEmpty.uint_of_string (NilZero.string_of_uint d) = Some d0 /\
                         N.of_uint d0 = N.of_uint d).
  { destruct d; try (eexists; split; [apply (NilEmpty.usu (_ d)) | reflexivity]).
    exists (Decimal.D0 Decimal.Nil). split; reflexivity. }
  destruct H as (d0 & H0 & V0).
  eexists. split; [unfold zfill; apply uint_of_zeros_app; exact H0 |].
  now rewrite N_of_uint_iter_D0.
Qed.

Lemma zfill_not_minus (w : nat) (d : Decimal.uint) (rest : string) :
  zfill w (NilZero.string_of_uint d) <> String "-" rest.
Proof.
  intros H. destruct (zfill_value w d) as (d' & Hv & _).
  rewrite H in Hv. cbn in Hv.
  destruct (NilEmpty.uint_of_string rest); discriminate Hv.
Qed.

Lemma zfill_injective (w w' : nat) (d d' : Decimal.uint) :
  zfill w (NilZero.string_of_uint d) = zfill w' (NilZero.string_of_uint d') ->
  N.of_uint d = N.of_uint d'.
Proof.
  intros H.
  destruct (zfill_value w d) as (e & He & Ve).
  destruct (zfill_value w' d') as (e' & He' & Ve').
  rewrite H, He' in He. injection He as <-. congruence.
Qed.

Lemma py_format_03d_injective (z z' : Z) :
  py_format_03d z = py_format_03d z' -> z = z'.
Proof.
  unfold py_format_03d. intros H.
  rewrite <- (DecimalZ.of_to z), <- (DecimalZ.of_to z').
  destruct (Z.to_int z) as [d | d], (Z.to_int z') as [d' | d'].
  - apply zfill_injective in H. cbn. unfold Z.of_uint.
    change (Pos.of_uint d) with (N.of_uint d).
    change (Pos.of_uint d') with (N.of_uint d'). now rewrite H.
  - now apply zfill_not_minus in H.
  - symmetry in H. now apply zfill_not_minus in H.
  - injection H as H. apply zfill_injective in H. cbn. unfold Z.of_uint.
    change (Pos.of_uint d) with (N.of_uint d).
    change (Pos.of_uint d') with (N.of_uint d'). now rewrite H.
Qed.

Lemma py_str_int_injective (z z' : Z) : py_str_int z = py_str_int z' -> z = z'.
Proof.
  unfold py_str_int. intros H. apply DecimalZ.to_int_inj.
  assert (P : forall v, NilZero.int_of_string (NilZero.string_of_int (Z.to_int v))
                        = Some (Z.to_int v)).
  { intros v. apply NilZero.isi; destruct v; cbn; try discriminate;
      intros [= E]; now apply Unsigned.to_uint_nonnil in E. }
  pose proof (P z) as Pz. rewrite H, P in Pz. now injection Pz.
Qed.

Lemma create_output_id_unique (PATCH_SIZE : Z)
    (sample_id patch_x patch_y sample_id' patch_x' patch_y' : Z) :
  PATCH_SIZE <> 0 ->
  FitExperiment._create_output_id PATCH_SIZE sample_id patch_x patch_y =
  FitExperiment._create_output_id PATCH_SIZE sample_id' patch_x' patch_y' ->
  sample_id = sample_id' /\ patch_x = patch_x' /\ patch_y = patch_y'.
Proof.
  intros HP H. unfold FitExperiment._create_output_id in H. cbv zeta in H.
  cbn [append] in H.
  apply split_at_underscore in H as [Hs H];
    [| apply no_underscore_format ..].
  apply split_at_underscore in H as [Hx Hy];
    [| apply no_underscore_str ..].
  apply py_format_03d_injective in Hs.
  apply py_str_int_injective in Hx. apply py_str_int_injective in Hy.
  split; [exact Hs |]. split; nia.
Qed.

(** Output ids are unambiguous: with a non-zero patch size, two ids are
    equal only for the same sample and the same patch, so an id determines
    its sample and its pixel offsets. *)
Theorem create_output_id_injective (PATCH_SIZE : Z)
    (sample_id patch_x patch_y sample_id' patch_x' patch_y' : Z) :
  PATCH_SIZE <> 0 ->
  FitExperiment._create_output_id PATCH_SIZE sample_id patch_x patch_y =
  FitExperiment._create_output_id PATCH_SIZE sample_id' patch_x' patch_y' ->
  sample_id = sample_id' /\ patch_x = patch_x' /\ patch_y = patch_y'.
Proof.
  exact (create_output_id_unique PATCH_SIZE sample_id patch_x patch_y
           sample_id' patch_x' patch_y').
Qed.

Lemma create_output_id_injective_witness :
  FitExperiment._create_output_id 16 7 3 24 = "007_48_384"%string /\
  forall sample_id patch_x patch_y,
    FitExperiment._create_output_id 16 sample_id patch_x patch_y =
    FitExperiment._create_output_id 16 7 3 24 ->
    sample_id = 7 /\ patch_x = 3 /\ patch_y = 24.
Proof.
  split; [reflexivity |].
  intros sample_id patch_x patch_y H.
  apply (create_output_id_injective 16 sample_id patch_x patch_y 7 3 24);
    [discriminate | exact H].
Defined.

(** ** The submission file *)

Lemma py_range_In (n z : Z) : In z (py_range n) <-> 0 <= z < n.
Proof.
  unfold py_range. rewrite in_map_iff. split.
  - intros (k & <- & Hk). apply in_seq in Hk. lia.
  - intros H. exists (Z.to_nat z). split; [lia |]. apply in_seq. lia.
Qed.

Lemma py_range_NoDup (n : Z) : NoDup (py_range n).
Proof.
  unfold py_range. apply Injective_map_NoDup_in; [| apply seq_NoDup].
  intros a b _ _ H. lia.
Qed.

Lemma NoDup_flat_map {A B : Type} (f : A -> list B) (l : list A) :
  NoDup l -> (forall a, In a l -> NoDup (f a)) ->
  (forall a a' b, In a l -> In a' l -> In b (f a) -> In b (f a') -> a = a') ->
  NoDup (flat_map f l).
Proof.
  induction l as [| a l IH]; intros Hl Hf Hdisj; cbn; [constructor |].
  apply NoDup_cons_iff in Hl as [Hnotin Hl].
  apply NoDup_app.
  - apply Hf. now left.
  - apply IH; [exact Hl | intros; apply Hf; now right |].
    intros a1 a2 b H1 H2. apply Hdisj; now right.
  - intros b Hb Hb'. apply in_flat_map in Hb' as (a' & Ha' & Hb').
    assert (a = a') by (apply (Hdisj a a' b); [now left | now right | assumption ..]).
    subst a'. contradiction.
Qed.

Lemma map_flat_map {A B C : Type} (g : B -> C) (f : A -> list B) (l : list A) :
  map g (flat_map f l) = flat_map (fun a => map g (f a)) l.
Proof.
  induction l as [| a l IH]; [reflexivity |].
  cbn. now rewrite map_app, IH.
Qed.

Lemma patch_rows_ids (PATCH_SIZE sample_id : Z) (seg : NdArray) (rows cols : Z) :
  map (hd ""%string) (FitExperiment.patch_rows PATCH_SIZE sample_id seg rows cols) =
  flat_map
    (fun patch_y =>
       map (fun patch_x =>
              FitExperiment._create_output_id PATCH_SIZE sample_id patch_x patch_y)
         (py_range cols))
    (py_range rows).
Proof.
  unfold FitExperiment.patch_rows. rewrite map_flat_map.
  apply flat_map_ext. intros y. now rewrite map_map.
Qed.

Lemma patch_rows_length (PATCH_SIZE sample_id : Z) (seg : NdArray) (rows cols : Z) :
  List.length (FitExperiment.patch_rows PATCH_SIZE sample_id seg rows cols) =
  (Z.to_nat rows * Z.to_nat cols)%nat.
Proof.
  unfold FitExperiment.patch_rows.
  assert (R : List.length (py_range rows) = Z.to_nat rows)
    by (unfold py_range; now rewrite length_map, length_seq).
  rewrite <- R. clear R.
  induction (py_range rows) as [| y ys IH]; [reflexivity |].
  cbn [flat_map List.length]. rewrite length_app, IH, length_map.
  unfold py_range. rewrite length_map, length_seq. lia.
Qed.

Lemma patch_rows_In (PATCH_SIZE sample_id : Z) (seg : NdArray) (rows cols : Z)
    (patch_y patch_x : Z) :
  0 <= patch_y < rows -> 0 <= patch_x < cols ->
  In [ FitExperiment._create_output_id PATCH_SIZE sample_id patch_x patch_y;
       py_str_int (np_astype_int (nd_item seg [patch_y; patch_x])) ]
     (FitExperiment.patch_rows PATCH_SIZE sample_id seg rows cols).
Proof.
  intros Hy Hx. unfold FitExperiment.patch_rows.
  apply in_flat_map. exists patch_y. split; [now apply py_range_In |].
  apply in_map_iff. exists patch_x. split; [reflexivity | now apply py_range_In].
Qed.

Lemma patch_ids_NoDup (PATCH_SIZE sample_id : Z) (rows cols : Z) :
  PATCH_SIZE <> 0 ->
  NoDup
    (flat_map
       (fun patch_y =>
          map (fun patch_x =>
                 FitExperiment._create_output_id PATCH_SIZE sample_id patch_x patch_y)
            (py_range cols))
       (py_range rows)).
Proof.
  intros HP. apply NoDup_flat_map.
  - apply py_range_NoDup.
  - intros y _. apply Injective_map_NoDup_in; [| apply py_range_NoDup].
    intros x x' _ _ H.
    now apply (create_output_id_unique PATCH_SIZE _ _ _ _ _ _ HP) in H.
  - intros y y' i _ _ H H'.
    apply in_map_iff in H as (x & <- & _). apply in_map_iff in H' as (x' & H' & _).
    now apply (create_output_id_unique PATCH_SIZE _ _ _ _ _ _ HP) in H'.
Qed.

Lemma squeezed_no_ones (a : NdArray) (d : Z) :
  In d (nd_shape (np_squeeze a)) -> d <> 1.
Proof.
  cbn. intros H. apply filter_In in H as [_ H].
  destruct (Z.eqb_spec d 1); [discriminate | assumption].
Qed.

Lemma sample_rows_returned (PATCH_SIZE : Z) (inputs : list (Z * NdArray))
    (sample_id : Z) (seg : NdArray) (written : list (list string)) :
  FitExperiment.sample_rows PATCH_SIZE inputs sample_id seg = Returned written ->
  exists input height width rest,
    lookup_sample inputs sample_id = Some input /\
    nd_shape input = height :: width :: rest /\
    PATCH_SIZE <> 0 /\
    nd_shape (np_squeeze seg) = [height / PATCH_SIZE; width / PATCH_SIZE] /\
    written = FitExperiment.patch_rows PATCH_SIZE sample_id (np_squeeze seg)
                (height / PATCH_SIZE) (width / PATCH_SIZE).
Proof.
  unfold FitExperiment.sample_rows.
  destruct (nd_shape (np_squeeze seg)) as [| rows [| cols [| ? ?]]] eqn:Es;
    try discriminate.
  destruct (lookup_sample inputs sample_id) as [input |]; [| discriminate].
  destruct (nd_shape input) as [| height [| width rest]] eqn:Ei; try discriminate.
  - destruct (PATCH_SIZE =? 0); discriminate.
  - destruct (Z.eqb_spec PATCH_SIZE 0) as [| HP]; [discriminate |].
    destruct (Z.eqb_spec rows (height / PATCH_SIZE)) as [-> |]; [| discriminate].
    destruct (Z.eqb_spec cols (width / PATCH_SIZE)) as [-> |]; [| discriminate].
    cbn [andb]. intros [= <-].
    exists input, height, width, rest. repeat split; assumption.
Qed.

Lemma sample_rows_valid (PATCH_SIZE : Z) (inputs : list (Z * NdArray))
    (sample_id : Z) (seg input : NdArray) (height width : Z) (rest : list Z) :
  PATCH_SIZE <> 0 ->
  lookup_sample inputs sample_id = Some input ->
  nd_shape input = height :: width :: rest ->
  nd_shape (np_squeeze seg) = [height / PATCH_SIZE; width / PATCH_SIZE] ->
  FitExperiment.sample_rows PATCH_SIZE inputs sample_id seg =
  Returned (FitExperiment.patch_rows PATCH_SIZE sample_id (np_squeeze seg)
              (height / PATCH_SIZE) (width / PATCH_SIZE)).
Proof.
  intros HP Hl Hi Hs. unfold FitExperiment.sample_rows.
  rewrite Hs, Hl, Hi.
  destruct (Z.eqb_spec PATCH_SIZE 0); [contradiction |].
  now rewrite !Z.eqb_refl.
Qed.

Lemma write_samples_ids_from (PATCH_SIZE : Z) (inputs predictions : list (Z * NdArray))
    (i : string) :
  In i (map (hd ""%string)
          (fst (FitExperiment.write_samples PATCH_SIZE inputs predictions))) ->
  exists sample_id patch_x patch_y,
    In sample_id (map fst predictions) /\
    i = FitExperiment._create_output_id PATCH_SIZE sample_id patch_x patch_y.
Proof.
  induction predictions as [| [sample_id seg] rest IH]; cbn; [contradiction |].
  destruct (FitExperiment.sample_rows PATCH_SIZE inputs sample_id seg) as [written | |] eqn:E;
    [| contradiction ..].
  destruct (FitExperiment.write_samples PATCH_SIZE inputs rest) as [more outcome].
  cbn [fst] in *. rewrite map_app, in_app_iff. intros [H | H].
  - apply sample_rows_returned in E as (_ & h & w & _ & _ & _ & _ & _ & ->).
    rewrite patch_rows_ids in H.
    apply in_flat_map in H as (y & _ & H). apply in_map_iff in H as (x & <- & _).
    exists sample_id, x, y. split; [now left | reflexivity].
  - destruct (IH H) as (s & x & y & Hs & ->).
    exists s, x, y. split; [now right | reflexivity].
Qed.

(** The submission file never holds an id twice: with a non-zero patch
    size and a dictionary of predictions (no sample id twice), the ids of
    the rows written after the header are pairwise different, also when a
    later sample makes the writing stop with an exception. *)
Theorem write_submission_ids_distinct (PATCH_SIZE : Z)
    (inputs predictions : list (Z * NdArray)) :
  PATCH_SIZE <> 0 -> NoDup (map fst predictions) ->
  NoDup (map (hd ""%string)
           (tl (fst (FitExperiment.write_submission PATCH_SIZE inputs predictions)))).
Proof.
  intros HP Hkeys. unfold FitExperiment.write_submission.
  destruct (FitExperiment.write_samples PATCH_SIZE inputs predictions)
    as [written outcome] eqn:E.
  cbn [fst tl].
  replace written
    with (fst (FitExperiment.write_samples PATCH_SIZE inputs predictions))
    by now rewrite E.
  clear E written outcome.
  induction predictions as [| [sample_id seg] rest IH]; cbn; [constructor |].
  cbn in Hkeys. apply NoDup_cons_iff in Hkeys as [Hnew Hkeys].
  destruct (FitExperiment.sample_rows PATCH_SIZE inputs sample_id seg) as [written | |] eqn:E;
    [| constructor ..].
  specialize (IH Hkeys).
  pose proof (write_samples_ids_from PATCH_SIZE inputs rest) as Hfrom.
  destruct (FitExperiment.write_samples PATCH_SIZE inputs rest) as [more outcome].
  cbn [fst] in *. rewrite map_app.
  apply sample_rows_returned in E as (_ & h & w & _ & _ & _ & _ & _ & ->).
  rewrite patch_rows_ids.
  apply NoDup_app; [now apply patch_ids_NoDup | exact IH |].
  intros i Hi Hi'.
  apply in_flat_map in Hi as (y & _ & Hi). apply in_map_iff in Hi as (x & <- & _).
  destruct (Hfrom _ Hi') as (s & x' & y' & Hs & Heq).
  apply (create_output_id_unique PATCH_SIZE _ _ _ _ _ _ HP) in Heq as (-> & _).
  contradiction.
Qed.

Lemma write_samples_valid (PATCH_SIZE : Z) (inputs predictions : list (Z * NdArray)) :
  PATCH_SIZE <> 0 ->
  (forall sample_id seg, In (sample_id, seg) predictions ->
     exists input height width rest,
       lookup_sample inputs sample_id = Some input /\
       nd_shape input = height :: width :: rest /\
       nd_shape (np_squeeze seg) = [height / PATCH_SIZE; width / PATCH_SIZE]) ->
  FitExperiment.write_samples PATCH_SIZE inputs predictions =
  (flat_map
     (fun p =>
        match nd_shape (np_squeeze (snd p)) with
        | [rows; cols] =>
            FitExperiment.patch_rows PATCH_SIZE (fst p) (np_squeeze (snd p)) rows cols
        | _ => []
        end)
     predictions,
   Returned tt).
Proof.
  intros HP. induction predictions as [| [sample_id seg] rest IH]; intros Hvalid;
    [reflexivity |].
  cbn [FitExperiment.write_samples flat_map fst snd].
  destruct (Hvalid sample_id seg (or_introl eq_refl))
    as (input & height & width & more & Hl & Hi & Hs).
  rewrite (sample_rows_valid PATCH_SIZE inputs sample_id seg input height width more
             HP Hl Hi Hs).
  rewrite IH by (intros s g Hin; apply Hvalid; now right).
  now rewrite Hs.
Qed.

(** A complete submission: when the patch size is not zero and every
    prediction squeezes to the two-dimensional shape expected for its
    input image (height // PATCH_SIZE, width // PATCH_SIZE), the writing
    ends without an exception; the file starts with the header row, has
    after it exactly rows * cols rows per prediction, and holds for every
    patch of every prediction the row of its output id and its integer
    label. *)
Theorem write_submission_complete (PATCH_SIZE : Z)
    (inputs predictions : list (Z * NdArray)) :
  PATCH_SIZE <> 0 ->
  (forall sample_id seg, In (sample_id, seg) predictions ->
     exists input height width rest,
       lookup_sample inputs sample_id = Some input /\
       nd_shape input = height :: width :: rest /\
       nd_shape (np_squeeze seg) = [height / PATCH_SIZE; width / PATCH_SIZE]) ->
  let file := fst (FitExperiment.write_submission PATCH_SIZE inputs predictions) in
  snd (FitExperiment.write_submission PATCH_SIZE inputs predictions) = Returned tt /\
  hd [] file = ["Id"; "Prediction"]%string /\
  List.length (tl file) =
    list_sum
      (map (fun p =>
              match nd_shape (np_squeeze (snd p)) with
              | [rows; cols] => (Z.to_nat rows * Z.to_nat cols)%nat
              | _ => 0%nat
              end)
         predictions) /\
  (forall sample_id seg rows cols patch_y patch_x,
     In (sample_id, seg) predictions ->
     nd_shape (np_squeeze seg) = [rows; cols] ->
     0 <= patch_y < rows -> 0 <= patch_x < cols ->
     In [ FitExperiment._create_output_id PATCH_SIZE sample_id patch_x patch_y;
          py_str_int (np_astype_int (nd_item (np_squeeze seg) [patch_y; patch_x])) ]
        (tl file)).
Proof.
  intros HP Hvalid file. subst file. unfold FitExperiment.write_submission.
  rewrite (write_samples_valid PATCH_SIZE inputs predictions HP Hvalid).
  cbn [fst snd hd tl]. clear Hvalid.
  split; [reflexivity |]. split; [reflexivity |]. split.
  - induction predictions as [| [sample_id seg] rest IH]; [reflexivity |].
    cbn [flat_map map fst snd]. rewrite length_app, IH.
    unfold list_sum. cbn [fold_right]. f_equal.
    destruct (nd_shape (np_squeeze seg)) as [| rows [| cols [| ? ?]]];
      try reflexivity.
    apply patch_rows_length.
  - intros sample_id seg rows cols patch_y patch_x Hin Hs Hy Hx.
    apply in_flat_map. exists (sample_id, seg). split; [exact Hin |].
    cbn [fst snd]. rewrite Hs. now apply patch_rows_In.
Qed.

Lemma write_submission_complete_witness :
  let inputs := [(7, mkNdArray [32; 48; 3] (fun _ => 0%Q))] in
  let predictions := [(7, mkNdArray [1; 2; 3; 1] (fun _ => 1%Q))] in
  let file := fst (FitExperiment.write_submission 16 inputs predictions) in
  snd (FitExperiment.write_submission 16 inputs predictions) = Returned tt /\
  List.length (tl file) = 6%nat /\
  In ["007_32_16"; "1"]%string (tl file).
Proof.
  intros inputs predictions file.
  assert (HP : 16 <> 0) by discriminate.
  assert (Hvalid : forall sample_id seg, In (sample_id, seg) predictions ->
            exists input height width rest,
              lookup_sample inputs sample_id = Some input /\
              nd_shape input = height :: width :: rest /\
              nd_shape (np_squeeze seg) = [height / 16; width / 16]).
  { intros sample_id seg [[= <- <-] | []].
    exists (mkNdArray [32; 48; 3] (fun _ => 0%Q)), 32, 48, [3].
    repeat split; reflexivity. }
  destruct (write_submission_complete 16 inputs predictions HP Hvalid)
    as (Hend & _ & Hlen & Hrows).
  split; [exact Hend |]. split; [exact Hlen |].
  apply (Hrows 7 (mkNdArray [1; 2; 3; 1] (fun _ => 1%Q)) 2 3 1 2);
    [now left | reflexivity | lia | lia].
Defined.

(** The shape check of the submission writer: with a non-zero patch size
    and the input image of a sample present (of at least two dimensions),
    the rows of a prediction are written exactly when its squeezed shape
    is (height // PATCH_SIZE, width // PATCH_SIZE); every other prediction
    raises ValueError. *)
Theorem sample_rows_accepts_iff (PATCH_SIZE : Z) (inputs : list (Z * NdArray))
    (sample_id : Z) (seg input : NdArray) (height width : Z) (rest : list Z) :
  PATCH_SIZE <> 0 ->
  lookup_sample inputs sample_id = Some input ->
  nd_shape input = height :: width :: rest ->
  (nd_shape (np_squeeze seg) = [height / PATCH_SIZE; width / PATCH_SIZE] ->
   FitExperiment.sample_rows PATCH_SIZE inputs sample_id seg =
   Returned (FitExperiment.patch_rows PATCH_SIZE sample_id (np_squeeze seg)
               (height / PATCH_SIZE) (width / PATCH_SIZE))) /\
  (nd_shape (np_squeeze seg) <> [height / PATCH_SIZE; width / PATCH_SIZE] ->
   FitExperiment.sample_rows PATCH_SIZE inputs sample_id seg = Raised ValueError).
Proof.
  intros HP Hl Hi. split.
  - now apply sample_rows_valid with (input := input) (rest := rest).
  - intros Hs. unfold FitExperiment.sample_rows.
    destruct (nd_shape (np_squeeze seg)) as [| rows [| cols [| ? ?]]];
      try reflexivity.
    rewrite Hl, Hi.
    destruct (Z.eqb_spec PATCH_SIZE 0); [contradiction |].
    destruct (Z.eqb_spec rows (height / PATCH_SIZE)) as [-> |]; [| reflexivity].
    destruct (Z.eqb_spec cols (width / PATCH_SIZE)) as [-> |]; [| reflexivity].
    contradiction.
Qed.

Lemma sample_rows_accepts_iff_witness :
  let inputs := [(7, mkNdArray [32; 48; 3] (fun _ => 0%Q))] in
  FitExperiment.sample_rows 16 inputs 7 (mkNdArray [32; 48] (fun _ => 1%Q)) =
  Raised ValueError.
Proof.
  intros inputs.
  apply (sample_rows_accepts_iff 16 inputs 7 (mkNdArray [32; 48] (fun _ => 1%Q))
           (mkNdArray [32; 48; 3] (fun _ => 0%Q)) 32 48 [3]);
    [discriminate | reflexivity | reflexivity | discriminate].
Defined.

(** Images of a single patch row or column cannot be submitted: np.squeeze
    removes every axis of length 1, so when height // PATCH_SIZE or
    width // PATCH_SIZE is 1 no prediction has the expected shape after
    the squeeze, and the writer raises ValueError whatever the
    prediction. *)
Theorem sample_rows_single_patch_line (PATCH_SIZE : Z) (inputs : list (Z * NdArray))
    (sample_id : Z) (seg input : NdArray) (height width : Z) (rest : list Z) :
  PATCH_SIZE <> 0 ->
  lookup_sample inputs sample_id = Some input ->
  nd_shape input = height :: width :: rest ->
  height / PATCH_SIZE = 1 \/ width / PATCH_SIZE = 1 ->
  FitExperiment.sample_rows PATCH_SIZE inputs sample_id seg = Raised ValueError.
Proof.
  intros HP Hl Hi Hone. unfold FitExperiment.sample_rows.
  destruct (nd_shape (np_squeeze seg)) as [| rows [| cols [| ? ?]]] eqn:Es;
    try reflexivity.
  rewrite Hl, Hi.
  destruct (Z.eqb_spec PATCH_SIZE 0); [contradiction |].
  assert (Hrows : rows <> 1)
    by (apply (squeezed_no_ones seg); rewrite Es; now left).
  assert (Hcols : cols <> 1)
    by (apply (squeezed_no_ones seg); rewrite Es; right; now left).
  destruct (Z.eqb_spec rows (height / PATCH_SIZE)); [| reflexivity].
  destruct (Z.eqb_spec cols (width / PATCH_SIZE)); [| reflexivity].
  lia.
Qed.

Lemma sample_rows_single_patch_line_witness :
  let inputs := [(7, mkNdArray [16; 48; 3] (fun _ => 0%Q))] in
  FitExperiment.sample_rows 16 inputs 7 (mkNdArray [1; 3] (fun _ => 1%Q)) =
  Raised ValueError.
Proof.
  intros inputs.
  apply (sample_rows_single_patch_line 16 inputs 7 (mkNdArray [1; 3] (fun _ => 1%Q))
           (mkNdArray [16; 48; 3] (fun _ => 0%Q)) 16 48 [3]);
    [discriminate | reflexivity | reflexivity | left; reflexivity].
Defined.

Lemma write_submission_ids_distinct_witness :
  let inputs := [(7, mkNdArray [32; 48; 3] (fun _ => 0%Q))] in
  let predictions := [(7, mkNdArray [2; 3] (fun _ => 1%Q))] in
  NoDup (map (hd ""%string)
           (tl (fst (FitExperiment.write_submission 16 inputs predictions)))).
Proof.
  intros inputs predictions.
  apply (write_submission_ids_distinct 16 inputs predictions).
  - discriminate.
  - repeat constructor. intros [].
Defined.

(** ** Prediction *)

Section PredictLabels.

Variable rgb2lab : Q * Q * Q -> Q * Q * Q.
Variable classifier_predict : Array3 -> result (list Array3).

Lemma predict_inv (images result : list (Z * Array3)) :
  predict rgb2lab classifier_predict images = Ok result ->
  Forall2
    (fun image prediction =>
       fst prediction = fst image /\
       exists lab raw,
         convert_colorspace rgb2lab (snd image) = Ok lab /\
         classifier_predict lab = Ok [raw] /\
         snd prediction = np_where_nonnegative raw)
    images result.
Proof.
  revert result. induction images as [| [sample_id image] rest IH]; intros result E.
  - cbn in E. injection E as <-. constructor.
  - cbn [predict] in E.
    destruct (convert_colorspace rgb2lab image) as [lab | e] eqn:El;
      cbn [bind] in E; [| discriminate].
    destruct (classifier_predict lab) as [[| raw [| ? ?]] | e] eqn:Ec;
      cbn [bind] in E; try discriminate.
    destruct (predict rgb2lab classifier_predict rest) as [more | e] eqn:Er;
      cbn [bind] in E; [| discriminate].
    injection E as <-. constructor; [| now apply IH].
    cbn [fst snd]. split; [reflexivity |]. now exists lab, raw.
Qed.

(** What [predict] returns: one prediction per image, under the same
    sample ids and in the same order; each is the classifier's raw output
    for the converted image thresholded at zero, so it has the raw
    output's size and every element is exactly 0 or 1, 1 where the raw
    value is not negative. *)
Theorem predict_thresholds (images result : list (Z * Array3)) :
  predict rgb2lab classifier_predict images = Ok result ->
  map fst result = map fst images /\
  Forall2
    (fun image prediction =>
       exists lab raw,
         convert_colorspace rgb2lab (snd image) = Ok lab /\
         classifier_predict lab = Ok [raw] /\
         dim_y (snd prediction) = dim_y raw /\
         dim_x (snd prediction) = dim_x raw /\
         dim_c (snd prediction) = dim_c raw /\
         forall y x c,
           (0 <= item raw y x c -> item (snd prediction) y x c = 1)%Q /\
           (item raw y x c < 0 -> item (snd prediction) y x c = 0)%Q)
    images result.
Proof.
  intros E. apply predict_inv in E.
  induction E as [| image prediction images result (Hid & lab & raw & Hl & Hc & Hp) _ IH].
  - split; constructor.
  - destruct IH as [IHids IHall]. split.
    + cbn [map]. now rewrite Hid, IHids.
    + constructor; [| exact IHall].
      exists lab, raw. rewrite Hp. cbn [np_where_nonnegative dim_y dim_x dim_c item].
      repeat split; try assumption.
      * intros H. apply Qle_bool_iff in H. now rewrite H.
      * intros H. destruct (Qle_bool 0 (item raw y x c)) eqn:B; [| reflexivity].
        apply Qle_bool_iff in B. lra.
Qed.

(** [predict] stops at the first sample whose classifier output is not a
    batch of exactly one prediction: unpacking it raises ValueError and
    no predictions are returned at all. *)
Theorem predict_needs_single_output (images rest : list (Z * Array3))
    (sample_id : Z) (image lab : Array3) (batch : list Array3) :
  (exists done, predict rgb2lab classifier_predict images = Ok done) ->
  convert_colorspace rgb2lab image = Ok lab ->
  classifier_predict lab = Ok batch ->
  List.length batch <> 1%nat ->
  predict rgb2lab classifier_predict (images ++ (sample_id, image) :: rest) =
  Raise ValueError.
Proof.
  intros Hdone Hl Hc Hlen.
  induction images as [| [sample_id' image'] images IH].
  - cbn [app predict]. rewrite Hl. cbn [bind]. rewrite Hc. cbn [bind].
    destruct batch as [| raw [| ? ?]]; try reflexivity.
    now contradiction Hlen.
  - destruct Hdone as [done Hdone]. cbn [app predict] in *.
    destruct (convert_colorspace rgb2lab image') as [lab' | e];
      cbn [bind] in *; [| discriminate].
    destruct (classifier_predict lab') as [[| raw [| ? ?]] | e];
      cbn [bind] in *; try discriminate.
    destruct (predict rgb2lab classifier_predict images) as [more | e];
      cbn [bind] in Hdone; [| discriminate].
    rewrite IH by now exists more. reflexivity.
Qed.

End PredictLabels.

Lemma predict_thresholds_witness :
  let classifier_predict :=
    fun lab : Array3 =>
      Ok [mkArray3 (dim_y lab) (dim_x lab) 1
            (fun y x _ => item lab y x 0 - (1 # 100))%Q] in
  exists result,
    predict (fun p => p) classifier_predict [(7, grey_image 4 4)] = Ok result /\
    map fst result = [7].
Proof.
  intros classifier_predict.
  assert (E : exists result,
            predict (fun p => p) classifier_predict [(7, grey_image 4 4)] = Ok result).
  { eexists. cbn [predict]. unfold convert_colorspace.
    cbn [grey_image dim_c Z.eqb Pos.eqb bind]. reflexivity. }
  destruct E as [result E]. exists result. split; [exact E |].
  exact (proj1 (predict_thresholds (fun p => p) classifier_predict
                  [(7, grey_image 4 4)] result E)).
Defined.

Lemma predict_needs_single_output_witness :
  let classifier_predict := fun lab : Array3 => Ok [lab; lab] in
  predict (fun p => p) classifier_predict ([] ++ (7, grey_image 4 4) :: []) =
  Raise ValueError.
Proof.
  intros classifier_predict.
  eapply (predict_needs_single_output (fun p => p) classifier_predict
            [] [] 7 (grey_image 4 4)).
  - exists []. reflexivity.
  - reflexivity.
  - reflexivity.
  - discriminate.
Defined.

(** ** Temperature decay *)

Lemma py_max_bounds (a b : Q) :
  (a <= TemperatureDecayCallback.py_max a b /\
   b <= TemperatureDecayCallback.py_max a b)%Q.
Proof.
  unfold TemperatureDecayCallback.py_max.
  destruct (Qcompare b a) eqn:C.
  - apply Qeq_alt in C. split; lra.
  - apply Qlt_alt in C. split; lra.
  - apply Qgt_alt in C. split; lra.
Qed.

Lemma py_max_cases (a b : Q) :
  ((b <= a /\ TemperatureDecayCallback.py_max a b = a) \/
   (a < b /\ TemperatureDecayCallback.py_max a b = b))%Q.
Proof.
  unfold TemperatureDecayCallback.py_max.
  destruct (Qcompare b a) eqn:C.
  - apply Qeq_alt in C. left. split; [lra | reflexivity].
  - apply Qlt_alt in C. left. split; [lra | reflexivity].
  - apply Qgt_alt in C. right. split; [lra | reflexivity].
Qed.

Lemma decayed_step (initial rate : Q) (epoch : Z) :
  0 <= epoch -> (0 <= initial)%Q -> (0 <= rate <= 1)%Q ->
  (0 <= initial * rate ^ (epoch + 1 + 1) <= initial * rate ^ (epoch + 1))%Q.
Proof.
  intros He Hi Hr.
  assert (Hp : (0 <= rate ^ (epoch + 1))%Q) by (apply Qpower_0_le; lra).
  rewrite (Qpower_plus' rate (epoch + 1) 1) by lia.
  change (rate ^ 1)%Q with rate.
  generalize dependent (rate ^ (epoch + 1))%Q. intros p Hp.
  assert (H0 : (0 <= p * rate)%Q) by (apply Qmult_le_0_compat; lra).
  assert (H1 : (p * rate <= p * 1)%Q)
    by (apply Qmult_le_compat_nonneg; split; lra).
  split.
  - apply Qmult_le_0_compat; lra.
  - assert (H2 : (initial * (p * rate) <= initial * (p * 1))%Q)
      by (apply Qmult_le_compat_nonneg; split; lra).
    ring_simplify in H2. ring_simplify. exact H2.
Qed.

(** The temperature assigned at the end of an epoch is never below the
    minimum temperature, whatever the parameters and the epoch; for a
    non-negative initial temperature, a decay rate between 0 and 1 and
    epochs counted from 0 it never rises from one epoch to the next, and
    once it equals the minimum it stays there. *)
Theorem temperature_decays_to_minimum (self : TemperatureDecayCallback.t) (epoch : Z) :
  (TemperatureDecayCallback.min_temperature self <=
     TemperatureDecayCallback.on_epoch_end self epoch)%Q /\
  (0 <= epoch ->
   (0 <= TemperatureDecayCallback.initial_temperature self)%Q ->
   (0 <= TemperatureDecayCallback.decay_rate self <= 1)%Q ->
   (TemperatureDecayCallback.on_epoch_end self (epoch + 1) <=
      TemperatureDecayCallback.on_epoch_end self epoch)%Q /\
   (TemperatureDecayCallback.on_epoch_end self epoch ==
      TemperatureDecayCallback.min_temperature self ->
    TemperatureDecayCallback.on_epoch_end self (epoch + 1) ==
      TemperatureDecayCallback.min_temperature self)%Q).
Proof.
  split.
  - unfold TemperatureDecayCallback.on_epoch_end. cbv zeta.
    apply py_max_bounds.
  - intros He Hi Hr. unfold TemperatureDecayCallback.on_epoch_end. cbv zeta.
    pose proof (decayed_step _ _ epoch He Hi Hr) as [_ Hstep].
    generalize dependent
      (TemperatureDecayCallback.initial_temperature self *
       TemperatureDecayCallback.decay_rate self ^ (epoch + 1 + 1))%Q.
    generalize dependent
      (TemperatureDecayCallback.initial_temperature self *
       TemperatureDecayCallback.decay_rate self ^ (epoch + 1))%Q.
    intros now_ next Hstep.
    set (m := TemperatureDecayCallback.min_temperature self).
    pose proof (py_max_bounds now_ m) as [B1 B2].
    pose proof (py_max_bounds next m) as [B3 B4].
    destruct (py_max_cases now_ m) as [[C1 ->] | [C1 ->]];
      destruct (py_max_cases next m) as [[C2 ->] | [C2 ->]];
      repeat split; try lra; intros; lra.
Qed.

Lemma temperature_decays_to_minimum_witness :
  let self := TemperatureDecayCallback.mk 2 (1 # 2) (1 # 2) in
  (TemperatureDecayCallback.min_temperature self <=
     TemperatureDecayCallback.on_epoch_end self 3)%Q /\
  (TemperatureDecayCallback.on_epoch_end self (3 + 1) <=
     TemperatureDecayCallback.on_epoch_end self 3)%Q.
Proof.
  intros self.
  assert (He : 0 <= 3) by lia.
  assert (Hi : (0 <= TemperatureDecayCallback.initial_temperature self)%Q)
    by (cbn; lra).
  assert (Hr : (0 <= TemperatureDecayCallback.decay_rate self <= 1)%Q)
    by (cbn; lra).
  destruct (temperature_decays_to_minimum self 3) as (H1 & H2).
  split; [exact H1 | exact (proj1 (H2 He Hi Hr))].
Defined.
